(** * Boot-environment rendering and lifecycle engine (bootenv.go)

    A shallow embedding of [bootenv.go]: the path resolver [PathFor], the
    rendering pipeline ([parseTemplates], [RenderPaths], [RenderTemplates]),
    the media preparer [explode_iso], the file fetcher ([get_file],
    [validate_file]) and the lifecycle hooks [onChange] and [onDelete].

    The functions of the Go standard library that the file calls ([path.Join],
    [path.Dir], [os.MkdirAll], [os.Create], ...) are modelled in the modules
    [GoPath] and [GoOS]; the template engine, the network, the hash function
    and the extraction script are fields of a [Platform] record. *)

From Stdlib Require Import Ascii String.
From stdpp Require Import base option list strings gmap fin_maps.

Open Scope string_scope.
Open Scope list_scope.

(** ** Go's [path] package *)

Module GoPath.

(** [strings.Split(s, "/")]. *)
Fixpoint split_slash (s : string) : list string :=
  match s with
  | EmptyString => [EmptyString]
  | String c s' =>
      if Ascii.eqb c "/"%char then EmptyString :: split_slash s'
      else match split_slash s' with
           | [] => [String c EmptyString]
           | x :: xs => String c x :: xs
           end
  end.

(** [strings.Join(l, "/")]. *)
Definition join_slash (l : list string) : string := String.concat "/" l.

(** One element of the scan of [path.Clean]. [out] holds the elements
    written so far, last one first. An empty element and [.] are skipped;
    [..] removes the last real element, is kept in front of a path that is
    not rooted, and is dropped at the root. *)
Definition clean_elem (rooted : bool) (out : list string) (e : string)
  : list string :=
  if decide (e = "") then out
  else if decide (e = ".") then out
  else if decide (e = "..") then
    match out with
    | top :: rest =>
        if decide (top = "..") then (if rooted then out else e :: out)
        else rest
    | [] => if rooted then [] else [e]
    end
  else e :: out.

Definition is_rooted (p : string) : bool :=
  match p with
  | String c _ => Ascii.eqb c "/"%char
  | EmptyString => false
  end.

(** [path.Clean]. *)
Definition Clean (p : string) : string :=
  if decide (p = "") then "."
  else
    let rooted := is_rooted p in
    let out := fold_left (clean_elem rooted) (split_slash p) [] in
    let body := join_slash (rev out) in
    if rooted then "/" +:+ body
    else if decide (body = "") then "." else body.

(** [path.Join]: the elements from the first one that is not empty are
    joined with slashes and the result is cleaned; [""] when there is
    none. *)
Fixpoint Join (elem : list string) : string :=
  match elem with
  | [] => ""
  | e :: rest =>
      if decide (e = "") then Join rest else Clean (join_slash elem)
  end.

(** [path.Split], directory part: everything up to and including the last
    slash. *)
Definition Split_dir (p : string) : string :=
  match rev (split_slash p) with
  | [] | [_] => ""
  | _ :: r => join_slash (rev r) +:+ "/"
  end.

(** [path.Dir]. *)
Definition Dir (p : string) : string := Clean (Split_dir p).

(** The last element of a slash-separated path. *)
Definition last_elem (p : string) : string := List.last (split_slash p) "".

(** [strings.HasSuffix]. *)
Definition HasSuffix (s suffix : string) : bool :=
  String.prefix (String.rev suffix) (String.rev s).

End GoPath.

(** ** Go's [os] package over a finite map of paths *)

Module GoOS.

(** What a path names: a regular file with its contents, or a directory. *)
Inductive Node :=
| File (contents : string)
| Directory.

Abbreviation FS := (gmap string Node).

(** [os.Stat]: the root and the current directory always exist; for a path
    that is not in the map it returns an error. *)
Definition Stat (fs : FS) (p : string) : option Node :=
  if decide (p = "/") then Some Directory
  else if decide (p = ".") then Some Directory
  else fs !! p.

(** The proper prefixes of [s] that end just before a slash, the longest
    first; a leading slash is no such end. *)
Fixpoint slash_prefixes (pre s : string) (acc : list string) : list string :=
  match s with
  | EmptyString => acc
  | String c s' =>
      slash_prefixes (pre +:+ String c EmptyString) s'
        (if Ascii.eqb c "/"%char && negb (bool_decide (pre = ""))
         then pre :: acc else acc)
  end.

(** A regular file is in the way of [p]: one of its proper ancestors is a
    regular file. The error of [os.Stat] is then ENOTDIR. *)
Definition in_the_way (fs : FS) (p : string) : bool :=
  existsb (λ a, match fs !! a with Some (File _) => true | _ => false end)
    (slash_prefixes "" p []).

(** [os.IsNotExist] of the error of [os.Stat]: true for ENOENT only, not
    when there is no error and not when a regular file is in the way. *)
Definition IsNotExist (fs : FS) (p : string) : bool :=
  match Stat fs p with
  | Some _ => false
  | None => negb (in_the_way fs p)
  end.

(** The path and its ancestors, as [os.MkdirAll] visits them. *)
Definition ancestors (p : string) : list string :=
  p :: slash_prefixes "" p [].

(** [os.MkdirAll] along [ancestors p]: a directory that exists is success,
    a file in the way is an error, otherwise the parent is made first and
    then the directory itself. *)
Fixpoint MkdirAll_from (fs : FS) (chain : list string) : FS * bool :=
  match chain with
  | [] => (fs, true)
  | p :: parents =>
      match Stat fs p with
      | Some Directory => (fs, true)
      | Some (File _) => (fs, false)
      | None =>
          let '(fs1, ok) := MkdirAll_from fs parents in
          if ok then (<[p := Directory]> fs1, true) else (fs1, false)
      end
  end.

Definition MkdirAll (fs : FS) (p : string) : FS * bool :=
  MkdirAll_from fs (ancestors p).

(** [os.Create]: the file is created or truncated; it fails on a directory
    and when the parent directory does not exist. *)
Definition Create (fs : FS) (p : string) : option FS :=
  match Stat fs p with
  | Some Directory => None
  | _ =>
      match Stat fs (GoPath.Dir p) with
      | Some Directory => Some (<[p := File ""]> fs)
      | _ => None
      end
  end.

(** Writing [data] through a handle on [p], opened by [Create]. *)
Definition Write (fs : FS) (p data : string) : FS :=
  match fs !! p with
  | Some (File old) => <[p := File (old +:+ data)]> fs
  | _ => fs
  end.

Definition has_children (fs : FS) (p : string) : bool :=
  existsb (String.prefix (p +:+ "/")) (map_to_list fs).*1.

(** [os.Remove]: a file, or a directory that is empty. *)
Definition Remove (fs : FS) (p : string) : option FS :=
  match fs !! p with
  | Some (File _) => Some (delete p fs)
  | Some Directory => if has_children fs p then None else Some (delete p fs)
  | None => None
  end.

End GoOS.

Import GoOS.

(** ** Data model *)

(** Modelled from the spec: the machine record ([Machine], declared in another
    file of the repository); the fields that [bootenv.go] reads are its
    name, the name of its boot environment and its parameter set. *)
Record Machine := {
  Machine_Name : string;
  Machine_BootEnv : string;
  Machine_Params : gmap string string;
}.

(** Modelled from the spec: the content template stored outside the boot
    environment and fetched by identifier ([Template], declared in another
    file of the repository). The compiled form is determined by [Contents]. *)
Record Template := {
  Template_UUID : string;
  Template_Contents : string;
}.

(** [TemplateInfo]. A compiled path template is represented by its source
    text; [None] is Go's [nil]. *)
Record TemplateInfo := {
  TemplateInfo_Name : string;
  TemplateInfo_Path : string;
  TemplateInfo_UUID : string;
  pathTmpl : option string;
  finalPath : string;
  contents : option Template;
}.

Record FileData := {
  FileData_URL : string;
  FileData_Name : string;
  FileData_ValidationURL : string;
  FileData_ValidationMethod : string;
}.

Record OsInfo := {
  OsInfo_Name : string;
  OsInfo_Family : string;
  OsInfo_Codename : string;
  OsInfo_Version : string;
  OsInfo_IsoFile : string;
  OsInfo_IsoSha256 : string;
  OsInfo_IsoUrl : string;
  OsInfo_Files : list FileData;
}.

Record BootEnv := {
  BootEnv_Name : string;
  BootEnv_OS : OsInfo;
  BootEnv_Templates : list TemplateInfo;
  BootEnv_Kernel : string;
  BootEnv_Initrds : list string;
  BootEnv_BootParams : string;
  BootEnv_RequiredParams : list string;
  bootParamsTmpl : option string;
  BootEnv_TenantId : Z;
}.

Record RenderData := {
  RenderData_Machine : Machine;
  RenderData_Env : BootEnv;
  RenderData_ProvisionerURL : string;
  RenderData_CommandURL : string;
  RenderData_TenantId : Z;
}.

(** The errors [bootenv.go] returns, one constructor for each place that
    makes one; the arguments are the values its message is formatted from. *)
Inductive Error :=
| ErrCompilePath (name path err : string)
| ErrLoadTemplate (uuid name : string)
| ErrCompileTemplate (name err contents : string)
| ErrCompileBootParams (err params : string)
| ErrRenderPath (name path err : string)
| ErrMissingRequiredParams (env machine : string) (missing : list string)
| ErrTemplateDir (path : string)
| ErrTemplateCreate (path : string)
| ErrRenderTemplate (name err contents : string)
| ErrNoSuchParam (key : string)
| ErrIsoOpen (isoPath : string)
| ErrIsoRead (isoPath : string)
| ErrChecksumBad (isoPath actual expected : string)
| ErrExec (err : string)
| ErrFileDir (path : string)
| ErrFileCreate (path : string)
| ErrHttpGet (err : string)
| ErrCopy (err : string)
| ErrValidate (path : string)
| ErrIllegalTemplate (t : TemplateInfo)
| ErrMissingBootTemplate
| ErrMissingKernel (env kernel kPath : string)
| ErrInvalidKernel (env kernel kPath : string)
| ErrMissingInitrd (env initrd iPath : string)
| ErrInvalidInitrd (env initrd iPath : string)
| ErrRename
| ErrList (err : string)
| ErrInUse (env machine : string).

(** What the functions do to the outside, as the calls of the source. *)
Inductive Effect :=
| EPrintf (msg : string)
| EFatalf (msg : string)
| EExecute (name : string)
| ERender (name : string)
| EMkdirAll (path : string)
| ECreate (path : string)
| ERemove (path : string)
| ESync (path : string)
| ESha256 (path : string)
| ECommand (name : string) (args : list string)
| EHttpGet (url : string).

(** The process-wide configuration ([fileRoot], [provisionerURL],
    [commandURL]) and the collaborators outside the repository:
    - [tmpl_parse src]: [text/template]'s [Parse], its error if any;
    - [tmpl_execute src vars]: [Execute] with [missingkey=error], the text
      written before it stopped and its error if any;
    - [sha256_hex data]: the hexadecimal SHA-256 digest;
    - [http_get url]: the error of [http.Get], or the part of the body that
      [io.Copy] copied and its error if any;
    - [explode_iso_sh args fs]: what [/explode_iso.sh] does to the files, and
      its error if any. *)
Record Platform := {
  fileRoot : string;
  provisionerURL : string;
  commandURL : string;
  tmpl_parse : string → option string;
  tmpl_execute : string → RenderData → string * option string;
  sha256_hex : string → string;
  http_get : string → string + (string * option string);
  explode_iso_sh : list string → FS → FS * option string;
}.

(** The state outside the boot environment: the files, the record store
    (content templates by identifier, and the outcome of listing the
    machines), and the effects so far, the latest first. *)
Record World := {
  fs : FS;
  templates : gmap string string;
  machines : string + list Machine;
  effects : list Effect;
}.

Definition set_fs (w : World) (fs' : FS) : World :=
  {| fs := fs'; templates := templates w; machines := machines w;
     effects := effects w |}.

Definition add_effect (w : World) (e : Effect) : World :=
  {| fs := fs w; templates := templates w; machines := machines w;
     effects := e :: effects w |}.

(** A call returns a value, or the process terminates in it
    ([logger.Fatalf], a nil dereference). *)
Inductive Run (A : Type) :=
| Returns (a : A)
| Aborts.
Arguments Returns {A} a.
Arguments Aborts {A}.

Definition M (A : Type) : Type := World → World * Run A.

#[global] Instance M_ret : MRet M := λ A a w, (w, Returns a).
#[global] Instance M_bind : MBind M := λ A B k m w,
  match m w with
  | (w', Returns a) => k a w'
  | (w', Aborts) => (w', Aborts)
  end.

Definition effect (e : Effect) : M unit := λ w, (add_effect w e, Returns ()).
Definition get_fs : M FS := λ w, (w, Returns (fs w)).
Definition put_fs (fs' : FS) : M unit := λ w, (set_fs w fs', Returns ()).
Definition abort {A} : M A := λ w, (w, Aborts).

(** The value that a run returns, and [d] when it ends the process. *)
Definition returned {A} (d : A) (r : World * Run A) : A :=
  match r.2 with
  | Returns a => a
  | Aborts => d
  end.

Definition nl : string := String (ascii_of_nat 10) EmptyString.

Definition set_pathTmpl (t : TemplateInfo) (c : option string) : TemplateInfo :=
  {| TemplateInfo_Name := TemplateInfo_Name t;
     TemplateInfo_Path := TemplateInfo_Path t;
     TemplateInfo_UUID := TemplateInfo_UUID t;
     pathTmpl := c; finalPath := finalPath t; contents := contents t |}.

Definition set_finalPath (t : TemplateInfo) (p : string) : TemplateInfo :=
  {| TemplateInfo_Name := TemplateInfo_Name t;
     TemplateInfo_Path := TemplateInfo_Path t;
     TemplateInfo_UUID := TemplateInfo_UUID t;
     pathTmpl := pathTmpl t; finalPath := p; contents := contents t |}.

Definition set_contents (t : TemplateInfo) (c : option Template) : TemplateInfo :=
  {| TemplateInfo_Name := TemplateInfo_Name t;
     TemplateInfo_Path := TemplateInfo_Path t;
     TemplateInfo_UUID := TemplateInfo_UUID t;
     pathTmpl := pathTmpl t; finalPath := finalPath t; contents := c |}.

Definition set_Templates (b : BootEnv) (ts : list TemplateInfo) : BootEnv :=
  {| BootEnv_Name := BootEnv_Name b; BootEnv_OS := BootEnv_OS b;
     BootEnv_Templates := ts; BootEnv_Kernel := BootEnv_Kernel b;
     BootEnv_Initrds := BootEnv_Initrds b;
     BootEnv_BootParams := BootEnv_BootParams b;
     BootEnv_RequiredParams := BootEnv_RequiredParams b;
     bootParamsTmpl := bootParamsTmpl b;
     BootEnv_TenantId := BootEnv_TenantId b |}.

Definition set_bootParamsTmpl (b : BootEnv) (c : option string) : BootEnv :=
  {| BootEnv_Name := BootEnv_Name b; BootEnv_OS := BootEnv_OS b;
     BootEnv_Templates := BootEnv_Templates b;
     BootEnv_Kernel := BootEnv_Kernel b;
     BootEnv_Initrds := BootEnv_Initrds b;
     BootEnv_BootParams := BootEnv_BootParams b;
     BootEnv_RequiredParams := BootEnv_RequiredParams b;
     bootParamsTmpl := c;
     BootEnv_TenantId := BootEnv_TenantId b |}.

(** ** The functions of [bootenv.go] *)

Section BootEnv.

Variable P : Platform.

Definition logger_Printf (msg : string) : M unit := effect (EPrintf msg).

Definition logger_Fatalf {A} (msg : string) : M A :=
  effect (EFatalf msg) ;; abort.

Definition os_Stat (p : string) : M (option Node) :=
  fs ← get_fs; mret (Stat fs p).

(** [os.Stat] with [os.IsNotExist] applied to its error. *)
Definition os_Stat_IsNotExist (p : string) : M bool :=
  fs ← get_fs; mret (IsNotExist fs p).

(** [os.Open] for reading: what the path names, when it can be opened. A
    directory opens; reading it fails. *)
Definition os_Open (p : string) : M (option Node) :=
  fs ← get_fs; mret (Stat fs p).

Definition os_MkdirAll (p : string) : M bool :=
  effect (EMkdirAll p) ;;
  fs ← get_fs;
  let '(fs', ok) := MkdirAll fs p in
  put_fs fs' ;; mret ok.

Definition os_Create (p : string) : M bool :=
  effect (ECreate p) ;;
  fs ← get_fs;
  match Create fs p with
  | Some fs' => put_fs fs' ;; mret true
  | None => mret false
  end.

Definition os_Write (p data : string) : M unit :=
  fs ← get_fs; put_fs (Write fs p data).

Definition os_Remove (p : string) : M bool :=
  effect (ERemove p) ;;
  fs ← get_fs;
  match Remove fs p with
  | Some fs' => put_fs fs' ;; mret true
  | None => mret false
  end.

(** Modelled from the spec: [backend.load] of a content template, fetched
    from the external template store by identifier; [None] is its error. *)
Definition backend_load (store : gmap string string) (uuid : string)
  : option string :=
  store !! uuid.

(** Modelled from the spec: [Machine.List], the list-machines query of the
    external record store. *)
Definition Machine_List : M (string + list Machine) :=
  λ w, (w, Returns (machines w)).

(** Modelled from the spec: [Template.Parse] and [Template.Render], the
    content template compiled and evaluated with strict binding. *)
Definition Template_Parse (t : Template) : option string :=
  tmpl_parse P (Template_Contents t).

Definition Template_Render (t : Template) (vars : RenderData)
  : string * option string :=
  tmpl_execute P (Template_Contents t) vars.

(** [vars] of [RenderPaths] and [RenderTemplates]; [Env] is the boot
    environment itself, so the record is built from its current value. *)
Definition mkRenderData (b : BootEnv) (machine : Machine) : RenderData :=
  {| RenderData_Machine := machine; RenderData_Env := b;
     RenderData_ProvisionerURL := provisionerURL P;
     RenderData_CommandURL := commandURL P;
     RenderData_TenantId := 0 |}.

Definition Param (r : RenderData) (key : string) : Error + string :=
  match Machine_Params (RenderData_Machine r) !! key with
  | Some res => inr res
  | None => inl (ErrNoSuchParam key)
  end.

Definition InstallUrl (o : OsInfo) : string :=
  provisionerURL P +:+ "/" +:+ GoPath.Join [OsInfo_Name o; "install"].

(** The local [res] of [PathFor]: the OS name, followed by [install]
    unless the name is [discovery]. *)
Definition installSegment (b : BootEnv) : string :=
  let res := OsInfo_Name (BootEnv_OS b) in
  if decide (res ≠ "discovery") then GoPath.Join [res; "install"] else res.

Definition PathFor (b : BootEnv) (proto f : string) : M string :=
  let res := installSegment b in
  if decide (proto = "disk") then mret (GoPath.Join [fileRoot P; res; f])
  else if decide (proto = "tftp") then mret (GoPath.Join [res; f])
  else if decide (proto = "http")
  then mret (provisionerURL P +:+ "/" +:+ GoPath.Join [res; f])
  else logger_Fatalf ("Unknown protocol " +:+ proto).

Fixpoint parseTemplates_loop (store : gmap string string)
    (ts : list TemplateInfo) : list TemplateInfo * option Error :=
  match ts with
  | [] => ([], None)
  | templateParams :: rest =>
      match tmpl_parse P (TemplateInfo_Path templateParams) with
      | Some err =>
          (ts, Some (ErrCompilePath (TemplateInfo_Name templateParams)
                       (TemplateInfo_Path templateParams) err))
      | None =>
          let t1 :=
            set_pathTmpl templateParams
              (Some (TemplateInfo_Path templateParams)) in
          match contents t1 with
          | Some _ =>
              let '(rest', err) := parseTemplates_loop store rest in
              (t1 :: rest', err)
          | None =>
              match backend_load store (TemplateInfo_UUID t1) with
              | None =>
                  (t1 :: rest,
                   Some (ErrLoadTemplate (TemplateInfo_UUID t1)
                           (TemplateInfo_Name t1)))
              | Some c =>
                  let tmpl :=
                    {| Template_UUID := TemplateInfo_UUID t1;
                       Template_Contents := c |} in
                  match Template_Parse tmpl with
                  | Some err =>
                      (t1 :: rest,
                       Some (ErrCompileTemplate (TemplateInfo_Name t1) err c))
                  | None =>
                      let '(rest', err) := parseTemplates_loop store rest in
                      (set_contents t1 (Some tmpl) :: rest', err)
                  end
              end
          end
      end
  end.

Definition parseTemplates (b : BootEnv) : M (BootEnv * option Error) :=
  λ w,
    let '(ts, err) := parseTemplates_loop (templates w) (BootEnv_Templates b) in
    let b1 := set_Templates b ts in
    match err with
    | Some e => (w, Returns (b1, Some e))
    | None =>
        if decide (BootEnv_BootParams b1 ≠ "") then
          match tmpl_parse P (BootEnv_BootParams b1) with
          | Some err =>
              (w, Returns (b1, Some (ErrCompileBootParams err
                                       (BootEnv_BootParams b1))))
          | None =>
              (w, Returns (set_bootParamsTmpl b1
                             (Some (BootEnv_BootParams b1)), None))
          end
        else (w, Returns (b1, None))
    end.

(** The loop of [RenderPaths]: [done] holds the templates already given
    their [finalPath], last one first, so that [vars] sees the boot
    environment as the loop has left it. *)
Fixpoint RenderPaths_loop (b : BootEnv) (machine : Machine)
    (done todo : list TemplateInfo) : M (list TemplateInfo * option Error) :=
  match todo with
  | [] => mret (rev done, None)
  | templateParams :: rest =>
      match pathTmpl templateParams with
      | None => abort
      | Some src =>
          effect (EExecute (TemplateInfo_Name templateParams)) ;;
          let vars :=
            mkRenderData (set_Templates b (rev done ++ todo)) machine in
          match tmpl_execute P src vars with
          | (_, Some err) =>
              mret (rev done ++ todo,
                    Some (ErrRenderPath (TemplateInfo_Name templateParams)
                            (TemplateInfo_Path templateParams) err))
          | (pathBuf, None) =>
              RenderPaths_loop b machine
                (set_finalPath templateParams
                   (GoPath.Join [fileRoot P; pathBuf]) :: done) rest
          end
      end
  end.

Definition RenderPaths (b : BootEnv) (machine : Machine)
  : M (BootEnv * option Error) :=
  '(ts, err) ← RenderPaths_loop b machine [] (BootEnv_Templates b);
  mret (set_Templates b ts, err).

(** The second loop of [RenderTemplates]: directory, file, contents. *)
Fixpoint render_loop (vars : RenderData) (ts : list TemplateInfo)
  : M (option Error) :=
  match ts with
  | [] => mret None
  | templateParams :: rest =>
      let tmplPath := finalPath templateParams in
      ok ← os_MkdirAll (GoPath.Dir tmplPath);
      if negb ok then mret (Some (ErrTemplateDir tmplPath)) else
      ok ← os_Create tmplPath;
      if negb ok then mret (Some (ErrTemplateCreate tmplPath)) else
      match contents templateParams with
      | None => abort
      | Some tmpl =>
          effect (ERender (TemplateInfo_Name templateParams)) ;;
          let '(out, err) := Template_Render tmpl vars in
          os_Write tmplPath out ;;
          match err with
          | Some e =>
              os_Remove tmplPath ;;
              mret (Some (ErrRenderTemplate
                            (TemplateInfo_Name templateParams) e
                            (Template_Contents tmpl)))
          | None =>
              effect (ESync tmplPath) ;;
              render_loop vars rest
          end
      end
  end.

(** The required parameters that [machine.Params] lacks, in the order of
    [RequiredParams]. *)
Definition missingParams (b : BootEnv) (machine : Machine) : list string :=
  filter (λ param, Machine_Params machine !! param = None)
    (BootEnv_RequiredParams b).

Definition RenderTemplates (b : BootEnv) (machine : Machine)
  : M (BootEnv * option Error) :=
  '(b, err) ← parseTemplates b;
  match err with
  | Some e => mret (b, Some e)
  | None =>
      '(b, err) ← RenderPaths b machine;
      match err with
      | Some e => mret (b, Some e)
      | None =>
          match missingParams b machine with
          | (_ :: _) as missing =>
              mret (b, Some (ErrMissingRequiredParams (BootEnv_Name b)
                               (Machine_Name machine) missing))
          | [] =>
              err ← render_loop (mkRenderData b machine) (BootEnv_Templates b);
              mret (b, err)
          end
      end
  end.

(** [explode_iso]. The test on the canary marker is [err == nil]; the test
    on the ISO is [os.IsNotExist(err)], so an ISO on which [os.Stat] fails
    in another way is not skipped: with a checksum it fails to open, and
    without one the script is run. *)
Definition explode_iso (b : BootEnv) : M (option Error) :=
  if negb (GoPath.HasSuffix (BootEnv_Name b) "-install") then
    logger_Printf ("Explode ISO: Skipping " +:+ BootEnv_Name b
                   +:+ " becausing not -install" +:+ nl) ;;
    mret None
  else if decide (OsInfo_IsoFile (BootEnv_OS b) = "") then
    logger_Printf ("Explode ISO: Skipping " +:+ BootEnv_Name b
                   +:+ " becausing no iso image specified" +:+ nl) ;;
    mret None
  else
    canaryPath ← PathFor b "disk"
      ("." +:+ OsInfo_Name (BootEnv_OS b) +:+ ".rebar_canary");
    canary ← os_Stat canaryPath;
    match canary with
    | Some _ =>
        logger_Printf ("Explode ISO: Skipping " +:+ BootEnv_Name b
                       +:+ " becausing canary file, " +:+ canaryPath
                       +:+ ", in place" +:+ nl) ;;
        mret None
    | None =>
        let isoPath :=
          GoPath.Join [fileRoot P; "isos"; OsInfo_IsoFile (BootEnv_OS b)] in
        missing ← os_Stat_IsNotExist isoPath;
        if (missing : bool) then
            logger_Printf ("Explode ISO: Skipping " +:+ BootEnv_Name b
                           +:+ " becausing iso doesn't exist: " +:+ isoPath
                           +:+ nl) ;;
            mret None
        else
            sum ← (if decide (OsInfo_IsoSha256 (BootEnv_OS b) ≠ "") then
                     f ← os_Open isoPath;
                     match f with
                     | None =>
                         logger_Printf ("Explode ISO: For " +:+ BootEnv_Name b
                                        +:+ ", failed to open iso file "
                                        +:+ isoPath +:+ nl) ;;
                         mret (Some (ErrIsoOpen isoPath))
                     | Some Directory =>
                         logger_Printf ("Explode ISO: For " +:+ BootEnv_Name b
                                        +:+ ", failed to read iso file "
                                        +:+ isoPath +:+ nl) ;;
                         mret (Some (ErrIsoRead isoPath))
                     | Some (File data) =>
                         effect (ESha256 isoPath) ;;
                         let hash := sha256_hex P data in
                         if decide (hash ≠ OsInfo_IsoSha256 (BootEnv_OS b))
                         then mret (Some (ErrChecksumBad isoPath hash
                                            (OsInfo_IsoSha256 (BootEnv_OS b))))
                         else mret None
                     end
                   else mret None);
            match sum with
            | Some e => mret (Some e)
            | None =>
                let cmdName := "/explode_iso.sh" in
                let cmdArgs := [OsInfo_Name (BootEnv_OS b); isoPath;
                                GoPath.Dir canaryPath] in
                effect (ECommand cmdName cmdArgs) ;;
                fs ← get_fs;
                let '(fs', err) := explode_iso_sh P cmdArgs fs in
                put_fs fs' ;;
                match err with
                | Some e =>
                    logger_Printf ("Explode ISO: Exec command failed for "
                                   +:+ BootEnv_Name b +:+ ": " +:+ e +:+ nl) ;;
                    mret (Some (ErrExec e))
                | None => mret None
                end
            end
    end.

Definition get_file (b : BootEnv) (f : FileData) : M (option Error) :=
  logger_Printf ("Downloading file: " +:+ FileData_Name f +:+ nl) ;;
  filePath ← PathFor b "disk" (FileData_Name f);
  ok ← os_MkdirAll (GoPath.Dir filePath);
  if negb ok then mret (Some (ErrFileDir filePath)) else
  ok ← os_Create filePath;
  if negb ok then mret (Some (ErrFileCreate filePath)) else
  effect (EHttpGet (FileData_URL f)) ;;
  match http_get P (FileData_URL f) with
  | inl err => mret (Some (ErrHttpGet err))
  | inr (body, err) =>
      os_Write filePath body ;;
      match err with
      | Some e => mret (Some (ErrCopy e))
      | None => mret None
      end
  end.

(** [validate_file]: the only failure is [os.IsNotExist] of the error of
    [os.Stat]. *)
Definition validate_file (b : BootEnv) (f : FileData) : M (option Error) :=
  logger_Printf ("Validating file: " +:+ FileData_Name f +:+ nl) ;;
  filePath ← PathFor b "disk" (FileData_Name f);
  missing ← os_Stat_IsNotExist filePath;
  if (missing : bool) then mret (Some (ErrValidate filePath)) else mret None.

(** The first loop of [onChange]: which of the three boot templates have
    been seen, or the first template with an empty name, path or UUID. *)
Fixpoint check_templates (ts : list TemplateInfo)
    (seenPxeLinux seenELilo seenIPXE : bool) : Error + (bool * bool * bool) :=
  match ts with
  | [] => inr (seenPxeLinux, seenELilo, seenIPXE)
  | template :: rest =>
      let seenPxeLinux :=
        if decide (TemplateInfo_Name template = "pxelinux") then true
        else seenPxeLinux in
      let seenELilo :=
        if decide (TemplateInfo_Name template = "elilo") then true
        else seenELilo in
      let seenIPXE :=
        if decide (TemplateInfo_Name template = "ipxe") then true
        else seenIPXE in
      if decide (TemplateInfo_Name template = ""
                 ∨ TemplateInfo_Path template = ""
                 ∨ TemplateInfo_UUID template = "")
      then inl (ErrIllegalTemplate template)
      else check_templates rest seenPxeLinux seenELilo seenIPXE
  end.

(** The structural check at the head of [onChange]. *)
Definition check_structure (b : BootEnv) : option Error :=
  match check_templates (BootEnv_Templates b) false false false with
  | inl e => Some e
  | inr (seenPxeLinux, seenELilo, seenIPXE) =>
      if negb seenIPXE then
        if negb (seenPxeLinux && seenELilo) then Some ErrMissingBootTemplate
        else None
      else None
  end.

(** The loop of [onChange] over [OS.Files]. *)
Fixpoint fetch_files (b : BootEnv) (files : list FileData)
  : M (option Error) :=
  match files with
  | [] => mret None
  | f :: rest =>
      invalid ← validate_file b f;
      err ← (match invalid with
             | Some _ => get_file b f
             | None => mret None
             end);
      match err with
      | Some e => mret (Some e)
      | None =>
          err ← validate_file b f;
          match err with
          | Some e => mret (Some e)
          | None => fetch_files b rest
          end
      end
  end.

Definition check_kernel (b : BootEnv) : M (option Error) :=
  if decide (BootEnv_Kernel b ≠ "") then
    kPath ← PathFor b "disk" (BootEnv_Kernel b);
    kernelStat ← os_Stat kPath;
    match kernelStat with
    | None =>
        mret (Some (ErrMissingKernel (BootEnv_Name b) (BootEnv_Kernel b) kPath))
    | Some Directory =>
        mret (Some (ErrInvalidKernel (BootEnv_Name b) (BootEnv_Kernel b) kPath))
    | Some (File _) => mret None
    end
  else mret None.

Fixpoint check_initrds (b : BootEnv) (initrds : list string)
  : M (option Error) :=
  match initrds with
  | [] => mret None
  | initrd :: rest =>
      iPath ← PathFor b "disk" initrd;
      initrdStat ← os_Stat iPath;
      match initrdStat with
      | None =>
          mret (Some (ErrMissingInitrd (BootEnv_Name b) initrd iPath))
      | Some Directory =>
          mret (Some (ErrInvalidInitrd (BootEnv_Name b) initrd iPath))
      | Some (File _) => check_initrds b rest
      end
  end.

(** The cascade of [onChange]: every machine bound to the old name is
    rendered again, in list order, until one fails. *)
Fixpoint cascade (b : BootEnv) (oldName : string) (ms : list Machine)
  : M (BootEnv * option Error) :=
  match ms with
  | [] => mret (b, None)
  | machine :: rest =>
      if decide (Machine_BootEnv machine ≠ oldName) then cascade b oldName rest
      else
        '(b, err) ← RenderTemplates b machine;
        match err with
        | Some e => mret (b, Some e)
        | None => cascade b oldName rest
        end
  end.

(** [onChange]; [oldThing] is [Some old] when it is a non-nil [*BootEnv]. *)
Definition onChange (b : BootEnv) (oldThing : option BootEnv)
  : M (BootEnv * option Error) :=
  match check_structure b with
  | Some e => mret (b, Some e)
  | None =>
      err ← (if decide (OsInfo_IsoFile (BootEnv_OS b) ≠ "") then
               logger_Printf ("Exploding ISO for "
                              +:+ OsInfo_Name (BootEnv_OS b) +:+ nl) ;;
               explode_iso b
             else mret None);
      match err with
      | Some e => mret (b, Some e)
      | None =>
          err ← fetch_files b (OsInfo_Files (BootEnv_OS b));
          match err with
          | Some e => mret (b, Some e)
          | None =>
              '(b, err) ← parseTemplates b;
              match err with
              | Some e => mret (b, Some e)
              | None =>
                  err ← check_kernel b;
                  match err with
                  | Some e => mret (b, Some e)
                  | None =>
                      err ← check_initrds b (BootEnv_Initrds b);
                      match err with
                      | Some e => mret (b, Some e)
                      | None =>
                          match oldThing with
                          | None => mret (b, None)
                          | Some old =>
                              if decide (BootEnv_Name old ≠ BootEnv_Name b)
                              then mret (b, Some ErrRename)
                              else
                                listed ← Machine_List;
                                match listed with
                                | inl err => mret (b, Some (ErrList err))
                                | inr machines =>
                                    cascade b (BootEnv_Name old) machines
                                end
                          end
                      end
                  end
              end
          end
      end
  end.

Fixpoint onDelete_loop (b : BootEnv) (ms : list Machine) : option Error :=
  match ms with
  | [] => None
  | machine :: rest =>
      if decide (Machine_BootEnv machine ≠ BootEnv_Name b)
      then onDelete_loop b rest
      else Some (ErrInUse (BootEnv_Name b) (Machine_Name machine))
  end.

Definition onDelete (b : BootEnv) : M (option Error) :=
  listed ← Machine_List;
  match listed with
  | inr machines => mret (onDelete_loop b machines)
  | inl err => mret (Some (ErrList err))
  end.

(** The value of [b.PathFor("disk", f)]. *)
Definition diskPath (b : BootEnv) (f : string) : string :=
  GoPath.Join [fileRoot P; installSegment b; f].

(** The locals [canaryPath] and [isoPath] of [explode_iso]. *)
Definition canaryPath (b : BootEnv) : string :=
  diskPath b ("." +:+ OsInfo_Name (BootEnv_OS b) +:+ ".rebar_canary").

Definition isoPath (b : BootEnv) : string :=
  GoPath.Join [fileRoot P; "isos"; OsInfo_IsoFile (BootEnv_OS b)].

(** [explode_iso] called [n] times in a row, as long as it succeeds. *)
Fixpoint explode_iso_times (b : BootEnv) (n : nat) : M (option Error) :=
  match n with
  | O => mret None
  | S n' =>
      err ← explode_iso b;
      match err with
      | Some e => mret (Some e)
      | None => explode_iso_times b n'
      end
  end.

End BootEnv.

(** Kinds of effects. *)
Definition is_EPrintf (e : Effect) : bool :=
  match e with EPrintf _ => true | _ => false end.

Definition is_EExecute (e : Effect) : bool :=
  match e with EExecute _ => true | _ => false end.

Definition is_ECommand (e : Effect) : bool :=
  match e with ECommand _ _ => true | _ => false end.

Definition is_ESha256 (e : Effect) : bool :=
  match e with ESha256 _ => true | _ => false end.

Definition is_EHttpGet (e : Effect) : bool :=
  match e with EHttpGet _ => true | _ => false end.

(** An effect on the files, or the evaluation of a content template. *)
Definition is_file_effect (e : Effect) : bool :=
  match e with
  | EMkdirAll _ | ECreate _ | ERemove _ | ESync _ | ERender _ => true
  | _ => false
  end.

Definition is_file (n : option Node) : Prop :=
  match n with Some (File _) => True | _ => False end.

(** Kinds of errors: of the compilation of the templates, and of the
    rendering of a path. *)
Definition is_compile_error (e : Error) : bool :=
  match e with
  | ErrCompilePath _ _ _ | ErrLoadTemplate _ _ | ErrCompileTemplate _ _ _
  | ErrCompileBootParams _ _ => true
  | _ => false
  end.

Definition is_path_error (e : Error) : bool :=
  match e with ErrRenderPath _ _ _ => true | _ => false end.

(** The boot environment has a template of this name. *)
Definition has_template (name : string) (b : BootEnv) : Prop :=
  name ∈ TemplateInfo_Name <$> BootEnv_Templates b.

(** The name, the path and the UUID of the template are not empty. *)
Definition legal (t : TemplateInfo) : Prop :=
  TemplateInfo_Name t ≠ "" ∧ TemplateInfo_Path t ≠ "" ∧ TemplateInfo_UUID t ≠ "".

(** [w'] is [w] after the effects [new], the latest first. *)
Definition after (w w' : World) (new : list Effect) : Prop :=
  effects w' = new ++ effects w.

(** [w'] is [w] after some effects that all satisfy [Q]. *)
Definition grows (Q : Effect → Prop) (w w' : World) : Prop :=
  ∃ new, after w w' new ∧ Forall Q new.


(** The effects of [get_file] on an entry: log lines, the directory, the
    file at its disk path [p], and the download of its URL. *)
Definition fetch_effect (p url : string) (e : Effect) : Prop :=
  match e with
  | EPrintf _ | EMkdirAll _ => True
  | ECreate q => q = p
  | EHttpGet u => u = url
  | _ => False
  end.



(** ** A fragment of [text/template], for the examples

    Literal text and the actions [{{.Machine.Name}}], [{{.Machine.BootEnv}}],
    [{{.Env.Name}}], [{{.Env.OS.Name}}], [{{.ProvisionerURL}}],
    [{{.CommandURL}}] and [{{.Param "key"}}], which calls [Param]. An action
    that is not closed does not parse. The examples use no other action; this
    instance reports one as an evaluation error. *)

Module MiniTemplate.

Inductive node :=
| Text (s : string)
| Action (body : string).

Definition snoc (s : string) (c : ascii) : string := s +:+ String c EmptyString.

Definition lbrace : ascii := "{"%char.
Definition rbrace : ascii := "}"%char.

(** The double-quote character. *)
Definition dq : string := String (ascii_of_nat 34) EmptyString.

Fixpoint scan (s : string) (in_action : bool) (acc : string)
  : option (list node) :=
  match s with
  | EmptyString => if in_action then None else Some [Text acc]
  | String c s' =>
      match s' with
      | String c' s'' =>
          if negb in_action && Ascii.eqb c lbrace && Ascii.eqb c' lbrace then
            (Text acc ::.) <$> scan s'' true ""
          else if in_action && Ascii.eqb c rbrace && Ascii.eqb c' rbrace then
            (Action acc ::.) <$> scan s'' false ""
          else scan s' in_action (snoc acc c)
      | EmptyString => scan s' in_action (snoc acc c)
      end
  end.

Definition param_key (body : string) : option string :=
  let pre := ".Param " +:+ dq in
  if String.prefix pre body && GoPath.HasSuffix body dq
     && (String.length pre <? String.length body)%nat
  then Some (String.substring (String.length pre)
               (String.length body - String.length pre - 1) body)
  else None.

Definition eval (r : RenderData) (body : string) : string + string :=
  if decide (body = ".Machine.Name") then inr (Machine_Name (RenderData_Machine r))
  else if decide (body = ".Machine.BootEnv")
  then inr (Machine_BootEnv (RenderData_Machine r))
  else if decide (body = ".Env.Name") then inr (BootEnv_Name (RenderData_Env r))
  else if decide (body = ".Env.OS.Name")
  then inr (OsInfo_Name (BootEnv_OS (RenderData_Env r)))
  else if decide (body = ".ProvisionerURL") then inr (RenderData_ProvisionerURL r)
  else if decide (body = ".CommandURL") then inr (RenderData_CommandURL r)
  else match param_key body with
       | Some key =>
           match Param r key with
           | inr v => inr v
           | inl _ => inl ("No such machine parameter " +:+ key)
           end
       | None => inl ("can't evaluate " +:+ body)
       end.

Fixpoint run (r : RenderData) (ns : list node) (out : string)
  : string * option string :=
  match ns with
  | [] => (out, None)
  | Text s :: rest => run r rest (out +:+ s)
  | Action body :: rest =>
      match eval r body with
      | inr v => run r rest (out +:+ v)
      | inl e => (out, Some e)
      end
  end.

Definition parse (src : string) : option string :=
  match scan src false "" with
  | Some _ => None
  | None => Some "unclosed action"
  end.

Definition execute (src : string) (r : RenderData) : string * option string :=
  match scan src false "" with
  | Some ns => run r ns ""
  | None => ("", Some "unclosed action")
  end.

End MiniTemplate.

(** ** A concrete platform and concrete records, for the examples *)

Module Example.

Import MiniTemplate.

(** The digests of the two inputs that the examples hash. *)
Definition sha256_table (data : string) : string :=
  if decide (data = "") then
    "e3b0c44298fc1c149afbf4c8996fb92427ae41e4649b934ca495991b7852b855"
  else if decide (data = "abc") then
    "ba7816bf8f01cfea414140de5dae2223b00361a396177a9cb410ff61f20015ad"
  else "".

(** One URL that answers, one whose body is cut short, and no other. *)
Definition mirror (url : string) : string + (string * option string) :=
  if decide (url = "http://mirror/ok") then inr ("payload", None)
  else if decide (url = "http://mirror/cut") then inr ("pay", Some "unexpected EOF")
  else inl "connection refused".

(** An extraction that leaves the canary marker in the target directory. *)
Definition leave_canary (args : list string) (fs : FS) : FS * option string :=
  match args with
  | [name; _; dir] =>
      (<[GoPath.Join [dir; "." +:+ name +:+ ".rebar_canary"] := File ""]> fs,
       None)
  | _ => (fs, Some "usage")
  end.

Definition platform : Platform :=
  {| fileRoot := "/tftpboot";
     provisionerURL := "http://192.168.124.10:8091";
     commandURL := "https://192.168.124.10:3000";
     tmpl_parse := parse;
     tmpl_execute := execute;
     sha256_hex := sha256_table;
     http_get := mirror;
     explode_iso_sh := leave_canary |}.

Definition tinfo (name path uuid : string) : TemplateInfo :=
  {| TemplateInfo_Name := name; TemplateInfo_Path := path;
     TemplateInfo_UUID := uuid; pathTmpl := None; finalPath := "";
     contents := None |}.

Definition osinfo (name iso sha : string) (files : list FileData) : OsInfo :=
  {| OsInfo_Name := name; OsInfo_Family := ""; OsInfo_Codename := "";
     OsInfo_Version := ""; OsInfo_IsoFile := iso; OsInfo_IsoSha256 := sha;
     OsInfo_IsoUrl := ""; OsInfo_Files := files |}.

Definition bootenv (name : string) (os : OsInfo) (ts : list TemplateInfo)
    (required : list string) : BootEnv :=
  {| BootEnv_Name := name; BootEnv_OS := os; BootEnv_Templates := ts;
     BootEnv_Kernel := ""; BootEnv_Initrds := [];
     BootEnv_BootParams := ""; BootEnv_RequiredParams := required;
     bootParamsTmpl := None; BootEnv_TenantId := 0 |}.

Definition machine (name env : string) (params : list (string * string))
  : Machine :=
  {| Machine_Name := name; Machine_BootEnv := env;
     Machine_Params := list_to_map params |}.

Definition world (files : list (string * Node))
    (store : list (string * string)) (ms : string + list Machine) : World :=
  {| fs := list_to_map files; templates := list_to_map store;
     machines := ms; effects := [] |}.

(** The files of a world, as a list. *)
Definition listing (w : World) : list (string * Node) := map_to_list (fs w).

(** *** Records of the examples *)

Definition param (key : string) : string := "{{.Param " +:+ dq +:+ key +:+ dq +:+ "}}".

Definition store : list (string * string) :=
  [("default-ipxe.tmpl", "#!ipxe chain {{.ProvisionerURL}}/{{.Machine.Name}}");
   ("net_seed.tmpl", "d-i netcfg/get_domain string " +:+ param "dns-domain");
   ("rack.tmpl", "rack " +:+ param "rack")].

Definition ipxe : TemplateInfo :=
  tinfo "ipxe" "{{.Machine.Name}}.ipxe" "default-ipxe.tmpl".

Definition seed : TemplateInfo :=
  tinfo "seed" "machines/{{.Machine.Name}}/seed" "net_seed.tmpl".

Definition ubuntu_os : OsInfo :=
  osinfo "ubuntu-16.04" "ubuntu-16.04-server-amd64.iso"
    "ba7816bf8f01cfea414140de5dae2223b00361a396177a9cb410ff61f20015ad" [].

Definition ubuntu : BootEnv :=
  bootenv "ubuntu-16.04-install" ubuntu_os [ipxe; seed] ["dns-domain"].

Definition discovery : BootEnv :=
  bootenv "discovery" (osinfo "discovery" "" "" []) [ipxe] [].

Definition node1 : Machine :=
  machine "node1" "ubuntu-16.04-install" [("dns-domain", "example.com")].

Definition node2 : Machine :=
  machine "node2" "ubuntu-16.04-install" [].

Definition empty_world : World := world [] store (inr [node1; node2]).

Definition pxelinux : TemplateInfo :=
  tinfo "pxelinux" "pxelinux.cfg/{{.Machine.Name}}" "default-ipxe.tmpl".

(** Only a [pxelinux] template. *)
Definition pxe_only : BootEnv :=
  bootenv "centos-7-install" (osinfo "centos-7" "" "" []) [pxelinux] [].

(** Only a [pxelinux] template, and its path is empty. *)
Definition pxe_blank : BootEnv :=
  bootenv "centos-7-install" (osinfo "centos-7" "" "" [])
    [tinfo "pxelinux" "" "default-ipxe.tmpl"] [].

(** The ISO is staged with contents that do not match the checksum of
    [ubuntu], and the canary marker is in place. *)
Definition extracted_world : World :=
  world [("/tftpboot/isos/ubuntu-16.04-server-amd64.iso", File "");
         ("/tftpboot/ubuntu-16.04/install/.ubuntu-16.04.rebar_canary", File "")]
    store (inr [node1]).

(** The same without the canary marker. *)
Definition staged_world : World :=
  world [("/tftpboot/isos/ubuntu-16.04-server-amd64.iso", File "")]
    store (inr [node1]).

(** The path of the second template needs the parameter [rack]. *)
Definition racked : BootEnv :=
  bootenv "ubuntu-16.04-install" ubuntu_os
    [ipxe; tinfo "seed" ("racks/" +:+ param "rack" +:+ "/seed") "net_seed.tmpl"]
    ["dns-domain"].

(** The content of the second template needs the parameter [rack]. *)
Definition rack : TemplateInfo :=
  tinfo "rack" "machines/{{.Machine.Name}}/rack" "rack.tmpl".

Definition with_rack : BootEnv :=
  bootenv "ubuntu-16.04-install" ubuntu_os [ipxe; rack] ["dns-domain"].

(** Two templates with the same path; the content of the second one needs
    the parameter [rack]. *)
Definition twins : BootEnv :=
  bootenv "ubuntu-16.04-install" ubuntu_os
    [ipxe; tinfo "rack" "{{.Machine.Name}}.ipxe" "rack.tmpl"] ["dns-domain"].

(** An auxiliary file whose download is cut short. *)
Definition firmware : FileData :=
  {| FileData_URL := "http://mirror/cut"; FileData_Name := "extra/firmware.bin";
     FileData_ValidationURL := ""; FileData_ValidationMethod := "" |}.

Definition with_firmware : BootEnv :=
  bootenv "ubuntu-16.04-install" (osinfo "ubuntu-16.04" "" "" [firmware])
    [ipxe] [].

(** The ISO is staged with the contents that the checksum of [ubuntu]
    expects, and nothing is extracted yet. *)
Definition matching_world : World :=
  world [("/tftpboot/isos/ubuntu-16.04-server-amd64.iso", File "abc")]
    store (inr [node1]).

(** An auxiliary file that the mirror serves in full. *)
Definition payload : FileData :=
  {| FileData_URL := "http://mirror/ok"; FileData_Name := "extra/payload.bin";
     FileData_ValidationURL := ""; FileData_ValidationMethod := "" |}.

(** An install environment with a kernel, an initrd, boot parameters and
    an auxiliary file, and no ISO. *)
Definition netboot : BootEnv :=
  {| BootEnv_Name := "ubuntu-16.04-install";
     BootEnv_OS := osinfo "ubuntu-16.04" "" "" [payload];
     BootEnv_Templates := [ipxe];
     BootEnv_Kernel := "vmlinuz";
     BootEnv_Initrds := ["initrd.gz"];
     BootEnv_BootParams := "console=ttyS0 host={{.Machine.Name}}";
     BootEnv_RequiredParams := [];
     bootParamsTmpl := None;
     BootEnv_TenantId := 0 |}.

(** The kernel and the initrd of [netboot] are in place. *)
Definition netboot_world : World :=
  world [("/tftpboot/ubuntu-16.04/install/vmlinuz", File "kernel");
         ("/tftpboot/ubuntu-16.04/install/initrd.gz", File "initrd")]
    store (inr [node1; node2]).

(** As [netboot_world], with a regular file where the directory of the
    auxiliary file would be. *)
Definition blocked_world : World :=
  world [("/tftpboot/ubuntu-16.04/install/vmlinuz", File "kernel");
         ("/tftpboot/ubuntu-16.04/install/initrd.gz", File "initrd");
         ("/tftpboot/ubuntu-16.04/install/extra", File "")]
    store (inr [node1; node2]).

(** An install environment with an ISO and no checksum. *)
Definition unchecked : BootEnv :=
  bootenv "ubuntu-16.04-install"
    (osinfo "ubuntu-16.04" "ubuntu-16.04-server-amd64.iso" "" []) [ipxe] [].

(** The directory of the ISOs is a regular file. *)
Definition isos_file_world : World :=
  world [("/tftpboot/isos", File "")] store (inr [node1]).

End Example.


(** ** The other functions of [bootenv.go] *)

Section Others.

Variable P : Platform.

(** The media step of [onChange]. *)
Definition prepare_media (b : BootEnv) : M (option Error) :=
  if decide (OsInfo_IsoFile (BootEnv_OS b) ≠ "") then
    logger_Printf ("Exploding ISO for " +:+ OsInfo_Name (BootEnv_OS b) +:+ nl) ;;
    explode_iso P b
  else mret None.

(** [RenderData.BootParams]: the boot parameter template of the environment
    evaluated into a buffer; the empty string when there is no template, and
    when the evaluation fails. *)
Definition BootParams (r : RenderData) : string * option string :=
  match bootParamsTmpl (RenderData_Env r) with
  | None => ("", None)
  | Some src =>
      match tmpl_execute P src r with
      | (_, Some err) => ("", Some err)
      | (res, None) => (res, None)
      end
  end.

(** The loop of [JoinInitrds]: the full path of every initrd. *)
Fixpoint JoinInitrds_loop (b : BootEnv) (proto : string)
    (initrds : list string) : M (list string) :=
  match initrds with
  | [] => mret []
  | initrd :: rest =>
      full ← PathFor P b proto initrd;
      fullInitrds ← JoinInitrds_loop b proto rest;
      mret (full :: fullInitrds)
  end.

(** [JoinInitrds]: the full paths joined by one space. *)
Definition JoinInitrds (b : BootEnv) (proto : string) : M string :=
  fullInitrds ← JoinInitrds_loop b proto (BootEnv_Initrds b);
  mret (String.concat " " fullInitrds).

(** [BootEnv.prefix] and [BootEnv.key]. *)
Definition BootEnv_prefix (b : BootEnv) : string := "bootenvs".

Definition BootEnv_key (b : BootEnv) : string :=
  GoPath.Join [BootEnv_prefix b; BootEnv_Name b].

(** The loop of [DeleteRenderedTemplates]: the result of [os.Remove] is
    dropped. *)
Fixpoint DeleteRenderedTemplates_loop (ts : list TemplateInfo) : M unit :=
  match ts with
  | [] => mret ()
  | tmpl :: rest =>
      (if decide (finalPath tmpl ≠ "")
       then os_Remove (finalPath tmpl) ;; mret ()
       else mret ()) ;;
      DeleteRenderedTemplates_loop rest
  end.

(** [DeleteRenderedTemplates]; the errors of [parseTemplates] and
    [RenderPaths] are dropped. The boot environment is returned as the call
    leaves it. *)
Definition DeleteRenderedTemplates (b : BootEnv) (machine : Machine)
  : M BootEnv :=
  '(b, _) ← parseTemplates P b;
  '(b, _) ← RenderPaths P b machine;
  DeleteRenderedTemplates_loop (BootEnv_Templates b) ;;
  mret b.

End Others.

(** The table [preferred_oses] of [RebuildRebarData]. *)
Definition preferred_oses : gmap string Z :=
  list_to_map
    [("centos-7.2.1511", 0%Z); ("centos-7.1.1503", 1%Z); ("ubuntu-14.04", 2%Z);
     ("ubuntu-15.04", 3%Z); ("debian-8", 4%Z); ("centos-6.6", 5%Z);
     ("debian-7", 6%Z); ("redhat-6.5", 7%Z); ("ubuntu-12.04", 8%Z)].

(** The locals [attrValOSes], [attrValOS] and [attrPref] of
    [RebuildRebarData]. *)
Record OsChoice := {
  attrValOSes : gmap string bool;
  attrValOS : string;
  attrPref : Z;
}.

Definition OsChoice_init : OsChoice :=
  {| attrValOSes := ∅; attrValOS := "STRING"; attrPref := 1000 |}.

(** The loop of [RebuildRebarData] over the boot environments that [List]
    returns. *)
Fixpoint RebuildRebarData_loop (bes : list BootEnv) (acc : OsChoice)
  : OsChoice :=
  match bes with
  | [] => acc
  | be :: rest =>
      if negb (GoPath.HasSuffix (BootEnv_Name be) "-install")
      then RebuildRebarData_loop rest acc
      else
        let oses := <[OsInfo_Name (BootEnv_OS be) := true]> (attrValOSes acc) in
        let numPref :=
          match preferred_oses !! OsInfo_Name (BootEnv_OS be) with
          | Some n => n
          | None => 999%Z
          end in
        if (numPref <? attrPref acc)%Z
        then RebuildRebarData_loop rest
               {| attrValOSes := oses;
                  attrValOS := OsInfo_Name (BootEnv_OS be);
                  attrPref := numPref |}
        else RebuildRebarData_loop rest
               {| attrValOSes := oses; attrValOS := attrValOS acc;
                  attrPref := attrPref acc |}
  end.

(** The preference of an OS name. *)
Definition os_pref (name : string) : Z :=
  match preferred_oses !! name with
  | Some n => n
  | None => 999%Z
  end.

(** The boot environments that the loop looks at. *)
Definition is_install (be : BootEnv) : Prop :=
  GoPath.HasSuffix (BootEnv_Name be) "-install" = true.

(** What a definition payload gives: the fields of the boot environment
    that are not derived. *)
Definition exported_template (t : TemplateInfo) : string * string * string :=
  (TemplateInfo_Name t, TemplateInfo_Path t, TemplateInfo_UUID t).

Definition exported (b : BootEnv) :=
  (BootEnv_Name b, BootEnv_OS b, exported_template <$> BootEnv_Templates b,
   BootEnv_Kernel b, BootEnv_Initrds b, BootEnv_BootParams b,
   BootEnv_RequiredParams b, BootEnv_TenantId b).

(** The path of the template is where no later template of [ts] writes. *)
Definition last_writer (t : TemplateInfo) (later : list TemplateInfo) : Prop :=
  finalPath t ∉ finalPath <$> later.

(** The effects of the preparation of the media and of the files. *)
Definition prepare_effect (e : Effect) : Prop :=
  match e with
  | EPrintf _ | ESha256 _ | ECommand _ _ | EMkdirAll _ | ECreate _
  | EHttpGet _ => True
  | _ => False
  end.

(** The state in which [explode_iso] gets as far as its script: an install
    environment with an ISO whose [os.Stat] does not say that it does not
    exist, not yet extracted, and, when a checksum is given, a regular file
    of that checksum. *)
Definition extracts (P : Platform) (b : BootEnv) (w : World) : Prop :=
  GoPath.HasSuffix (BootEnv_Name b) "-install" = true
  ∧ OsInfo_IsoFile (BootEnv_OS b) ≠ ""
  ∧ Stat (fs w) (canaryPath P b) = None
  ∧ IsNotExist (fs w) (isoPath P b) = false
  ∧ (OsInfo_IsoSha256 (BootEnv_OS b) ≠ "" →
     ∃ data, Stat (fs w) (isoPath P b) = Some (File data)
             ∧ sha256_hex P data = OsInfo_IsoSha256 (BootEnv_OS b)).

(** The arguments [explode_iso] gives to its script. *)
Definition explode_iso_args (P : Platform) (b : BootEnv) : list string :=
  [OsInfo_Name (BootEnv_OS b); isoPath P b; GoPath.Dir (canaryPath P b)].

(** The effects of [DeleteRenderedTemplates] on templates [ts]: the
    evaluation of a path, and the removal of a final path. *)
Definition removal_effect (ts : list TemplateInfo) (e : Effect) : Prop :=
  match e with
  | EExecute _ => True
  | ERemove p => p ≠ "" ∧ p ∈ finalPath <$> ts
  | _ => False
  end.

(** The effects of the loop of [onChange] over [files], from the files of
    [w]: a download is for an entry whose disk path is missing in [w]. *)
Definition missing_download (P : Platform) (b : BootEnv)
    (files : list FileData) (w : World) (e : Effect) : Prop :=
  match e with
  | EPrintf _ | EMkdirAll _ | ECreate _ => True
  | EHttpGet url =>
      ∃ g, g ∈ files ∧ FileData_URL g = url
           ∧ Stat (fs w) (diskPath P b (FileData_Name g)) = None
  | _ => False
  end.

(** The entry is at its disk path. *)
Definition present (P : Platform) (b : BootEnv) (w : World) (f : FileData)
  : Prop :=
  is_Some (Stat (fs w) (diskPath P b (FileData_Name f))).

(** The machine uses the boot environment of that name. *)
Definition bound (name : string) (m : Machine) : Prop :=
  Machine_BootEnv m = name.

#[global] Instance bound_dec (name : string) (m : Machine)
  : Decision (bound name m) := decide (Machine_BootEnv m = name).

(** [w'] has the regular files of [w], and the paths of [w]. *)
Definition keeps (w w' : World) : Prop :=
  (∀ q, is_file (fs w !! q) → is_file (fs w' !! q))
  ∧ (∀ q, is_Some (fs w !! q) → is_Some (fs w' !! q)).

(** * Properties *)

(** ** Facts about [path.Clean] and [path.Join] *)

Module GoPathFacts.
Import GoPath.

Lemma str_app_cons c s t : String c s +:+ t = String c (s +:+ t).
Proof. reflexivity. Qed.

Lemma str_app_nil_l t : "" +:+ t = t.
Proof. reflexivity. Qed.

Lemma str_app_assoc s t u : (s +:+ t) +:+ u = s +:+ t +:+ u.
Proof. induction s as [|c s IH]; [done|]. by rewrite !str_app_cons, IH. Qed.

Lemma split_slash_cons_slash s :
  split_slash (String "/" s) = "" :: split_slash s.
Proof. reflexivity. Qed.

Lemma split_slash_nonnil s : split_slash s ≠ [].
Proof.
  destruct s as [|c s]; simpl; [done|].
  destruct (Ascii.eqb c "/"); [done|]. by destruct (split_slash s).
Qed.

Lemma split_slash_app a b :
  split_slash (a +:+ "/" +:+ b) = split_slash a ++ split_slash b.
Proof.
  induction a as [|c a IH]; [done|].
  rewrite str_app_cons. simpl. destruct (Ascii.eqb c "/").
  - by rewrite IH.
  - rewrite IH. pose proof (split_slash_nonnil a).
    by destruct (split_slash a).
Qed.

(** An element: a string without a slash. *)
Definition no_slash (e : string) : Prop := split_slash e = [e].

Lemma split_slash_no_slash s : Forall no_slash (split_slash s).
Proof.
  induction s as [|c s IH]; simpl.
  - by repeat constructor.
  - destruct (Ascii.eqb c "/") eqn:Hc.
    + by constructor.
    + destruct (split_slash s) as [|x xs] eqn:Hs.
      { by destruct (split_slash_nonnil s). }
      inversion IH as [|? ? Hx Hxs]; subst. constructor; [|done].
      unfold no_slash in *. simpl. by rewrite Hc, Hx.
Qed.

Lemma join_slash_cons x y l :
  join_slash (x :: y :: l) = x +:+ "/" +:+ join_slash (y :: l).
Proof. reflexivity. Qed.

Lemma split_join l :
  l ≠ [] → Forall no_slash l → split_slash (join_slash l) = l.
Proof.
  induction l as [|x l IH]; [done|]. intros _ Hl.
  inversion Hl as [|? ? Hx Hl']; subst.
  destruct l as [|y l]; [done|].
  rewrite join_slash_cons, split_slash_app, Hx, IH; done.
Qed.

Lemma join_slash_app l1 l2 :
  l1 ≠ [] → l2 ≠ [] →
  join_slash (l1 ++ l2) = join_slash l1 +:+ "/" +:+ join_slash l2.
Proof.
  induction l1 as [|x l1 IH]; [done|]. intros _ Hl2.
  destruct l1 as [|y l1].
  - destruct l2; done.
  - change ((x :: y :: l1) ++ l2) with (x :: y :: (l1 ++ l2)).
    rewrite !join_slash_cons, str_app_assoc. f_equal.
    change (y :: l1 ++ l2) with ((y :: l1) ++ l2).
    rewrite IH by done. by rewrite str_app_assoc.
Qed.

Lemma clean_elem_no_slash rooted out e :
  Forall no_slash out → no_slash e → Forall no_slash (clean_elem rooted out e).
Proof.
  intros Hout He. unfold clean_elem.
  repeat case_decide; try done; try by constructor.
  - destruct out as [|top rest]; [destruct rooted; by repeat constructor|].
    inversion Hout; subst. case_decide; [|done].
    destruct rooted; [done|]. by constructor.
Qed.

Lemma fold_clean_no_slash rooted l out :
  Forall no_slash out → Forall no_slash l →
  Forall no_slash (fold_left (clean_elem rooted) l out).
Proof.
  revert out. induction l as [|e l IH]; intros out Hout Hl; [done|].
  inversion Hl; subst. simpl. apply IH; [|done].
  by apply clean_elem_no_slash.
Qed.

(** A real path element: no slash, and none of [""], ["."], [".."]. *)
Definition plain (e : string) : Prop :=
  no_slash e ∧ e ≠ "" ∧ e ≠ "." ∧ e ≠ "..".

Lemma clean_elem_plain rooted out e :
  plain e → clean_elem rooted out e = e :: out.
Proof.
  intros (_ & ? & ? & ?). unfold clean_elem. by repeat case_decide.
Qed.

Lemma fold_clean_plain rooted l out :
  Forall plain l → fold_left (clean_elem rooted) l out = rev l ++ out.
Proof.
  revert out. induction l as [|e l IH]; intros out Hl; [done|].
  inversion Hl; subst. simpl.
  rewrite clean_elem_plain, IH by done. by rewrite <- List.app_assoc.
Qed.

Lemma is_rooted_app s t : s ≠ "" → is_rooted (s +:+ t) = is_rooted s.
Proof. by destruct s. Qed.

Lemma last_elem_slash p : last_elem ("/" +:+ p) = last_elem p.
Proof.
  unfold last_elem. rewrite str_app_cons, str_app_nil_l, split_slash_cons_slash.
  pose proof (split_slash_nonnil p). by destruct (split_slash p).
Qed.

(** [path.Clean] keeps a real last element in last place. *)
Lemma Clean_last_elem p e :
  plain e → last_elem (Clean (p +:+ "/" +:+ e)) = e.
Proof.
  intros He. pose proof He as (Hns & Hne & _). unfold Clean.
  case_decide as Hp; [by destruct p|].
  rewrite split_slash_app, Hns, fold_left_app. simpl.
  rewrite clean_elem_plain by done. simpl.
  set (out := fold_left _ (split_slash p) []).
  assert (Forall no_slash (rev out ++ [e])) as Hall.
  { apply Forall_app. split; [|by repeat constructor].
    apply Forall_rev, fold_clean_no_slash; [done|apply split_slash_no_slash]. }
  assert (last_elem (join_slash (rev out ++ [e])) = e) as Hlast.
  { unfold last_elem. rewrite split_join; [|by destruct (rev out)|done].
    by rewrite last_last. }
  destruct (is_rooted _).
  - by rewrite last_elem_slash.
  - case_decide as Hb; [|done]. rewrite Hb in Hlast. by rewrite <- Hlast in Hne.
Qed.

Lemma plain_not_rooted e : plain e → is_rooted e = false.
Proof.
  intros (Hns & Hne & _). destruct e as [|c e]; [done|].
  unfold no_slash in Hns. simpl in *.
  destruct (Ascii.eqb c "/"); [|done]. discriminate.
Qed.

Lemma join_slash_plain_nonempty x l : plain x → join_slash (x :: l) ≠ "".
Proof.
  intros (_ & Hne & _). destruct l as [|y l]; [done|].
  rewrite join_slash_cons. by destruct x.
Qed.

Lemma Forall_plain_no_slash l : Forall plain l → Forall no_slash l.
Proof. intros Hl. eapply Forall_impl; [exact Hl|]. by intros ? [? _]. Qed.

(** A rooted path of real elements is clean. *)
Lemma Clean_plain_rooted l :
  Forall plain l → Clean ("/" +:+ join_slash l) = "/" +:+ join_slash l.
Proof.
  intros Hl. unfold Clean. rewrite str_app_cons, str_app_nil_l.
  case_decide; [done|]. simpl is_rooted. cbv iota.
  rewrite split_slash_cons_slash. simpl fold_left.
  destruct l as [|x l]; [done|].
  rewrite split_join by (done || by apply Forall_plain_no_slash).
  rewrite fold_clean_plain by done.
  by rewrite app_nil_r, rev_involutive.
Qed.

(** A relative path of real elements is clean. *)
Lemma Clean_plain_relative l :
  l ≠ [] → Forall plain l → Clean (join_slash l) = join_slash l.
Proof.
  intros Hne Hl. destruct l as [|x l]; [done|].
  inversion Hl as [|? ? Hx Hl']; subst.
  unfold Clean. case_decide as H0; [by apply join_slash_plain_nonempty in H0|].
  assert (is_rooted (join_slash (x :: l)) = false) as ->.
  { destruct l as [|y l]; [by apply plain_not_rooted|].
    rewrite join_slash_cons, is_rooted_app by apply Hx.
    by apply plain_not_rooted. }
  rewrite split_join by (done || by apply Forall_plain_no_slash).
  rewrite fold_clean_plain by done.
  rewrite app_nil_r, rev_involutive. by case_decide.
Qed.

Lemma Join_nonempty e rest :
  e ≠ "" → Join (e :: rest) = Clean (join_slash (e :: rest)).
Proof. intros. simpl. by case_decide. Qed.

End GoPathFacts.


(** ** The monad *)

Lemma bind_Returns {A B} (m : M A) (k : A → M B) w w' a :
  m w = (w', Returns a) → (m ≫= k) w = k a w'.
Proof. intros H. unfold mbind, M_bind. by rewrite H. Qed.

Lemma bind_run {A B} (m : M A) (k : A → M B) w :
  (m ≫= k) w
  = match m w with
    | (w', Returns a) => k a w'
    | (w', Aborts) => (w', Aborts)
    end.
Proof. reflexivity. Qed.

Lemma effect_bind {B} e (k : unit → M B) w :
  (effect e ≫= k) w = k () (add_effect w e).
Proof. reflexivity. Qed.


Lemma ret_bind {A B} (a : A) (k : A → M B) w : (mret a ≫= k) w = k a w.
Proof. reflexivity. Qed.

Lemma bind_assoc {A B C} (m : M A) (f : A → M B) (g : B → M C) w :
  ((m ≫= f) ≫= g) w = (m ≫= λ a, f a ≫= g) w.
Proof. unfold mbind, M_bind. by destruct (m w) as [? []]. Qed.

Lemma get_fs_bind {B} (k : FS → M B) w : (get_fs ≫= k) w = k (fs w) w.
Proof. reflexivity. Qed.

Lemma put_fs_bind {B} x (k : unit → M B) w : (put_fs x ≫= k) w = k () (set_fs w x).
Proof. reflexivity. Qed.

Lemma logger_Printf_bind {B} msg (k : unit → M B) w :
  (logger_Printf msg ≫= k) w = k () (add_effect w (EPrintf msg)).
Proof. reflexivity. Qed.

Lemma os_Stat_bind {B} p (k : option Node → M B) w :
  (os_Stat p ≫= k) w = k (Stat (fs w) p) w.
Proof. reflexivity. Qed.

Lemma os_Stat_IsNotExist_bind {B} p (k : bool → M B) w :
  (os_Stat_IsNotExist p ≫= k) w = k (IsNotExist (fs w) p) w.
Proof. reflexivity. Qed.

Lemma os_Open_bind {B} p (k : option Node → M B) w :
  (os_Open p ≫= k) w = k (Stat (fs w) p) w.
Proof. reflexivity. Qed.

(** ** The primitives *)

Lemma logger_Printf_run msg w :
  logger_Printf msg w = (add_effect w (EPrintf msg), Returns ()).
Proof. reflexivity. Qed.

Lemma os_Stat_run p w : os_Stat p w = (w, Returns (Stat (fs w) p)).
Proof. reflexivity. Qed.

Lemma os_Stat_IsNotExist_run p w :
  os_Stat_IsNotExist p w = (w, Returns (IsNotExist (fs w) p)).
Proof. reflexivity. Qed.

(** A path that [os.Stat] finds exists. *)
Lemma IsNotExist_Some fs p n : Stat fs p = Some n → IsNotExist fs p = false.
Proof. unfold IsNotExist. by intros ->. Qed.

(** A path that does not exist is not found. *)
Lemma IsNotExist_true fs p : IsNotExist fs p = true → Stat fs p = None.
Proof. unfold IsNotExist. by destruct (Stat fs p). Qed.

Lemma os_MkdirAll_run p w :
  os_MkdirAll p w
  = (set_fs (add_effect w (EMkdirAll p)) (MkdirAll (fs w) p).1,
     Returns (MkdirAll (fs w) p).2).
Proof.
  unfold os_MkdirAll, mbind, M_bind, effect, get_fs, put_fs. simpl.
  by destruct (MkdirAll (fs w) p).
Qed.

Lemma os_Create_run p w :
  os_Create p w
  = match Create (fs w) p with
    | Some fs' => (set_fs (add_effect w (ECreate p)) fs', Returns true)
    | None => (add_effect w (ECreate p), Returns false)
    end.
Proof.
  unfold os_Create, mbind, M_bind, effect, get_fs, put_fs. simpl.
  by destruct (Create (fs w) p).
Qed.

Lemma os_Write_run p data w :
  os_Write p data w = (set_fs w (Write (fs w) p data), Returns ()).
Proof. reflexivity. Qed.

Lemma os_Remove_run p w :
  os_Remove p w
  = match Remove (fs w) p with
    | Some fs' => (set_fs (add_effect w (ERemove p)) fs', Returns true)
    | None => (add_effect w (ERemove p), Returns false)
    end.
Proof.
  unfold os_Remove, mbind, M_bind, effect, get_fs, put_fs. simpl.
  by destruct (Remove (fs w) p).
Qed.

(** ** The path resolver *)

Section PathFor.

Variable P : Platform.
Import GoPath GoPathFacts.

Lemma PathFor_disk b f w :
  PathFor P b "disk" f w = (w, Returns (diskPath P b f)).
Proof. reflexivity. Qed.

Lemma PathFor_unknown b proto f w :
  proto ≠ "disk" → proto ≠ "tftp" → proto ≠ "http" →
  PathFor P b proto f w
  = (add_effect w (EFatalf ("Unknown protocol " +:+ proto)), Aborts).
Proof. intros. unfold PathFor. by repeat case_decide. Qed.

Lemma plain_install : plain "install".
Proof. by repeat split. Qed.

Lemma installSegment_last_elem b :
  OsInfo_Name (BootEnv_OS b) ≠ "discovery" →
  last_elem (installSegment b) = "install".
Proof.
  intros Hn. unfold installSegment. rewrite decide_True by done.
  destruct (decide (OsInfo_Name (BootEnv_OS b) = "")) as [->|Hne]; [done|].
  rewrite Join_nonempty by done.
  apply (Clean_last_elem _ "install"), plain_install.
Qed.

Lemma installSegment_plain b :
  plain (OsInfo_Name (BootEnv_OS b)) →
  OsInfo_Name (BootEnv_OS b) ≠ "discovery" →
  installSegment b = OsInfo_Name (BootEnv_OS b) +:+ "/install".
Proof.
  intros Hp Hn. unfold installSegment. rewrite decide_True by done.
  rewrite Join_nonempty by apply Hp.
  apply (Clean_plain_relative [_; "install"]); [done|].
  apply Forall_cons; split; [done|].
  apply Forall_cons; split; [apply plain_install|]. by apply Forall_nil.
Qed.

(** For a root, an OS name and a partial path made of real elements, the
    joins are the strings written with slashes. *)
Lemma Join_segment_plain b fl :
  plain (OsInfo_Name (BootEnv_OS b)) →
  OsInfo_Name (BootEnv_OS b) ≠ "discovery" →
  fl ≠ [] → Forall plain fl →
  Join [installSegment b; join_slash fl]
  = OsInfo_Name (BootEnv_OS b) +:+ "/install/" +:+ join_slash fl.
Proof.
  intros Hn Hnd Hfl Hpfl. rewrite installSegment_plain by done.
  set (n := OsInfo_Name (BootEnv_OS b)) in *.
  rewrite Join_nonempty by (by destruct n).
  assert (join_slash [n +:+ "/install"; join_slash fl]
          = join_slash ([n; "install"] ++ fl)) as ->.
  { rewrite join_slash_app by done.
    change (join_slash [n; "install"]) with (n +:+ "/install").
    by rewrite (join_slash_cons _ _ []). }
  rewrite Clean_plain_relative.
  - rewrite join_slash_app by done.
    change (join_slash [n; "install"]) with (n +:+ "/install").
    by rewrite ?str_app_assoc.
  - done.
  - apply Forall_app. split; [|done].
    apply Forall_cons; split; [done|].
    apply Forall_cons; split; [apply plain_install|]. by apply Forall_nil.
Qed.

Lemma Join_root_plain b r fl :
  fileRoot P = "/" +:+ join_slash r → r ≠ [] → Forall plain r →
  plain (OsInfo_Name (BootEnv_OS b)) →
  OsInfo_Name (BootEnv_OS b) ≠ "discovery" →
  fl ≠ [] → Forall plain fl →
  Join [fileRoot P; installSegment b; join_slash fl]
  = fileRoot P +:+ "/" +:+ OsInfo_Name (BootEnv_OS b)
    +:+ "/install/" +:+ join_slash fl.
Proof.
  intros Hroot Hr Hpr Hn Hnd Hfl Hpfl.
  rewrite installSegment_plain by done.
  set (n := OsInfo_Name (BootEnv_OS b)) in *.
  assert (fileRoot P ≠ "") as Hne by (rewrite Hroot; done).
  rewrite Join_nonempty by done. rewrite Hroot.
  assert (join_slash ["/" +:+ join_slash r; n +:+ "/install"; join_slash fl]
          = "/" +:+ join_slash (r ++ [n; "install"] ++ fl)) as ->.
  { rewrite !join_slash_app by (done || by destruct fl).
    change (join_slash [n; "install"]) with (n +:+ "/install").
    rewrite (join_slash_cons _ _ [_]), (join_slash_cons _ _ []).
    change (join_slash [join_slash fl]) with (join_slash fl).
    by rewrite ?str_app_assoc. }
  rewrite Clean_plain_rooted.
  - rewrite !join_slash_app by (done || by destruct fl).
    change (join_slash [n; "install"]) with (n +:+ "/install").
    by rewrite ?str_app_assoc.
  - repeat (apply Forall_app; split); try done.
    apply Forall_cons; split; [done|].
    apply Forall_cons; split; [apply plain_install|]. by apply Forall_nil.
Qed.

End PathFor.

Section PathForClaims.

Variable P : Platform.
Import GoPath GoPathFacts.

(** C8 (as amended): for every partial path [f], [PathFor] maps the tag
    [disk] to the join of the root, the OS install segment and [f], the tag
    [tftp] to the join of the segment and [f] without the root, and the tag
    [http] to the base URL, a slash and the join of the segment and [f];
    when the root, the OS name and [f] are made of real path elements, the
    joins are root/name/install/f and name/install/f as written. *)
Theorem PathFor_protocols (b : BootEnv) (f : string) (w : World) :
  PathFor P b "disk" f w
  = (w, Returns (Join [fileRoot P; installSegment b; f]))
  ∧ PathFor P b "tftp" f w = (w, Returns (Join [installSegment b; f]))
  ∧ PathFor P b "http" f w
    = (w, Returns (provisionerURL P +:+ "/" +:+ Join [installSegment b; f]))
  ∧ ∀ r fl,
      fileRoot P = "/" +:+ join_slash r → r ≠ [] → Forall plain r →
      plain (OsInfo_Name (BootEnv_OS b)) →
      OsInfo_Name (BootEnv_OS b) ≠ "discovery" →
      f = join_slash fl → fl ≠ [] → Forall plain fl →
      Join [fileRoot P; installSegment b; f]
      = fileRoot P +:+ "/" +:+ OsInfo_Name (BootEnv_OS b) +:+ "/install/" +:+ f
      ∧ Join [installSegment b; f]
        = OsInfo_Name (BootEnv_OS b) +:+ "/install/" +:+ f.
Proof.
  split_and!; [done..|].
  intros r fl Hroot Hr Hpr Hn Hnd -> Hfl Hpfl. split.
  - by apply (Join_root_plain P b r fl).
  - by apply Join_segment_plain.
Qed.

(** C9: whatever the protocol, the path that [PathFor] returns is built on
    a segment that is the OS name alone when the name is [discovery] and the
    join of the name and [install] otherwise; the segment ends in [install]
    exactly when the name is not [discovery], and for a name that is a real
    path element it is the name followed by [/install]. *)
Theorem installSegment_discovery (b : BootEnv) (proto f : string)
    (w w' : World) (r : string) :
  PathFor P b proto f w = (w', Returns r) →
  let name := OsInfo_Name (BootEnv_OS b) in
  let seg := if decide (name = "discovery") then name
             else Join [name; "install"] in
  (proto = "disk" ∧ r = Join [fileRoot P; seg; f]
   ∨ proto = "tftp" ∧ r = Join [seg; f]
   ∨ proto = "http" ∧ r = provisionerURL P +:+ "/" +:+ Join [seg; f])
  ∧ (last_elem seg = "install" ↔ name ≠ "discovery")
  ∧ (plain name → name ≠ "discovery" → seg = name +:+ "/install").
Proof.
  intros Hrun name seg.
  assert (seg = installSegment b) as Hseg.
  { unfold seg, installSegment. fold name. by repeat case_decide. }
  split; [|split].
  - rewrite Hseg. unfold PathFor in Hrun.
    repeat case_decide; subst;
      unfold mret, M_ret, logger_Fatalf, mbind, M_bind, effect, abort in Hrun;
      simplify_eq; naive_solver.
  - rewrite Hseg. split.
    + intros Hlast Hd. unfold installSegment in Hlast. fold name in Hlast.
      rewrite Hd in Hlast. discriminate Hlast.
    + apply installSegment_last_elem.
  - rewrite Hseg. apply installSegment_plain.
Qed.

End PathForClaims.

(** C8, as stated, fails at the tag [network]: [PathFor] knows the tag
    [http]; at [network] it reports an unknown protocol and the process
    terminates, so no URL is returned. *)
Lemma PathFor_network_counterexample :
  PathFor Example.platform Example.ubuntu "network" "vmlinuz" Example.empty_world
  = (add_effect Example.empty_world (EFatalf "Unknown protocol network"), Aborts)
  ∧ PathFor Example.platform Example.ubuntu "http" "vmlinuz" Example.empty_world
    = (Example.empty_world,
       Returns "http://192.168.124.10:8091/ubuntu-16.04/install/vmlinuz")
  ∧ ¬ ∃ w', PathFor Example.platform Example.ubuntu "network" "vmlinuz"
              Example.empty_world
            = (w', Returns "http://192.168.124.10:8091/ubuntu-16.04/install/vmlinuz").
Proof.
  split; [reflexivity|]. split; [reflexivity|].
  intros [w' Hw']. discriminate Hw'.
Qed.

(** The theorem at the kernel path of [ubuntu] under the root [/tftpboot]. *)
Lemma PathFor_protocols_witness :
  PathFor Example.platform Example.ubuntu "disk" "install/netboot/linux"
    Example.empty_world
  = (Example.empty_world,
     Returns ("/tftpboot" +:+ "/" +:+ "ubuntu-16.04" +:+ "/install/"
              +:+ "install/netboot/linux"))
  ∧ PathFor Example.platform Example.ubuntu "tftp" "install/netboot/linux"
      Example.empty_world
    = (Example.empty_world,
       Returns ("ubuntu-16.04" +:+ "/install/" +:+ "install/netboot/linux")).
Proof.
  destruct (PathFor_protocols Example.platform Example.ubuntu
              "install/netboot/linux" Example.empty_world)
    as (Hdisk & Htftp & _ & Hplain).
  assert (GoPathFacts.plain "ubuntu-16.04") as Hname by (by repeat split).
  assert (Forall GoPathFacts.plain ["tftpboot"]) as Hroot.
  { apply Forall_cons; split; [by repeat split|]. by apply Forall_nil. }
  assert (Forall GoPathFacts.plain ["install"; "netboot"; "linux"]) as Hfl.
  { repeat (apply Forall_cons; split; [by repeat split|]). by apply Forall_nil. }
  destruct (Hplain ["tftpboot"] ["install"; "netboot"; "linux"] eq_refl
              ltac:(done) Hroot Hname ltac:(done) eq_refl ltac:(done) Hfl)
    as [Hd Ht].
  rewrite Hdisk, Htftp. split; [by rewrite Hd|by rewrite Ht].
Defined.

(** The theorem at the TFTP path of a kernel of [ubuntu]. *)
Lemma installSegment_discovery_witness :
  PathFor Example.platform Example.ubuntu "tftp" "vmlinuz" Example.empty_world
  = (Example.empty_world, Returns "ubuntu-16.04/install/vmlinuz")
  ∧ (GoPath.last_elem (GoPath.Join ["ubuntu-16.04"; "install"]) = "install"
     ↔ "ubuntu-16.04" ≠ "discovery").
Proof.
  split; [reflexivity|].
  exact (proj1 (proj2 (installSegment_discovery Example.platform Example.ubuntu
                         "tftp" "vmlinuz" Example.empty_world Example.empty_world
                         "ubuntu-16.04/install/vmlinuz" eq_refl))).
Defined.

Example PathFor_discovery :
  PathFor Example.platform Example.discovery "disk" "vmlinuz0" Example.empty_world
  = (Example.empty_world, Returns "/tftpboot/discovery/vmlinuz0").
Proof. reflexivity. Qed.

Example PathFor_disk_ubuntu :
  PathFor Example.platform Example.ubuntu "disk" "install/netboot/linux"
    Example.empty_world
  = (Example.empty_world,
     Returns "/tftpboot/ubuntu-16.04/install/install/netboot/linux").
Proof. reflexivity. Qed.

(** ** The delete guard *)

Section OnDelete.

Lemma onDelete_loop_free b ms :
  (∀ m, m ∈ ms → Machine_BootEnv m ≠ BootEnv_Name b) →
  onDelete_loop b ms = None.
Proof.
  induction ms as [|m ms IH]; intros Hfree; [done|]. simpl.
  rewrite decide_True by (apply Hfree; left). apply IH.
  intros m' Hm'. apply Hfree. by right.
Qed.

Lemma onDelete_loop_bound b ms :
  (∃ m, m ∈ ms ∧ Machine_BootEnv m = BootEnv_Name b) →
  ∃ m, m ∈ ms ∧ Machine_BootEnv m = BootEnv_Name b
       ∧ onDelete_loop b ms
         = Some (ErrInUse (BootEnv_Name b) (Machine_Name m)).
Proof.
  induction ms as [|m ms IH]; intros (m0 & Hin & Hm0).
  - by apply elem_of_nil in Hin.
  - simpl. case_decide as Hm.
    + apply elem_of_cons in Hin as [->|Hin]; [done|].
      destruct IH as (m1 & ? & ? & ?); [by exists m0|].
      exists m1. split_and!; [by right|done..].
    + exists m. split_and!; [by left|done..].
Qed.

(** C7: when the machines are listed, [onDelete] returns the in-use error,
    naming a machine bound to the environment, whenever some machine
    record's boot-environment name is the environment's name, and returns
    no error when none is. *)
Theorem onDelete_in_use (b : BootEnv) (w : World) (ms : list Machine) :
  machines w = inr ms →
  ((∃ m, m ∈ ms ∧ Machine_BootEnv m = BootEnv_Name b) →
   ∃ m, m ∈ ms ∧ Machine_BootEnv m = BootEnv_Name b
        ∧ onDelete b w
          = (w, Returns (Some (ErrInUse (BootEnv_Name b) (Machine_Name m)))))
  ∧ ((∀ m, m ∈ ms → Machine_BootEnv m ≠ BootEnv_Name b) →
     onDelete b w = (w, Returns None)).
Proof.
  intros Hms. unfold onDelete, Machine_List, mbind, M_bind. rewrite Hms.
  split.
  - intros Hbound. destruct (onDelete_loop_bound b ms Hbound) as (m & ? & ? & Hl).
    exists m. split_and!; [done..|]. unfold mret, M_ret. by rewrite Hl.
  - intros Hfree. unfold mret, M_ret. by rewrite onDelete_loop_free.
Qed.

(** When the machines cannot be listed, [onDelete] returns that error. *)
Lemma onDelete_list_error b w err :
  machines w = inl err → onDelete b w = (w, Returns (Some (ErrList err))).
Proof.
  intros Hms. unfold onDelete, Machine_List, mbind, M_bind. by rewrite Hms.
Qed.

End OnDelete.

(** The theorem at two machines bound to [ubuntu], and at [discovery], to
    which none is bound. *)
Lemma onDelete_in_use_witness :
  machines Example.empty_world = inr [Example.node1; Example.node2]
  ∧ onDelete Example.ubuntu Example.empty_world
    = (Example.empty_world,
       Returns (Some (ErrInUse "ubuntu-16.04-install" "node1")))
  ∧ onDelete Example.discovery Example.empty_world
    = (Example.empty_world, Returns None).
Proof.
  pose proof (onDelete_in_use Example.discovery
                Example.empty_world _ eq_refl) as [_ Hfree].
  split; [reflexivity|]. split; [reflexivity|].
  apply Hfree. intros m Hm.
  repeat (apply elem_of_cons in Hm as [->|Hm]; [discriminate|]).
  by apply elem_of_nil in Hm.
Defined.

(** ** The structural check of [onChange] *)

Section Structure.

Variable P : Platform.

Lemma legal_dec t :
  ¬ (TemplateInfo_Name t = "" ∨ TemplateInfo_Path t = ""
     ∨ TemplateInfo_UUID t = "") ↔ legal t.
Proof.
  unfold legal. split.
  - intros H. split_and!; intros ?; apply H; auto.
  - intros (? & ? & ?) [?|[?|?]]; done.
Qed.

(** The loop stops at the first template that is not legal. *)
Lemma check_templates_illegal ts p e i err :
  check_templates ts p e i = inl err →
  ∃ t, t ∈ ts ∧ ¬ legal t ∧ err = ErrIllegalTemplate t.
Proof.
  revert p e i. induction ts as [|t ts IH]; intros p e i Hc; [done|].
  simpl in Hc. case_decide as Hl.
  - simplify_eq. exists t. split_and!; [by left| |done].
    intros Hlegal. by apply legal_dec in Hlegal.
  - apply IH in Hc as (t' & ? & ? & ?). exists t'. split_and!; [by right|done..].
Qed.

(** The loop returns the error of the first template that is not legal. *)
Lemma check_templates_first pre t post p e i :
  Forall legal pre → ¬ legal t →
  check_templates (pre ++ t :: post) p e i = inl (ErrIllegalTemplate t).
Proof.
  intros Hpre Ht. revert p e i.
  induction Hpre as [|x pre Hx Hpre IH]; intros p e i; simpl.
  - rewrite decide_True; [done|].
    destruct (decide (TemplateInfo_Name t = "" ∨ TemplateInfo_Path t = ""
                      ∨ TemplateInfo_UUID t = "")) as [|Hn]; [done|].
    by apply legal_dec in Hn.
  - rewrite decide_False by (by apply legal_dec). apply IH.
Qed.

Lemma seen_step (name : string) t ts (flag : bool) :
  (if decide (TemplateInfo_Name t = name) then true else flag) = true
  ∨ name ∈ TemplateInfo_Name <$> ts →
  flag = true ∨ name ∈ TemplateInfo_Name <$> t :: ts.
Proof.
  rewrite fmap_cons, elem_of_cons. case_decide as Hn; [|tauto].
  intros _. right. left. by symmetry.
Qed.

(** A flag that the loop returns set was set before, or the name was seen. *)
Lemma check_templates_seen ts p e i p' e' i' :
  check_templates ts p e i = inr (p', e', i') →
  Forall legal ts
  ∧ (p' = true → p = true ∨ "pxelinux" ∈ TemplateInfo_Name <$> ts)
  ∧ (e' = true → e = true ∨ "elilo" ∈ TemplateInfo_Name <$> ts)
  ∧ (i' = true → i = true ∨ "ipxe" ∈ TemplateInfo_Name <$> ts).
Proof.
  revert p e i. induction ts as [|t ts IH]; intros p e i Hc.
  - simplify_eq/=. split_and!; [done|by left..].
  - simpl in Hc. case_decide as Hl; [done|].
    apply IH in Hc as (Hall & Hp & He & Hi).
    split_and!.
    + constructor; [by apply legal_dec|done].
    + intros Hp'. by apply seen_step, Hp.
    + intros He'. by apply seen_step, He.
    + intros Hi'. by apply seen_step, Hi.
Qed.

Lemma check_templates_legal ts p e i :
  Forall legal ts → ∃ flags, check_templates ts p e i = inr flags.
Proof.
  revert p e i. induction ts as [|t ts IH]; intros p e i Hall; [by eexists|].
  inversion Hall as [|? ? Ht Hts]; subst. simpl.
  rewrite decide_False by (by apply legal_dec). by apply IH.
Qed.

Lemma check_structure_incomplete b :
  ¬ has_template "ipxe" b →
  ¬ has_template "pxelinux" b ∨ ¬ has_template "elilo" b →
  ∃ err, check_structure b = Some err
         ∧ (Forall legal (BootEnv_Templates b) → err = ErrMissingBootTemplate)
         ∧ (err = ErrMissingBootTemplate
            ∨ ∃ t, t ∈ BootEnv_Templates b ∧ ¬ legal t
                   ∧ err = ErrIllegalTemplate t).
Proof.
  unfold has_template, check_structure. intros Hi Hpe.
  destruct (check_templates _ _ _ _) as [err|[[p' e'] i']] eqn:Hc.
  - apply check_templates_illegal in Hc as (t & Hin & Hnl & ->).
    eexists. split_and!; [done| |right; by exists t].
    intros Hall. destruct Hnl. by eapply Forall_forall in Hall.
  - apply check_templates_seen in Hc as (_ & Hp' & He' & Hi').
    assert (i' = false) as ->.
    { destruct i'; [|done]. destruct Hi' as [|]; done. }
    assert (p' && e' = false) as ->.
    { destruct p', e'; try done.
      destruct Hp' as [|]; [done..|]. destruct He' as [|]; [done..|].
      destruct Hpe as [Hn|Hn]; by destruct Hn. }
    exists ErrMissingBootTemplate. split_and!; [done|done|by left].
Qed.

(** C4 (as amended): for every boot environment that has no template named
    [ipxe] and lacks a template named [pxelinux] or one named [elilo],
    [onChange] returns an error of the structural check and changes
    nothing, neither files nor effects: the missing-boot-template error
    when every template has a name, a path and a UUID, and otherwise the
    illegal-template error of the first template that lacks one. *)
Theorem onChange_incomplete (b : BootEnv) (oldThing : option BootEnv)
    (w : World) :
  ¬ has_template "ipxe" b →
  ¬ has_template "pxelinux" b ∨ ¬ has_template "elilo" b →
  ∃ err, onChange P b oldThing w = (w, Returns (b, Some err))
         ∧ (Forall legal (BootEnv_Templates b) → err = ErrMissingBootTemplate)
         ∧ (∀ pre t post,
              BootEnv_Templates b = pre ++ t :: post →
              Forall legal pre → ¬ legal t →
              err = ErrIllegalTemplate t).
Proof.
  intros Hi Hpe.
  destruct (check_structure_incomplete b Hi Hpe) as (err & Hc & Hlegal & _).
  exists err. split_and!; [|done|].
  - unfold onChange. by rewrite Hc.
  - intros pre t post Hts Hpre Ht. unfold check_structure in Hc.
    rewrite Hts, (check_templates_first pre t post) in Hc by done.
    by simplify_eq.
Qed.

End Structure.

Ltac not_in_list :=
  let H := fresh in
  intros H; simpl in H;
  repeat (apply elem_of_cons in H as [H|H]; [discriminate H|]);
  by apply elem_of_nil in H.

(** C4, as stated, fails for a boot environment that has only a [pxelinux]
    template whose path is empty: [onChange] returns the illegal-template
    error, not the missing-boot-template error. *)
Lemma onChange_incomplete_counterexample :
  ¬ has_template "ipxe" Example.pxe_blank
  ∧ ¬ has_template "elilo" Example.pxe_blank
  ∧ onChange Example.platform Example.pxe_blank None Example.empty_world
    = (Example.empty_world,
       Returns (Example.pxe_blank,
                Some (ErrIllegalTemplate
                        (Example.tinfo "pxelinux" "" "default-ipxe.tmpl"))))
  ∧ onChange Example.platform Example.pxe_blank None Example.empty_world
    ≠ (Example.empty_world,
       Returns (Example.pxe_blank, Some ErrMissingBootTemplate)).
Proof.
  split_and!; [unfold has_template; not_in_list..|reflexivity|].
  intros H. discriminate H.
Qed.

(** The theorem at a boot environment with a [pxelinux] template only. *)
Lemma onChange_incomplete_witness :
  ¬ has_template "ipxe" Example.pxe_only
  ∧ ¬ has_template "elilo" Example.pxe_only
  ∧ onChange Example.platform Example.pxe_only None Example.empty_world
    = (Example.empty_world,
       Returns (Example.pxe_only, Some ErrMissingBootTemplate)).
Proof.
  assert (¬ has_template "ipxe" Example.pxe_only) as Hi
    by (unfold has_template; not_in_list).
  assert (¬ has_template "elilo" Example.pxe_only) as He
    by (unfold has_template; not_in_list).
  split_and!; [done..|].
  destruct (onChange_incomplete Example.platform Example.pxe_only None
              Example.empty_world Hi (or_intror He)) as (err & Hrun & Hlegal & _).
  rewrite Hrun, Hlegal; [done|].
  repeat (apply Forall_cons; split); [by repeat split|by apply Forall_nil].
Defined.

(** ** The media preparer *)

Section ExplodeIso.

Variable P : Platform.

(** C5: if the canary marker exists at its disk path, [explode_iso] returns
    no error and does nothing but log one line, so it computes no checksum
    and does not run the extraction procedure; whatever the number of
    calls that follow, the files are as before and all the effects are log
    lines, so the procedure is not run again once the marker exists. *)
Theorem explode_iso_canary (b : BootEnv) (w : World) :
  is_Some (Stat (fs w) (canaryPath P b)) →
  (∃ msg, explode_iso P b w = (add_effect w (EPrintf msg), Returns None))
  ∧ ∀ n, ∃ w' new,
      explode_iso_times P b n w = (w', Returns None)
      ∧ fs w' = fs w ∧ after w w' new
      ∧ Forall (λ e, is_EPrintf e = true) new
      ∧ filter (λ e, is_ECommand e = true) new = []
      ∧ filter (λ e, is_ESha256 e = true) new = [].
Proof.
  intros Hcanary.
  assert (∀ w0, fs w0 = fs w →
            ∃ msg, explode_iso P b w0 = (add_effect w0 (EPrintf msg), Returns None))
    as Hone.
  { intros w0 Hw0. destruct Hcanary as [node Hnode]. unfold explode_iso.
    destruct (GoPath.HasSuffix _ _); cbn [negb]; [|by eexists].
    case_decide; [by eexists|]. eexists.
    erewrite bind_Returns by apply PathFor_disk.
    erewrite bind_Returns by apply os_Stat_run.
    fold (canaryPath P b). rewrite Hw0, Hnode. reflexivity. }
  split; [by apply Hone|].
  intros n. revert w Hcanary Hone. induction n as [|n IH]; intros w Hcanary Hone.
  - exists w, []. by split_and!.
  - destruct (Hone w eq_refl) as [msg Hrun]. simpl.
    erewrite bind_Returns by exact Hrun.
    destruct (IH (add_effect w (EPrintf msg))) as (w' & new & Hn & Hfs & Haft & Hall & Hc & Hs).
    { done. }
    { intros w0 Hw0. by apply Hone. }
    exists w', (new ++ [EPrintf msg]). split_and!; [done|done| | | |].
    + unfold after in *. rewrite Haft. simpl. by rewrite <- List.app_assoc.
    + apply Forall_app. split; [done|]. by repeat constructor.
    + rewrite filter_app, Hc. done.
    + rewrite filter_app, Hs. done.
Qed.

End ExplodeIso.

(** Two calls in a row on a staged ISO with the right checksum: the first
    one runs the extraction, which leaves the canary marker, and the second
    one is skipped. *)
Example explode_iso_twice :
  let r := explode_iso_times Example.platform Example.ubuntu 2
             Example.matching_world in
  r.2 = Returns None
  ∧ filter (λ e, is_ECommand e = true) (effects r.1)
    = [ECommand "/explode_iso.sh"
         ["ubuntu-16.04"; "/tftpboot/isos/ubuntu-16.04-server-amd64.iso";
          "/tftpboot/ubuntu-16.04/install"]]
  ∧ fs r.1 !! "/tftpboot/ubuntu-16.04/install/.ubuntu-16.04.rebar_canary"
    = Some (File "").
Proof. by vm_compute. Qed.

(** The theorem at a world in which the marker of [ubuntu] is in place. *)
Lemma explode_iso_canary_witness :
  is_Some (Stat (fs Example.extracted_world)
             (canaryPath Example.platform Example.ubuntu))
  ∧ ∃ msg, explode_iso Example.platform Example.ubuntu Example.extracted_world
           = (add_effect Example.extracted_world (EPrintf msg), Returns None).
Proof.
  assert (is_Some (Stat (fs Example.extracted_world)
                     (canaryPath Example.platform Example.ubuntu))) as H
    by (by eexists).
  split; [exact H|].
  exact (proj1 (explode_iso_canary Example.platform Example.ubuntu
                  Example.extracted_world H)).
Defined.

(** ** The checksum of the ISO *)

Section Checksum.

Variable P : Platform.

Lemma explode_iso_checksum b w data :
  GoPath.HasSuffix (BootEnv_Name b) "-install" = true →
  OsInfo_IsoFile (BootEnv_OS b) ≠ "" →
  Stat (fs w) (canaryPath P b) = None →
  Stat (fs w) (isoPath P b) = Some (File data) →
  OsInfo_IsoSha256 (BootEnv_OS b) ≠ "" →
  sha256_hex P data ≠ OsInfo_IsoSha256 (BootEnv_OS b) →
  explode_iso P b w
  = (add_effect w (ESha256 (isoPath P b)),
     Returns (Some (ErrChecksumBad (isoPath P b) (sha256_hex P data)
                      (OsInfo_IsoSha256 (BootEnv_OS b))))).
Proof.
  intros Hname Hiso Hcanary Hstaged Hsha Hbad. unfold explode_iso.
  rewrite Hname. cbn [negb]. rewrite decide_False by done.
  erewrite bind_Returns by apply PathFor_disk.
  erewrite bind_Returns by apply os_Stat_run.
  fold (canaryPath P b). rewrite Hcanary.
  rewrite os_Stat_IsNotExist_bind.
  fold (isoPath P b). rewrite (IsNotExist_Some _ _ _ Hstaged).
  rewrite (decide_True (P:=OsInfo_IsoSha256 (BootEnv_OS b) ≠ "")) by done.
  erewrite bind_Returns.
  2:{ rewrite os_Open_bind, Hstaged, effect_bind.
      rewrite decide_True by done. reflexivity. }
  reflexivity.
Qed.

(** C6 (as amended): for a boot environment that passes the structural
    check, whose name ends in [-install], with an ISO file and a checksum
    configured, no canary marker in place and the ISO staged as a regular
    file: if the SHA-256 of the ISO differs from the configured one,
    [onChange] returns the checksum error; the files are unchanged and the
    only effects are one log line and the hashing of the ISO, so no
    template is rendered for any machine. *)
Theorem onChange_checksum (b : BootEnv) (oldThing : option BootEnv)
    (w : World) (data : string) :
  check_structure b = None →
  GoPath.HasSuffix (BootEnv_Name b) "-install" = true →
  OsInfo_IsoFile (BootEnv_OS b) ≠ "" →
  Stat (fs w) (canaryPath P b) = None →
  Stat (fs w) (isoPath P b) = Some (File data) →
  OsInfo_IsoSha256 (BootEnv_OS b) ≠ "" →
  sha256_hex P data ≠ OsInfo_IsoSha256 (BootEnv_OS b) →
  ∃ w' msg,
    onChange P b oldThing w
    = (w', Returns (b, Some (ErrChecksumBad (isoPath P b) (sha256_hex P data)
                               (OsInfo_IsoSha256 (BootEnv_OS b)))))
    ∧ fs w' = fs w
    ∧ effects w' = [ESha256 (isoPath P b); EPrintf msg] ++ effects w.
Proof.
  intros Hcheck Hname Hiso Hcanary Hstaged Hsha Hbad.
  eexists _, _. unfold onChange. rewrite Hcheck.
  rewrite (decide_True (P:=OsInfo_IsoFile (BootEnv_OS b) ≠ "")) by done.
  erewrite bind_Returns.
  2:{ erewrite bind_Returns by apply logger_Printf_run.
      by apply explode_iso_checksum. }
  by split_and!.
Qed.

End Checksum.

(** The theorem at an empty staged ISO and the checksum of [ubuntu]. *)
Lemma onChange_checksum_witness :
  Stat (fs Example.staged_world) (isoPath Example.platform Example.ubuntu)
  = Some (File "")
  ∧ sha256_hex Example.platform "" ≠ OsInfo_IsoSha256 Example.ubuntu_os
  ∧ ∃ w' msg,
      onChange Example.platform Example.ubuntu (Some Example.ubuntu)
        Example.staged_world
      = (w', Returns (Example.ubuntu,
                      Some (ErrChecksumBad
                              "/tftpboot/isos/ubuntu-16.04-server-amd64.iso"
                              "e3b0c44298fc1c149afbf4c8996fb92427ae41e4649b934ca495991b7852b855"
                              "ba7816bf8f01cfea414140de5dae2223b00361a396177a9cb410ff61f20015ad")))
      ∧ fs w' = fs Example.staged_world
      ∧ effects w'
        = [ESha256 (isoPath Example.platform Example.ubuntu); EPrintf msg]
          ++ effects Example.staged_world.
Proof.
  split; [reflexivity|]. split; [discriminate|].
  apply (onChange_checksum Example.platform Example.ubuntu (Some Example.ubuntu)
           Example.staged_world "");
    [reflexivity|reflexivity|discriminate|reflexivity|reflexivity
    |discriminate|discriminate].
Defined.

(** C6, as stated, fails when the canary marker is in place: the ISO is
    staged and its SHA-256 differs from the configured one, yet [onChange]
    does not hash it, returns no error and renders the templates of the
    machine bound to the environment. *)
Lemma onChange_checksum_counterexample :
  let r := onChange Example.platform Example.ubuntu (Some Example.ubuntu)
             Example.extracted_world in
  OsInfo_IsoSha256 Example.ubuntu_os ≠ ""
  ∧ Stat (fs Example.extracted_world) (isoPath Example.platform Example.ubuntu)
    = Some (File "")
  ∧ sha256_hex Example.platform "" ≠ OsInfo_IsoSha256 Example.ubuntu_os
  ∧ (∃ b', r.2 = Returns (b', None))
  ∧ filter (λ e, is_ESha256 e = true) (effects r.1) = []
  ∧ fs r.1 !! "/tftpboot/node1.ipxe"
    = Some (File "#!ipxe chain http://192.168.124.10:8091/node1").
Proof.
  split_and!; [discriminate|reflexivity|discriminate|by eexists
              |reflexivity|reflexivity].
Qed.

(** ** The rendering pipeline *)

Section Rendering.

Variable P : Platform.

Lemma after_trans w1 w2 w3 new1 new2 :
  after w1 w2 new1 → after w2 w3 new2 → after w1 w3 (new2 ++ new1).
Proof. unfold after. intros H1 H2. by rewrite H2, H1, List.app_assoc. Qed.

Lemma after_inj w w' new1 new2 : after w w' new1 → after w w' new2 → new1 = new2.
Proof. unfold after. intros H1 H2. rewrite H1 in H2. by apply app_inv_tail in H2. Qed.

(** *** Compilation *)

Lemma parseTemplates_loop_names store ts :
  TemplateInfo_Name <$> (parseTemplates_loop P store ts).1
  = TemplateInfo_Name <$> ts.
Proof.
  induction ts as [|t ts IH]; [done|]. simpl.
  destruct (tmpl_parse P (TemplateInfo_Path t)); [done|].
  destruct (contents t).
  - destruct (parseTemplates_loop P store ts). csimpl in *. by rewrite IH.
  - destruct (backend_load store (TemplateInfo_UUID t)); [|done].
    unfold Template_Parse. simpl. destruct (tmpl_parse P _); [done|].
    destruct (parseTemplates_loop P store ts). csimpl in *. by rewrite IH.
Qed.

Lemma parseTemplates_loop_result store ts :
  match (parseTemplates_loop P store ts).2 with
  | Some e => is_compile_error e = true
  | None =>
      Forall (λ t, is_Some (pathTmpl t) ∧ is_Some (contents t))
        (parseTemplates_loop P store ts).1
  end.
Proof.
  induction ts as [|t ts IH]; [by constructor|]. simpl.
  destruct (tmpl_parse P (TemplateInfo_Path t)); [done|].
  destruct (contents t) eqn:Hc.
  - destruct (parseTemplates_loop P store ts) as [ts' [e|]]; simpl in *; [done|].
    constructor; [|done]. simpl. rewrite Hc. by split; eexists.
  - destruct (backend_load store (TemplateInfo_UUID t)); [|done].
    unfold Template_Parse. simpl. destruct (tmpl_parse P _); [done|].
    destruct (parseTemplates_loop P store ts) as [ts' [e|]]; simpl in *; [done|].
    constructor; [|done]. simpl. by split; eexists.
Qed.

(** [parseTemplates] always returns and leaves the world as it is; it
    keeps the name, the required parameters and the names of the
    templates. *)
Lemma parseTemplates_spec b w :
  ∃ b1 e1,
    parseTemplates P b w = (w, Returns (b1, e1))
    ∧ BootEnv_Name b1 = BootEnv_Name b
    ∧ BootEnv_RequiredParams b1 = BootEnv_RequiredParams b
    ∧ TemplateInfo_Name <$> BootEnv_Templates b1
      = TemplateInfo_Name <$> BootEnv_Templates b
    ∧ match e1 with
      | Some e => is_compile_error e = true
      | None =>
          Forall (λ t, is_Some (pathTmpl t) ∧ is_Some (contents t))
            (BootEnv_Templates b1)
      end.
Proof.
  unfold parseTemplates.
  pose proof (parseTemplates_loop_names (templates w) (BootEnv_Templates b)) as Hn.
  pose proof (parseTemplates_loop_result (templates w) (BootEnv_Templates b)) as Hr.
  destruct (parseTemplates_loop P (templates w) (BootEnv_Templates b))
    as [ts [e|]]; simpl in *.
  - by eexists _, _.
  - case_decide.
    + destruct (tmpl_parse P (BootEnv_BootParams b)); by eexists _, _.
    + by eexists _, _.
Qed.

(** *** Paths *)

Lemma RenderPaths_loop_spec b m done todo w :
  Forall (λ t, is_Some (pathTmpl t)) todo →
  ∃ w' ts e new,
    RenderPaths_loop P b m done todo w = (w', Returns (ts, e))
    ∧ fs w' = fs w ∧ after w w' new
    ∧ Forall (λ x, is_EExecute x = true) new
    ∧ match e with
      | Some x => is_path_error x = true
      | None => new = rev (EExecute ∘ TemplateInfo_Name <$> todo)
      end.
Proof.
  revert done w. induction todo as [|t todo IH]; intros done w Hall.
  - exists w, (rev done), None, []. by split_and!.
  - inversion Hall as [|? ? [src Hsrc] Hall']; subst. simpl. rewrite Hsrc.
    rewrite effect_bind.
    destruct (tmpl_execute P src _) as [pathBuf [err|]].
    + eexists _, _, _, [_]. split_and!; [reflexivity|done|done| |done].
      by repeat constructor.
    + destruct (IH (set_finalPath t (GoPath.Join [fileRoot P; pathBuf]) :: done)
                  (add_effect w (EExecute (TemplateInfo_Name t))) Hall')
        as (w' & ts & e & new & Hrun & Hfs & Haft & Hex & He).
      exists w', ts, e, (new ++ [EExecute (TemplateInfo_Name t)]).
      split_and!; [done|done| | |].
      * unfold after in *. rewrite Haft. simpl. by rewrite <- List.app_assoc.
      * apply Forall_app. split; [done|]. by repeat constructor.
      * destruct e; [done|]. by rewrite He.
Qed.

Lemma RenderPaths_spec b m w :
  Forall (λ t, is_Some (pathTmpl t)) (BootEnv_Templates b) →
  ∃ w' b2 e new,
    RenderPaths P b m w = (w', Returns (b2, e))
    ∧ BootEnv_Name b2 = BootEnv_Name b
    ∧ BootEnv_RequiredParams b2 = BootEnv_RequiredParams b
    ∧ fs w' = fs w ∧ after w w' new
    ∧ Forall (λ x, is_EExecute x = true) new
    ∧ match e with
      | Some x => is_path_error x = true
      | None =>
          new = rev (EExecute ∘ TemplateInfo_Name <$> BootEnv_Templates b)
      end.
Proof.
  intros Hall. unfold RenderPaths.
  destruct (RenderPaths_loop_spec b m [] _ w Hall)
    as (w' & ts & e & new & Hrun & Hfs & Haft & Hex & He).
  erewrite bind_Returns by exact Hrun.
  by eexists _, _, _, _.
Qed.

(** *** [RenderTemplates], stage by stage *)

Lemma RenderTemplates_unfold b m w :
  RenderTemplates P b m w
  = match parseTemplates P b w with
    | (w1, Returns (b1, Some e)) => (w1, Returns (b1, Some e))
    | (w1, Returns (b1, None)) =>
        match RenderPaths P b1 m w1 with
        | (w2, Returns (b2, Some e)) => (w2, Returns (b2, Some e))
        | (w2, Returns (b2, None)) =>
            match missingParams b2 m with
            | [] =>
                match render_loop P (mkRenderData P b2 m)
                        (BootEnv_Templates b2) w2 with
                | (w3, Returns err) => (w3, Returns (b2, err))
                | (w3, Aborts) => (w3, Aborts)
                end
            | (_ :: _) as missing =>
                (w2, Returns (b2, Some (ErrMissingRequiredParams
                                          (BootEnv_Name b2) (Machine_Name m)
                                          missing)))
            end
        | (w2, Aborts) => (w2, Aborts)
        end
    | (w1, Aborts) => (w1, Aborts)
    end.
Proof.
  unfold RenderTemplates. unfold mbind at 1, M_bind at 1.
  destruct (parseTemplates P b w) as [w1 [[b1 [e|]]|]]; [done| |done].
  unfold mbind at 1, M_bind at 1.
  destruct (RenderPaths P b1 m w1) as [w2 [[b2 [e|]]|]]; [done| |done].
  destruct (missingParams b2 m); [|done].
  unfold mbind, M_bind.
  by destruct (render_loop P _ _ w2) as [w3 [err|]].
Qed.

Lemma missingParams_nonempty b m :
  (∃ p, p ∈ BootEnv_RequiredParams b ∧ Machine_Params m !! p = None)
  ↔ missingParams b m ≠ [].
Proof.
  unfold missingParams. split.
  - intros (p & Hin & Hp) Hnil.
    assert (p ∈ filter (λ param, Machine_Params m !! param = None)
                  (BootEnv_RequiredParams b)) as Hf
      by (by apply list_elem_of_filter).
    rewrite Hnil in Hf. by apply elem_of_nil in Hf.
  - destruct (filter _ _) as [|p l] eqn:Hf; [done|]. intros _.
    assert (p ∈ p :: l) as Hp by left. rewrite <- Hf in Hp.
    apply list_elem_of_filter in Hp as [? ?]. by exists p.
Qed.

Lemma missingParams_same b b' m :
  BootEnv_RequiredParams b' = BootEnv_RequiredParams b →
  missingParams b' m = missingParams b m.
Proof. unfold missingParams. by intros ->. Qed.

(** When a required parameter is missing, [RenderTemplates] returns an
    error after compiling the templates and rendering the paths, which is
    all it does. *)
Lemma RenderTemplates_missing b m w :
  missingParams b m ≠ [] →
  ∃ w' b' err new,
    RenderTemplates P b m w = (w', Returns (b', Some err))
    ∧ fs w' = fs w ∧ after w w' new
    ∧ Forall (λ x, is_EExecute x = true) new
    ∧ (is_compile_error err = true ∧ new = []
       ∨ is_path_error err = true
       ∨ err = ErrMissingRequiredParams (BootEnv_Name b) (Machine_Name m)
                 (missingParams b m)
         ∧ new = rev (EExecute ∘ TemplateInfo_Name <$> BootEnv_Templates b)).
Proof.
  intros Hmiss. rewrite RenderTemplates_unfold.
  destruct (parseTemplates_spec b w) as (b1 & e1 & -> & Hn1 & Hr1 & Hnames & He1).
  destruct e1 as [e|].
  { exists w, b1, e, []. split_and!; [done..|by left]. }
  destruct (RenderPaths_spec b1 m w) as (w2 & b2 & e2 & new & -> & Hn2 & Hr2 & Hfs & Haft & Hex & He2).
  { eapply Forall_impl; [exact He1|]. by intros ? [? _]. }
  destruct e2 as [e|].
  { exists w2, b2, e, new. split_and!; [done..|]. right. by left. }
  rewrite <- (missingParams_same b b2 m) in Hmiss by congruence.
  destruct (missingParams b2 m) as [|p l] eqn:Hm; [done|].
  eexists w2, b2, _, new. split_and!; [done..|]. right. right.
  rewrite <- Hm, (missingParams_same b b2 m) by congruence.
  rewrite Hn2, Hn1, He2. split; [done|].
  by rewrite !list_fmap_compose, Hnames.
Qed.


(** Which error [RenderTemplates] returns when a required parameter is
    missing: that of [parseTemplates] if it fails, else that of
    [RenderPaths] if it fails, else the missing-parameters error. *)
Lemma RenderTemplates_missing_error b m w w' b' err :
  missingParams b m ≠ [] →
  RenderTemplates P b m w = (w', Returns (b', Some err)) →
  ∃ b1 e1,
    parseTemplates P b w = (w, Returns (b1, e1))
    ∧ match e1 with
      | Some e => err = e ∧ is_compile_error e = true
      | None =>
          ∃ w2 b2 e2,
            RenderPaths P b1 m w = (w2, Returns (b2, e2))
            ∧ match e2 with
              | Some e => err = e ∧ is_path_error e = true
              | None =>
                  err = ErrMissingRequiredParams (BootEnv_Name b)
                          (Machine_Name m) (missingParams b m)
              end
      end.
Proof.
  intros Hmiss Hrun. rewrite RenderTemplates_unfold in Hrun.
  destruct (parseTemplates_spec b w) as (b1 & e1 & Hp & Hn1 & Hr1 & _ & He1).
  rewrite Hp in Hrun. exists b1, e1. split; [done|].
  destruct e1 as [e|]; [by simplify_eq|].
  destruct (RenderPaths_spec b1 m w)
    as (w2 & b2 & e2 & new & Hq & Hn2 & Hr2 & _ & _ & _ & He2).
  { eapply Forall_impl; [exact He1|]. by intros ? [? _]. }
  rewrite Hq in Hrun. exists w2, b2, e2. split; [done|].
  destruct e2 as [e|]; [by simplify_eq|].
  rewrite <- (missingParams_same b b2 m) in Hmiss |- * by congruence.
  destruct (missingParams b2 m); [done|]. simplify_eq. congruence.
Qed.

(** C2 (as amended): for every machine whose parameter set lacks a name of
    [RequiredParams], [RenderTemplates] returns an error, leaves the files
    as they are and does nothing but evaluate path expressions, so it
    creates no destination file and no directory. The error is the one of
    the compilation of the templates when that fails; otherwise the one of
    the rendering of the paths when that fails; and only when the templates
    compile and every path renders is it the missing-parameters error, with
    the names that are missing. *)
Theorem RenderTemplates_missing_params (b : BootEnv) (m : Machine)
    (w : World) :
  (∃ p, p ∈ BootEnv_RequiredParams b ∧ Machine_Params m !! p = None) →
  ∃ w' b' err new,
    RenderTemplates P b m w = (w', Returns (b', Some err))
    ∧ fs w' = fs w ∧ after w w' new
    ∧ Forall (λ x, is_EExecute x = true) new
    ∧ ∃ b1 e1,
        parseTemplates P b w = (w, Returns (b1, e1))
        ∧ match e1 with
          | Some e => err = e ∧ is_compile_error e = true
          | None =>
              ∃ w2 b2 e2,
                RenderPaths P b1 m w = (w2, Returns (b2, e2))
                ∧ match e2 with
                  | Some e => err = e ∧ is_path_error e = true
                  | None =>
                      err = ErrMissingRequiredParams (BootEnv_Name b)
                              (Machine_Name m) (missingParams b m)
                  end
          end.
Proof.
  intros Hmiss%missingParams_nonempty.
  destruct (RenderTemplates_missing b m w Hmiss)
    as (w' & b' & err & new & Hrun & Hfs & Haft & Hex & _).
  exists w', b', err, new. split_and!; [done..|].
  by eapply RenderTemplates_missing_error.
Qed.

(** C3 (as amended): [RenderTemplates] validates the required parameters
    after it has rendered the path expressions and before it touches a
    file or renders a content template: an effect on the files or the
    evaluation of a content template occurs only when no required
    parameter is missing, and when the call returns the
    missing-parameters error the path expression of every template has
    been evaluated, in order, and nothing else has been done. *)
Theorem RenderTemplates_validation_order (b : BootEnv) (m : Machine)
    (w w' : World) (r : Run (BootEnv * option Error)) (new : list Effect) :
  RenderTemplates P b m w = (w', r) →
  after w w' new →
  ((∃ e, e ∈ new ∧ is_file_effect e = true) → missingParams b m = [])
  ∧ (missingParams b m ≠ [] →
     (∃ b', r = Returns (b', Some (ErrMissingRequiredParams (BootEnv_Name b)
                                     (Machine_Name m) (missingParams b m)))) →
     new = rev (EExecute ∘ TemplateInfo_Name <$> BootEnv_Templates b)
     ∧ fs w' = fs w).
Proof.
  intros Hrun Haft. split.
  - intros (e & Hin & He).
    destruct (decide (missingParams b m = [])) as [|Hmiss]; [done|].
    destruct (RenderTemplates_missing b m w Hmiss)
      as (w0 & b' & err & new0 & Hrun0 & _ & Haft0 & Hex & _).
    rewrite Hrun in Hrun0. simplify_eq.
    rewrite (after_inj _ _ _ _ Haft Haft0) in Hin.
    eapply Forall_forall in Hex; [|exact Hin]. by destruct e.
  - intros Hmiss [b' ->].
    destruct (RenderTemplates_missing b m w Hmiss)
      as (w0 & b0 & err & new0 & Hrun0 & Hfs & Haft0 & _ & Hkind).
    rewrite Hrun in Hrun0. simplify_eq.
    rewrite (after_inj _ _ _ _ Haft Haft0).
    destruct Hkind as [[? _]|[?|[_ ?]]]; done.
Qed.

End Rendering.

(** C2, as stated, fails when a path expression cannot be rendered: the
    machine has no parameter at all, so it lacks the required [dns-domain],
    and [RenderTemplates] returns the error of the path of [seed], not the
    missing-parameters error. *)
Lemma RenderTemplates_missing_params_counterexample :
  let r := RenderTemplates Example.platform Example.racked Example.node2
             Example.empty_world in
  "dns-domain" ∈ BootEnv_RequiredParams Example.racked
  ∧ Machine_Params Example.node2 !! "dns-domain" = None
  ∧ (∃ b' msg,
        r.2 = Returns (b', Some (ErrRenderPath "seed"
                                   ("racks/" +:+ Example.param "rack" +:+ "/seed")
                                   msg)))
  ∧ ¬ ∃ b' missing,
        r.2 = Returns (b', Some (ErrMissingRequiredParams "ubuntu-16.04-install"
                                   "node2" missing)).
Proof.
  split_and!; [by left|reflexivity|by eexists _, _|].
  intros (b' & missing & H). discriminate H.
Qed.

(** The theorem at a machine without parameters. *)
Lemma RenderTemplates_missing_params_witness :
  "dns-domain" ∈ BootEnv_RequiredParams Example.ubuntu
  ∧ Machine_Params Example.node2 !! "dns-domain" = None
  ∧ ∃ w' b' err new,
      RenderTemplates Example.platform Example.ubuntu Example.node2
        Example.empty_world = (w', Returns (b', Some err))
      ∧ fs w' = fs Example.empty_world ∧ after Example.empty_world w' new
      ∧ Forall (λ x, is_EExecute x = true) new
      ∧ err = ErrMissingRequiredParams "ubuntu-16.04-install" "node2"
                ["dns-domain"].
Proof.
  assert ("dns-domain" ∈ BootEnv_RequiredParams Example.ubuntu) as Hin by left.
  split; [exact Hin|]. split; [reflexivity|].
  destruct (RenderTemplates_missing_params Example.platform Example.ubuntu
              Example.node2 Example.empty_world
              (ex_intro _ "dns-domain" (conj Hin eq_refl)))
    as (w' & b' & err & new & Hrun & Hfs & Haft & Hex & b1 & e1 & Hp & Herr).
  exists w', b', err, new. split_and!; [done..|].
  vm_compute in Hp. injection Hp as <- <-.
  destruct Herr as (w2 & b2 & e2 & Hq & Herr).
  vm_compute in Hq. injection Hq as <- <- <-. exact Herr.
Defined.

Example RenderTemplates_missing_dns :
  (RenderTemplates Example.platform Example.ubuntu Example.node2
     Example.empty_world).2
  = Returns
      (set_Templates Example.ubuntu
         [{| TemplateInfo_Name := "ipxe";
             TemplateInfo_Path := "{{.Machine.Name}}.ipxe";
             TemplateInfo_UUID := "default-ipxe.tmpl";
             pathTmpl := Some "{{.Machine.Name}}.ipxe";
             finalPath := "/tftpboot/node2.ipxe";
             contents :=
               Some {| Template_UUID := "default-ipxe.tmpl";
                       Template_Contents :=
                         "#!ipxe chain {{.ProvisionerURL}}/{{.Machine.Name}}" |} |};
          {| TemplateInfo_Name := "seed";
             TemplateInfo_Path := "machines/{{.Machine.Name}}/seed";
             TemplateInfo_UUID := "net_seed.tmpl";
             pathTmpl := Some "machines/{{.Machine.Name}}/seed";
             finalPath := "/tftpboot/machines/node2/seed";
             contents :=
               Some {| Template_UUID := "net_seed.tmpl";
                       Template_Contents :=
                         "d-i netcfg/get_domain string "
                         +:+ Example.param "dns-domain" |} |}],
       Some (ErrMissingRequiredParams "ubuntu-16.04-install" "node2"
               ["dns-domain"])).
Proof. reflexivity. Qed.

(** C3, as stated, fails: the machine lacks the required [dns-domain], the
    validation does not pass, and yet the path expressions of both templates
    have been evaluated and their results stored in [finalPath]. *)
Lemma RenderTemplates_validation_order_counterexample :
  let r := RenderTemplates Example.platform Example.ubuntu Example.node2
             Example.empty_world in
  missingParams Example.ubuntu Example.node2 = ["dns-domain"]
  ∧ effects r.1 = [EExecute "seed"; EExecute "ipxe"]
  ∧ ∃ b', r.2 = Returns (b', Some (ErrMissingRequiredParams
                                     "ubuntu-16.04-install" "node2"
                                     ["dns-domain"]))
          ∧ finalPath <$> BootEnv_Templates b'
            = ["/tftpboot/node2.ipxe"; "/tftpboot/machines/node2/seed"].
Proof.
  split_and!; [reflexivity|reflexivity|].
  eexists. split; reflexivity.
Qed.

(** The theorem at a machine that has the required parameter: files are
    created, and no parameter is missing. *)
Lemma RenderTemplates_validation_order_witness :
  let r := RenderTemplates Example.platform Example.ubuntu Example.node1
             Example.empty_world in
  after Example.empty_world r.1 (effects r.1)
  ∧ ECreate "/tftpboot/node1.ipxe" ∈ effects r.1
  ∧ missingParams Example.ubuntu Example.node1 = [].
Proof.
  set (r := RenderTemplates _ _ _ _).
  assert (after Example.empty_world r.1 (effects r.1)) as Haft
    by (unfold after; simpl; by rewrite app_nil_r).
  assert (ECreate "/tftpboot/node1.ipxe" ∈ effects r.1) as Hin.
  { vm_compute. do 6 right. left. }
  split_and!; [done..|].
  apply (proj1 (RenderTemplates_validation_order Example.platform Example.ubuntu
                  Example.node1 Example.empty_world r.1 r.2 (effects r.1)
                  (surjective_pairing r) Haft)).
  exists (ECreate "/tftpboot/node1.ipxe"). split; [exact Hin|reflexivity].
Defined.

(** ** The files *)

Section Files.

Implicit Types (fs : FS) (p q : string).

Lemma Stat_None fs p : Stat fs p = None → fs !! p = None.
Proof. unfold Stat. by repeat case_decide. Qed.


(** [os.MkdirAll] removes and replaces no file. *)
Lemma MkdirAll_from_keeps fs chain q :
  is_file (fs !! q) → is_file ((MkdirAll_from fs chain).1 !! q).
Proof.
  intros Hq. induction chain as [|p parents IH]; [done|]. simpl.
  destruct (Stat fs p) as [[]|] eqn:Hp; [done..|].
  destruct (MkdirAll_from fs parents) as [fs1 []]; [|done]. simpl in *.
  destruct (decide (p = q)) as [->|Hne].
  - apply Stat_None in Hp. rewrite Hp in Hq. done.
  - by rewrite lookup_insert_ne.
Qed.

Lemma MkdirAll_keeps fs d q :
  is_file (fs !! q) → is_file ((MkdirAll fs d).1 !! q).
Proof. apply MkdirAll_from_keeps. Qed.

Lemma Create_Some fs p fs' :
  Create fs p = Some fs' → fs' = <[p := File ""]> fs.
Proof.
  unfold Create. intros H.
  destruct (Stat fs p) as [[]|]; destruct (Stat fs (GoPath.Dir p)) as [[]|];
    by simplify_eq.
Qed.

Lemma Write_created fs p data :
  Write (<[p := File ""]> fs) p data = <[p := File data]> fs.
Proof. unfold Write. by rewrite lookup_insert_eq, insert_insert_eq. Qed.

Lemma Remove_file fs p data :
  fs !! p = Some (File data) → Remove fs p = Some (delete p fs).
Proof. unfold Remove. by intros ->. Qed.

Lemma insert_file_keeps fs p data q :
  is_file (fs !! q) → is_file (<[p := File data]> fs !! q).
Proof.
  intros Hq. destruct (decide (p = q)) as [->|Hne].
  - by rewrite lookup_insert_eq.
  - by rewrite lookup_insert_ne.
Qed.

End Files.

(** ** Failure of a content template *)

Section ContentFailure.

Variable P : Platform.

(** One turn of the loop of [RenderTemplates] from the creation of the
    file on: the world after the contents have been written. *)
Lemma render_loop_cons vars t ts w :
  render_loop P vars (t :: ts) w
  = let p := finalPath t in
    let w1 := set_fs (add_effect w (EMkdirAll (GoPath.Dir p)))
                (MkdirAll (fs w) (GoPath.Dir p)).1 in
    if negb (MkdirAll (fs w) (GoPath.Dir p)).2
    then (w1, Returns (Some (ErrTemplateDir p)))
    else
      match Create (fs w1) p with
      | None => (add_effect w1 (ECreate p), Returns (Some (ErrTemplateCreate p)))
      | Some fs2 =>
          let w2 := set_fs (add_effect w1 (ECreate p)) fs2 in
          match contents t with
          | None => (w2, Aborts)
          | Some tmpl =>
              let out := Template_Render P tmpl vars in
              let w3 := add_effect w2 (ERender (TemplateInfo_Name t)) in
              let w4 := set_fs w3 (Write (fs w3) p out.1) in
              match out.2 with
              | Some e =>
                  (match Remove (fs w4) p with
                   | Some fs5 => set_fs (add_effect w4 (ERemove p)) fs5
                   | None => add_effect w4 (ERemove p)
                   end,
                   Returns (Some (ErrRenderTemplate (TemplateInfo_Name t) e
                                    (Template_Contents tmpl))))
              | None => render_loop P vars ts (add_effect w4 (ESync p))
              end
          end
      end.
Proof.
  cbn [render_loop]. erewrite bind_Returns by apply os_MkdirAll_run.
  destruct (MkdirAll (fs w) _) as [fs1 []]; cbn [negb fst snd]; [|done].
  rewrite bind_run, os_Create_run. cbn [fs set_fs add_effect].
  destruct (Create _ _) as [fs2|]; cbn [negb]; [|done].
  destruct (contents t) as [tmpl|]; [|done].
  rewrite effect_bind. destruct (Template_Render P tmpl vars) as [out [e|]].
  - erewrite bind_Returns by apply os_Write_run.
    rewrite bind_run, os_Remove_run. cbn [fst snd].
    by destruct (Remove _ _).
  - erewrite bind_Returns by apply os_Write_run. by rewrite effect_bind.
Qed.

Lemma render_loop_failure vars ts w w' name e c :
  render_loop P vars ts w = (w', Returns (Some (ErrRenderTemplate name e c))) →
  ∃ pre t post,
    ts = pre ++ t :: post ∧ TemplateInfo_Name t = name
    ∧ fs w' !! finalPath t = None
    ∧ (∀ q, q ≠ finalPath t → is_file (fs w !! q) → is_file (fs w' !! q))
    ∧ (∀ t', t' ∈ pre → finalPath t' ≠ finalPath t →
             is_file (fs w' !! finalPath t')).
Proof.
  revert w. induction ts as [|t ts IH]; intros w Hrun; [done|].
  rewrite render_loop_cons in Hrun. cbv zeta in Hrun.
  set (p := finalPath t) in *.
  pose proof (MkdirAll_keeps (fs w) (GoPath.Dir p)) as Hdir.
  destruct (MkdirAll (fs w) (GoPath.Dir p)) as [fs1 []];
    cbn [negb fst snd fs set_fs add_effect] in *; [|done].
  destruct (Create fs1 p) as [fs2|] eqn:Hcreate; [|done].
  apply Create_Some in Hcreate as ->.
  destruct (contents t) as [tmpl|]; [|done].
  destruct (Template_Render P tmpl vars) as [out [e0|]];
    cbn [fst snd fs set_fs add_effect] in Hrun; rewrite Write_created in Hrun.
  - erewrite Remove_file in Hrun by apply lookup_insert_eq.
    simplify_eq. exists [], t, ts. cbn [fs set_fs add_effect].
    split_and!; [done|done|apply lookup_delete_eq| |].
    + intros q Hq Hfile. rewrite lookup_delete_ne, lookup_insert_ne by done.
      by apply Hdir.
    + intros t' Hin. by apply elem_of_nil in Hin.
  - apply IH in Hrun as (pre & t0 & post & -> & Hname & Hgone & Hkeep & Hpre).
    cbn [fs set_fs add_effect] in Hkeep.
    exists (t :: pre), t0, post. split_and!; [done|done|done| |].
    + intros q Hq Hfile. apply Hkeep; [done|].
      by apply insert_file_keeps, Hdir.
    + intros t' Hin Hne. apply elem_of_cons in Hin as [->|Hin]; [|by apply Hpre].
      apply Hkeep; [done|]. fold p. by rewrite lookup_insert_eq.
Qed.

(** C1 (as amended): if the rendering of the content of a template fails
    during [RenderTemplates], then after the call the destination file of
    that template does not exist, the destination file of every template
    processed before it in the same call exists unless its path is the
    path of the failed template, and no other file has been removed. *)
Theorem RenderTemplates_content_failure (b : BootEnv) (m : Machine)
    (w w' : World) (b' : BootEnv) (name e c : string) :
  RenderTemplates P b m w
  = (w', Returns (b', Some (ErrRenderTemplate name e c))) →
  ∃ pre t post,
    BootEnv_Templates b' = pre ++ t :: post ∧ TemplateInfo_Name t = name
    ∧ fs w' !! finalPath t = None
    ∧ (∀ t', t' ∈ pre → finalPath t' ≠ finalPath t →
             is_file (fs w' !! finalPath t'))
    ∧ (∀ q, q ≠ finalPath t → is_file (fs w !! q) → is_file (fs w' !! q)).
Proof.
  intros Hrun. rewrite RenderTemplates_unfold in Hrun.
  destruct (parseTemplates_spec P b w) as (b1 & e1 & Hp & _ & _ & _ & He1).
  rewrite Hp in Hrun. destruct e1 as [e1|]; [by simplify_eq|].
  destruct (RenderPaths_spec P b1 m w)
    as (w2 & b2 & e2 & new & Hq & _ & _ & Hfs & _ & _ & He2).
  { eapply Forall_impl; [exact He1|]. by intros ? [? _]. }
  rewrite Hq in Hrun. destruct e2 as [e2|]; [by simplify_eq|].
  destruct (missingParams b2 m); [|done].
  destruct (render_loop P _ _ w2) as [w3 [err|]] eqn:Hloop; [|done].
  simplify_eq.
  apply render_loop_failure in Hloop as (pre & t & post & ? & ? & ? & Hkeep & ?).
  exists pre, t, post. split_and!; [done..|].
  intros q ? ?. apply Hkeep; [done|]. by rewrite Hfs.
Qed.

End ContentFailure.

(** C1, as stated, fails when two templates have the same path: the first
    one is rendered and synced, the content of the second one fails, and the
    removal of the file of the second one removes the file of the first. *)
Lemma RenderTemplates_content_failure_counterexample :
  let r := RenderTemplates Example.platform Example.twins Example.node1
             Example.empty_world in
  ∃ b' t1 t2 msg,
    r.2 = Returns (b', Some (ErrRenderTemplate "rack" msg
                               ("rack " +:+ Example.param "rack")))
    ∧ BootEnv_Templates b' = [t1; t2]
    ∧ TemplateInfo_Name t1 = "ipxe"
    ∧ finalPath t1 = "/tftpboot/node1.ipxe"
    ∧ ESync (finalPath t1) ∈ effects r.1
    ∧ fs r.1 !! finalPath t1 = None.
Proof.
  eexists _, _, _, _. split_and!; [reflexivity..| |reflexivity].
  vm_compute. do 4 right. left.
Qed.

(** The theorem at two templates with different paths, the second of which
    fails. *)
Lemma RenderTemplates_content_failure_witness :
  ∃ w' b' msg,
    RenderTemplates Example.platform Example.with_rack Example.node1
      Example.empty_world
    = (w', Returns (b', Some (ErrRenderTemplate "rack" msg
                                ("rack " +:+ Example.param "rack"))))
    ∧ ∃ pre t post,
        BootEnv_Templates b' = pre ++ t :: post ∧ TemplateInfo_Name t = "rack"
        ∧ fs w' !! finalPath t = None
        ∧ (∀ t', t' ∈ pre → finalPath t' ≠ finalPath t →
                 is_file (fs w' !! finalPath t'))
        ∧ (∀ q, q ≠ finalPath t → is_file (fs Example.empty_world !! q) →
                is_file (fs w' !! q)).
Proof.
  set (r := RenderTemplates Example.platform Example.with_rack Example.node1
              Example.empty_world).
  set (b' := match r.2 with
             | Returns (b', _) => b'
             | Aborts => Example.with_rack
             end).
  assert (r = (r.1, Returns (b', Some (ErrRenderTemplate "rack"
                                         "No such machine parameter rack"
                                         ("rack " +:+ Example.param "rack")))))
    as Hr by (vm_compute; reflexivity).
  exists r.1, b', "No such machine parameter rack". split; [exact Hr|].
  exact (RenderTemplates_content_failure _ _ _ _ _ _ _ _ _ Hr).
Defined.

Example RenderTemplates_rack_files :
  let w' := (RenderTemplates Example.platform Example.with_rack Example.node1
               Example.empty_world).1 in
  fs w' !! "/tftpboot/node1.ipxe"
  = Some (File "#!ipxe chain http://192.168.124.10:8091/node1")
  ∧ fs w' !! "/tftpboot/machines/node1" = Some Directory
  ∧ fs w' !! "/tftpboot/machines/node1/rack" = None.
Proof. by vm_compute. Qed.

(** ** Growth of the effects *)

Section Grows.

Context (Q : Effect → Prop).

Lemma grows_refl w : grows Q w w.
Proof. exists []. by split. Qed.

Lemma grows_trans w1 w2 w3 : grows Q w1 w2 → grows Q w2 w3 → grows Q w1 w3.
Proof.
  intros (new1 & H1 & Hq1) (new2 & H2 & Hq2). exists (new2 ++ new1).
  split; [by eapply after_trans|]. by apply Forall_app.
Qed.

Lemma grows_add w w' e : Q e → grows Q w w' → grows Q w (add_effect w' e).
Proof.
  intros He (new & H & Hq). exists (e :: new). split.
  - unfold after in *. simpl. by rewrite H.
  - by constructor.
Qed.

Lemma grows_step w w' e : Q e → grows Q (add_effect w e) w' → grows Q w w'.
Proof.
  intros He Hg. eapply grows_trans; [|exact Hg]. by apply grows_add, grows_refl.
Qed.

Lemma grows_set_fs w w' x : grows Q w w' → grows Q w (set_fs w' x).
Proof. intros (new & H & Hq). by exists new. Qed.

End Grows.

Lemma grows_weaken (Q1 Q2 : Effect → Prop) w w' :
  (∀ e, Q1 e → Q2 e) → grows Q1 w w' → grows Q2 w w'.
Proof.
  intros HQ (new & H & Hq). exists new. split; [done|].
  eapply Forall_impl; [exact Hq|done].
Qed.

Ltac grows_tac :=
  repeat first
    [ apply grows_refl
    | apply grows_set_fs
    | apply grows_add; [done|] ].

(** ** The file fetcher *)

Section Fetch.

Variable P : Platform.

Lemma validate_file_run b f w :
  validate_file P b f w
  = (add_effect w (EPrintf ("Validating file: " +:+ FileData_Name f +:+ nl)),
     Returns (if IsNotExist (fs w) (diskPath P b (FileData_Name f))
              then Some (ErrValidate (diskPath P b (FileData_Name f)))
              else None)).
Proof.
  unfold validate_file.
  erewrite bind_Returns by apply logger_Printf_run.
  erewrite bind_Returns by apply PathFor_disk.
  erewrite bind_Returns by apply os_Stat_IsNotExist_run.
  cbn [fs add_effect]. by destruct (IsNotExist _ _).
Qed.

(** [get_file], stage by stage. *)
Lemma get_file_run b f w :
  get_file P b f w
  = let p := diskPath P b (FileData_Name f) in
    let w0 := add_effect w (EPrintf ("Downloading file: " +:+ FileData_Name f
                                     +:+ nl)) in
    let w1 := set_fs (add_effect w0 (EMkdirAll (GoPath.Dir p)))
                (MkdirAll (fs w) (GoPath.Dir p)).1 in
    if negb (MkdirAll (fs w) (GoPath.Dir p)).2
    then (w1, Returns (Some (ErrFileDir p)))
    else
      match Create (fs w1) p with
      | None => (add_effect w1 (ECreate p), Returns (Some (ErrFileCreate p)))
      | Some fs2 =>
          let w2 := set_fs (add_effect w1 (ECreate p)) fs2 in
          let w3 := add_effect w2 (EHttpGet (FileData_URL f)) in
          match http_get P (FileData_URL f) with
          | inl err => (w3, Returns (Some (ErrHttpGet err)))
          | inr (body, err) =>
              (set_fs w3 (Write (fs w3) p body),
               Returns match err with
                       | Some e => Some (ErrCopy e)
                       | None => None
                       end)
          end
      end.
Proof.
  unfold get_file.
  erewrite bind_Returns by apply logger_Printf_run.
  erewrite bind_Returns by apply PathFor_disk.
  erewrite bind_Returns by apply os_MkdirAll_run. cbn [fs add_effect].
  destruct (MkdirAll (fs w) _) as [fs1 []]; cbn [negb fst snd]; [|done].
  rewrite bind_run, os_Create_run. cbn [fs set_fs add_effect].
  destruct (Create _ _) as [fs2|]; cbn [negb]; [|done].
  rewrite effect_bind. destruct (http_get P _) as [err|[body [e|]]]; [done|..].
  - by erewrite bind_Returns by apply os_Write_run.
  - by erewrite bind_Returns by apply os_Write_run.
Qed.

Lemma get_file_spec b f w w' r :
  get_file P b f w = (w', r) →
  let p := diskPath P b (FileData_Name f) in
  (∀ q, is_file (fs w !! q) → is_file (fs w' !! q))
  ∧ grows (fetch_effect p (FileData_URL f)) w w'
  ∧ (∀ e, r = Returns (Some e) →
          (∃ msg, e = ErrHttpGet msg ∨ e = ErrCopy msg) →
          ∃ data, fs w' !! p = Some (File data)
                  ∧ ((∃ msg, e = ErrHttpGet msg) → data = "")).
Proof.
  rewrite get_file_run. cbv zeta. set (p := diskPath _ _ _).
  pose proof (MkdirAll_keeps (fs w) (GoPath.Dir p)) as Hdir.
  destruct (MkdirAll (fs w) (GoPath.Dir p)) as [fs1 []];
    cbn [negb fst snd fs set_fs add_effect] in *.
  2:{ intros [= <- <-]. split_and!; [done|grows_tac|].
      intros e [= <-] [msg [?|?]]; done. }
  destruct (Create fs1 p) as [fs2|] eqn:Hcreate.
  2:{ intros [= <- <-]. split_and!; [done|grows_tac|].
      intros e [= <-] [msg [?|?]]; done. }
  apply Create_Some in Hcreate as ->.
  destruct (http_get P _) as [err|[body err]]; intros [= <- <-];
    cbn [fs set_fs add_effect].
  - split_and!; [intros q Hq; by apply insert_file_keeps, Hdir|grows_tac|].
    intros e _ _. exists "". by rewrite lookup_insert_eq.
  - rewrite Write_created.
    split_and!; [intros q Hq; by apply insert_file_keeps, Hdir|grows_tac|].
    intros e He _. exists body. rewrite lookup_insert_eq. split; [done|].
    intros [msg Hm]. subst e. destruct err; simplify_eq.
Qed.





End Fetch.

(** ** A later [onChange] *)

Section Later.

Variable P : Platform.

(** One step of a computation in hypothesis [H]. *)
Ltac mrun H :=
  repeat first
    [ rewrite bind_assoc in H
    | rewrite ret_bind in H
    | rewrite effect_bind in H
    | rewrite get_fs_bind in H
    | rewrite put_fs_bind in H
    | rewrite logger_Printf_bind in H
    | rewrite os_Stat_bind in H
    | rewrite os_Stat_IsNotExist_bind in H
    | rewrite os_Open_bind in H
    | erewrite bind_Returns in H by apply PathFor_disk ].

Ltac mdone H := unfold mret, M_ret in H; simplify_eq.


Lemma check_kernel_run b w : ∃ r, check_kernel P b w = (w, Returns r).
Proof.
  unfold check_kernel. case_decide; [|by eexists].
  erewrite bind_Returns by apply PathFor_disk. rewrite os_Stat_bind.
  destruct (Stat _ _) as [[]|]; by eexists.
Qed.

Lemma check_initrds_run b initrds w :
  ∃ r, check_initrds P b initrds w = (w, Returns r).
Proof.
  induction initrds as [|initrd rest IH]; [by eexists|]. cbn [check_initrds].
  erewrite bind_Returns by apply PathFor_disk. rewrite os_Stat_bind.
  destruct (Stat _ _) as [[]|]; [done|by eexists..].
Qed.






End Later.


(** The truncated file of a failed download, and the [onChange] that
    follows: it succeeds without a download and the file is as it was. *)
Example onChange_after_failed_download :
  let w' := (get_file Example.platform Example.with_firmware Example.firmware
               Example.empty_world).1 in
  let r := onChange Example.platform Example.with_firmware None w' in
  fs w' !! "/tftpboot/ubuntu-16.04/install/extra/firmware.bin"
  = Some (File "pay")
  ∧ (∃ b', r.2 = Returns (b', None))
  ∧ filter (λ e, is_EHttpGet e = true) (effects r.1)
    = [EHttpGet "http://mirror/cut"]
  ∧ fs r.1 !! "/tftpboot/ubuntu-16.04/install/extra/firmware.bin"
    = Some (File "pay").
Proof. split_and!; [reflexivity|by eexists|reflexivity|reflexivity]. Qed.

(** * Further properties *)

(** Steps through the binds of a run [H]. *)
Ltac mrun H :=
  repeat first
    [ rewrite bind_assoc in H
    | rewrite ret_bind in H
    | rewrite effect_bind in H
    | rewrite get_fs_bind in H
    | rewrite put_fs_bind in H
    | rewrite logger_Printf_bind in H
    | rewrite os_Stat_bind in H
    | rewrite os_Stat_IsNotExist_bind in H
    | rewrite os_Open_bind in H
    | erewrite bind_Returns in H by apply PathFor_disk ].

Ltac mdone H := unfold mret, M_ret in H; simplify_eq.

Ltac minj H := unfold mret, M_ret in H; injection H as <- <- <-.

(** ** The structural check, in full *)

Section StructureFull.

Lemma check_templates_flags ts p e i p' e' i' :
  check_templates ts p e i = inr (p', e', i') →
  (p = true ∨ "pxelinux" ∈ TemplateInfo_Name <$> ts → p' = true)
  ∧ (e = true ∨ "elilo" ∈ TemplateInfo_Name <$> ts → e' = true)
  ∧ (i = true ∨ "ipxe" ∈ TemplateInfo_Name <$> ts → i' = true).
Proof.
  revert p e i. induction ts as [|t ts IH]; intros p e i Hc.
  - simplify_eq/=. split_and!; intros [?|Hin]; try done;
      by apply elem_of_nil in Hin.
  - simpl in Hc. case_decide as Hl; [done|].
    apply IH in Hc as (Hp & He & Hi).
    split_and!; intros [->|Hin].
    + apply Hp. left. by destruct (decide (TemplateInfo_Name t = "pxelinux")).
    + apply Hp. rewrite fmap_cons, elem_of_cons in Hin.
      destruct Hin as [Hn|?]; [|by right]. left. rewrite <- Hn. by rewrite decide_True.
    + apply He. left. by destruct (decide (TemplateInfo_Name t = "elilo")).
    + apply He. rewrite fmap_cons, elem_of_cons in Hin.
      destruct Hin as [Hn|?]; [|by right]. left. rewrite <- Hn. by rewrite decide_True.
    + apply Hi. left. by destruct (decide (TemplateInfo_Name t = "ipxe")).
    + apply Hi. rewrite fmap_cons, elem_of_cons in Hin.
      destruct Hin as [Hn|?]; [|by right]. left. rewrite <- Hn. by rewrite decide_True.
Qed.

(** X1: the structural check of [onChange] passes exactly when every
    template has a name, a path and a UUID and the templates include one
    named [ipxe] or both one named [pxelinux] and one named [elilo]. *)
Theorem check_structure_passes (b : BootEnv) :
  check_structure b = None
  ↔ Forall legal (BootEnv_Templates b)
    ∧ (has_template "ipxe" b
       ∨ has_template "pxelinux" b ∧ has_template "elilo" b).
Proof.
  unfold check_structure, has_template. split.
  - destruct (check_templates _ _ _ _) as [err|[[p' e'] i']] eqn:Hc; [done|].
    apply check_templates_seen in Hc as (Hall & Hp & He & Hi).
    destruct i'; cbn [negb].
    + intros _. split; [done|]. left. by destruct (Hi eq_refl).
    + destruct p', e'; cbn [negb andb]; try done. intros _. split; [done|].
      right. split; [by destruct (Hp eq_refl)|by destruct (He eq_refl)].
  - intros [Hall Hnames].
    destruct (check_templates_legal (BootEnv_Templates b) false false false Hall)
      as [[[p' e'] i'] Hc].
    rewrite Hc. apply check_templates_flags in Hc as (Hp & He & Hi).
    destruct Hnames as [Hipxe|[Hpxe Helilo]].
    + by rewrite Hi by (by right).
    + rewrite Hp, He by (by right). by destruct i'.
Qed.

End StructureFull.

(** ** Derived state only *)

Section Exported.

Variable P : Platform.

Lemma parseTemplates_loop_exported store ts :
  exported_template <$> (parseTemplates_loop P store ts).1
  = exported_template <$> ts.
Proof.
  induction ts as [|t ts IH]; [done|]. simpl.
  destruct (tmpl_parse P (TemplateInfo_Path t)); [done|].
  destruct (contents t).
  - destruct (parseTemplates_loop P store ts). csimpl in *. by rewrite IH.
  - destruct (backend_load store (TemplateInfo_UUID t)); [|done].
    unfold Template_Parse. simpl. destruct (tmpl_parse P _); [done|].
    destruct (parseTemplates_loop P store ts). csimpl in *. by rewrite IH.
Qed.

Lemma parseTemplates_exported b w w' b' e :
  parseTemplates P b w = (w', Returns (b', e)) → exported b' = exported b.
Proof.
  unfold parseTemplates.
  pose proof (parseTemplates_loop_exported (templates w) (BootEnv_Templates b)) as Hx.
  destruct (parseTemplates_loop P (templates w) (BootEnv_Templates b))
    as [ts [err|]]; simpl in Hx.
  - intros [= <- <- <-]. unfold exported. simpl. by rewrite Hx.
  - case_decide.
    + destruct (tmpl_parse P _); intros [= <- <- <-]; unfold exported; simpl;
        by rewrite Hx.
    + intros [= <- <- <-]. unfold exported. simpl. by rewrite Hx.
Qed.

Lemma RenderPaths_loop_exported b m done todo w w' ts e :
  RenderPaths_loop P b m done todo w = (w', Returns (ts, e)) →
  exported_template <$> ts = exported_template <$> (rev done ++ todo).
Proof.
  revert done w. induction todo as [|t todo IH]; intros done w Hrun.
  - unfold RenderPaths_loop, mret, M_ret in Hrun. simplify_eq.
    by rewrite app_nil_r.
  - cbn [RenderPaths_loop] in Hrun. destruct (pathTmpl t) as [src|]; [|done].
    rewrite effect_bind in Hrun.
    destruct (tmpl_execute P src _) as [pathBuf [err|]].
    + unfold mret, M_ret in Hrun. by simplify_eq.
    + apply IH in Hrun. rewrite Hrun. cbn [rev].
      rewrite <- List.app_assoc. by rewrite !fmap_app.
Qed.

Lemma RenderPaths_exported b m w w' b' e :
  RenderPaths P b m w = (w', Returns (b', e)) → exported b' = exported b.
Proof.
  unfold RenderPaths. rewrite bind_run.
  destruct (RenderPaths_loop P b m [] _ w) as [w1 [[ts e1]|]] eqn:Hloop; [|done].
  apply RenderPaths_loop_exported in Hloop.
  unfold mret, M_ret. intros [= <- <- <-]. unfold exported. simpl.
  by rewrite Hloop.
Qed.

Lemma RenderTemplates_exported b m w w' b' e :
  RenderTemplates P b m w = (w', Returns (b', e)) → exported b' = exported b.
Proof.
  rewrite RenderTemplates_unfold.
  destruct (parseTemplates P b w) as [w1 [[b1 e1]|]] eqn:Hparse; [|done].
  apply parseTemplates_exported in Hparse.
  destruct e1 as [e1|]; [by intros [= <- <- <-]|].
  destruct (RenderPaths P b1 m w1) as [w2 [[b2 e2]|]] eqn:Hpaths; [|done].
  apply RenderPaths_exported in Hpaths.
  assert (exported b2 = exported b) as Hx by (by rewrite Hpaths).
  destruct e2 as [e2|]; [by intros [= <- <- <-]|].
  destruct (missingParams b2 m); [|by intros [= <- <- <-]].
  destruct (render_loop P _ _ w2) as [w3 [err|]]; [|done].
  by intros [= <- <- <-].
Qed.

Lemma cascade_exported b oldName ms w w' b' e :
  cascade P b oldName ms w = (w', Returns (b', e)) → exported b' = exported b.
Proof.
  revert b w. induction ms as [|m ms IH]; intros b w Hrun.
  { unfold cascade, mret, M_ret in Hrun. by injection Hrun as <- <- <-. }
  cbn [cascade] in Hrun. case_decide; [by eapply IH|].
  rewrite bind_run in Hrun.
  destruct (RenderTemplates P b m w) as [w1 [[b1 [e1|]]|]] eqn:Hrt; [..|done].
  - apply RenderTemplates_exported in Hrt.
    unfold mret, M_ret in Hrun. by injection Hrun as <- <- <-.
  - apply RenderTemplates_exported in Hrt. apply IH in Hrun.
    by rewrite Hrun.
Qed.

End Exported.

(** ** What the steps keep *)

Section Keeps.

Variable P : Platform.

(** [os.MkdirAll] leaves what exists as it is. *)
Lemma MkdirAll_from_lookup (fs : FS) chain q n :
  fs !! q = Some n → (MkdirAll_from fs chain).1 !! q = Some n.
Proof.
  intros Hq. induction chain as [|p parents IH]; [done|]. simpl.
  destruct (Stat fs p) as [[]|] eqn:Hp; [done..|].
  destruct (MkdirAll_from fs parents) as [fs1 []]; [|done]. simpl in *.
  destruct (decide (p = q)) as [->|Hne].
  - apply Stat_None in Hp. by rewrite Hp in Hq.
  - by rewrite lookup_insert_ne.
Qed.

Lemma MkdirAll_lookup (fs : FS) d q n :
  fs !! q = Some n → (MkdirAll fs d).1 !! q = Some n.
Proof. apply MkdirAll_from_lookup. Qed.

Lemma keeps_refl w : keeps w w.
Proof. by split. Qed.

Lemma keeps_trans w1 w2 w3 : keeps w1 w2 → keeps w2 w3 → keeps w1 w3.
Proof. intros [? ?] [? ?]. split; auto. Qed.

Lemma keeps_same w w' : fs w' = fs w → keeps w w'.
Proof. intros Hfs. unfold keeps. by rewrite Hfs. Qed.

Lemma keeps_MkdirAll w w' d :
  fs w' = (MkdirAll (fs w) d).1 → keeps w w'.
Proof.
  intros Hfs. unfold keeps. rewrite Hfs. split; intros q Hq.
  - by apply MkdirAll_keeps.
  - destruct Hq as [n Hn]. exists n. by apply MkdirAll_lookup.
Qed.

Lemma keeps_insert_file w w' p data :
  fs w' = <[p := File data]> (fs w) → keeps w w'.
Proof.
  intros Hfs. unfold keeps. rewrite Hfs. split; intros q Hq.
  - by apply insert_file_keeps.
  - destruct (decide (p = q)) as [->|]; [by rewrite lookup_insert_eq|].
    by rewrite lookup_insert_ne.
Qed.

Lemma Remove_lookup (fs fs' : FS) p q :
  Remove fs p = Some fs' → p ≠ q → fs' !! q = fs !! q.
Proof.
  unfold Remove. intros Hrm Hne.
  destruct (fs !! p) as [[]|]; [| |done].
  - simplify_eq. by rewrite lookup_delete_ne.
  - destruct (has_children fs p); simplify_eq. by rewrite lookup_delete_ne.
Qed.

Lemma Write_lookup (fs : FS) p data q :
  p ≠ q → Write fs p data !! q = fs !! q.
Proof.
  intros Hne. unfold Write. destruct (fs !! p) as [[]|]; [|done..].
  by rewrite lookup_insert_ne.
Qed.

(** The loop of [RenderTemplates] leaves alone what exists at a path that is
    the destination of none of its templates. *)
Lemma render_loop_frame vars ts w w' r p n :
  render_loop P vars ts w = (w', r) →
  fs w !! p = Some n → p ∉ finalPath <$> ts → fs w' !! p = Some n.
Proof.
  revert w. induction ts as [|t ts IH]; intros w Hrun Hp Hnot.
  { unfold render_loop, mret, M_ret in Hrun. by simplify_eq. }
  rewrite fmap_cons, not_elem_of_cons in Hnot. destruct Hnot as [Hne Hnot].
  rewrite render_loop_cons in Hrun. cbv zeta in Hrun.
  pose proof (MkdirAll_lookup (fs w) (GoPath.Dir (finalPath t)) p n Hp) as Hdir.
  destruct (MkdirAll (fs w) _) as [fs1 []]; cbn [negb fst snd fs set_fs add_effect] in *.
  2:{ by simplify_eq. }
  destruct (Create fs1 (finalPath t)) as [fs2|] eqn:Hcreate; [|by simplify_eq].
  apply Create_Some in Hcreate as ->.
  destruct (contents t) as [tmpl|].
  2:{ simplify_eq. cbn [fs set_fs add_effect]. by rewrite lookup_insert_ne. }
  destruct (Template_Render P tmpl vars) as [out [e|]];
    cbn [fst snd fs set_fs add_effect] in Hrun; rewrite Write_created in Hrun.
  - erewrite Remove_file in Hrun by apply lookup_insert_eq. simplify_eq.
    cbn [fs set_fs add_effect].
    by rewrite lookup_delete_ne, lookup_insert_ne.
  - eapply IH; [exact Hrun| |done]. cbn [fs set_fs add_effect].
    by rewrite lookup_insert_ne.
Qed.

(** When the loop of [RenderTemplates] succeeds, it has removed nothing,
    every template has its destination file, and the file of a template
    whose path no later template shares holds what the content template
    wrote. *)
Lemma render_loop_success vars ts w w' :
  render_loop P vars ts w = (w', Returns None) →
  keeps w w'
  ∧ ∀ pre t post,
      ts = pre ++ t :: post →
      ∃ tmpl, contents t = Some tmpl
              ∧ is_file (fs w' !! finalPath t)
              ∧ (last_writer t post →
                 fs w' !! finalPath t
                 = Some (File (Template_Render P tmpl vars).1)).
Proof.
  revert w. induction ts as [|t ts IH]; intros w Hrun.
  { unfold render_loop, mret, M_ret in Hrun. simplify_eq.
    split; [apply keeps_refl|]. intros pre t post Hts. by destruct pre. }
  rewrite render_loop_cons in Hrun. cbv zeta in Hrun.
  set (p := finalPath t) in *.
  pose proof (keeps_MkdirAll w (set_fs w (MkdirAll (fs w) (GoPath.Dir p)).1)
                (GoPath.Dir p) eq_refl) as Hk1.
  destruct (MkdirAll (fs w) (GoPath.Dir p)) as [fs1 []];
    cbn [negb fst snd fs set_fs add_effect] in *; [|done].
  destruct (Create fs1 p) as [fs2|] eqn:Hcreate; [|done].
  apply Create_Some in Hcreate as ->.
  destruct (contents t) as [tmpl|] eqn:Hc; [|done].
  destruct (Template_Render P tmpl vars) as [out [e|]] eqn:Hout;
    cbn [fst snd fs set_fs add_effect] in Hrun; rewrite Write_created in Hrun.
  { by destruct (Remove _ _). }
  pose proof Hrun as Hframe.
  apply IH in Hrun as [Hk2 Hts]. cbn [fs set_fs add_effect] in *.
  assert (keeps w w') as Hk.
  { eapply keeps_trans; [exact Hk1|]. eapply keeps_trans; [|exact Hk2].
    by apply (keeps_insert_file _ _ p out). }
  split; [done|]. intros pre t0 post Heq.
  destruct pre as [|t1 pre]; simplify_eq/=.
  - exists tmpl. split_and!; [done| |].
    + apply Hk2. cbn [fs set_fs add_effect]. by rewrite lookup_insert_eq.
    + intros Hlast. eapply render_loop_frame; [exact Hframe| |exact Hlast].
      cbn [fs set_fs add_effect]. rewrite Hout. subst p.
      by rewrite lookup_insert_eq.
  - by apply (Hts pre t0 post).
Qed.

End Keeps.

(** ** Success of [RenderTemplates] and of [onChange] *)

Section Success.

Variable P : Platform.

(** A [RenderTemplates] that returns no error ran the loop over the
    templates to its end, from a world with the files of [w]. *)
Lemma RenderTemplates_success_loop b m w w' b' :
  RenderTemplates P b m w = (w', Returns (b', None)) →
  missingParams b m = []
  ∧ ∃ w2, fs w2 = fs w
          ∧ render_loop P (mkRenderData P b' m) (BootEnv_Templates b') w2
            = (w', Returns None).
Proof.
  intros Hrun. rewrite RenderTemplates_unfold in Hrun.
  destruct (parseTemplates_spec P b w) as (b1 & e1 & Hp & _ & Hr1 & _ & He1).
  rewrite Hp in Hrun. destruct e1 as [e1|]; [by simplify_eq|].
  destruct (RenderPaths_spec P b1 m w)
    as (w2 & b2 & e2 & new & Hq & _ & Hr2 & Hfs & _).
  { eapply Forall_impl; [exact He1|]. by intros ? [? _]. }
  rewrite Hq in Hrun. destruct e2 as [e2|]; [by simplify_eq|].
  destruct (missingParams b2 m) eqn:Hmiss; [|done].
  destruct (render_loop P _ _ w2) as [w3 [err|]] eqn:Hloop; [|done].
  simplify_eq. split; [|by exists w2].
  rewrite <- Hmiss. symmetry. apply missingParams_same. congruence.
Qed.

(** X2: when [RenderTemplates] returns no error, no required parameter is
    missing, nothing that existed has been removed, every template has its
    destination file, and the file of a template whose path no later
    template shares holds exactly what its content template wrote. *)
Theorem RenderTemplates_success (b : BootEnv) (m : Machine) (w w' : World)
    (b' : BootEnv) :
  RenderTemplates P b m w = (w', Returns (b', None)) →
  missingParams b m = []
  ∧ keeps w w'
  ∧ ∀ pre t post,
      BootEnv_Templates b' = pre ++ t :: post →
      ∃ tmpl, contents t = Some tmpl
              ∧ is_file (fs w' !! finalPath t)
              ∧ (last_writer t post →
                 fs w' !! finalPath t
                 = Some (File (Template_Render P tmpl (mkRenderData P b' m)).1)).
Proof.
  intros Hrun.
  apply RenderTemplates_success_loop in Hrun as (Hmiss & w2 & Hfs & Hloop).
  apply render_loop_success in Hloop as [Hk Hts].
  split_and!; [done| |done]. by eapply keeps_trans; [apply keeps_same|].
Qed.

Lemma RenderTemplates_success_keeps b m w w' b' :
  RenderTemplates P b m w = (w', Returns (b', None)) → keeps w w'.
Proof.
  intros Hrun.
  apply RenderTemplates_success_loop in Hrun as (_ & w2 & Hfs & Hloop).
  apply render_loop_success in Hloop as [Hk _].
  by eapply keeps_trans; [apply keeps_same|].
Qed.

Lemma cascade_success_keeps b oldName ms w w' b' :
  cascade P b oldName ms w = (w', Returns (b', None)) → keeps w w'.
Proof.
  revert b w. induction ms as [|m ms IH]; intros b w Hrun.
  { unfold cascade, mret, M_ret in Hrun. simplify_eq. apply keeps_refl. }
  cbn [cascade] in Hrun. case_decide; [by eapply IH|].
  rewrite bind_run in Hrun.
  destruct (RenderTemplates P b m w) as [w1 [[b1 [e1|]]|]] eqn:Hrt; [..|done].
  - unfold mret, M_ret in Hrun. by simplify_eq.
  - apply RenderTemplates_success_keeps in Hrt. apply IH in Hrun.
    by eapply keeps_trans.
Qed.

Lemma Stat_File (fs : FS) p data :
  Stat fs p = Some (File data) → fs !! p = Some (File data).
Proof. unfold Stat. by repeat case_decide. Qed.

Lemma Stat_keeps w w' p :
  keeps w w' → is_Some (Stat (fs w) p) → is_Some (Stat (fs w') p).
Proof.
  intros [_ Hk]. unfold Stat. repeat case_decide; [done..|]. apply Hk.
Qed.

Lemma check_kernel_ok b w w' :
  check_kernel P b w = (w', Returns None) →
  w' = w
  ∧ (BootEnv_Kernel b ≠ "" →
     is_file (fs w !! diskPath P b (BootEnv_Kernel b))).
Proof.
  unfold check_kernel. case_decide as Hk.
  - intros Hrun. mrun Hrun.
    destruct (Stat (fs w) _) as [[data|]|] eqn:Hst; mdone Hrun.
    split; [done|]. intros _. by erewrite Stat_File.
  - intros Hrun. mdone Hrun. by split.
Qed.

Lemma check_initrds_ok b initrds w w' :
  check_initrds P b initrds w = (w', Returns None) →
  w' = w ∧ Forall (λ initrd, is_file (fs w !! diskPath P b initrd)) initrds.
Proof.
  induction initrds as [|initrd rest IH]; intros Hrun.
  { cbn [check_initrds] in Hrun. mdone Hrun. split; [done|constructor]. }
  cbn [check_initrds] in Hrun. mrun Hrun.
  destruct (Stat (fs w) _) as [[data|]|] eqn:Hst; [|mdone Hrun..].
  apply IH in Hrun as [-> Hall]. split; [done|].
  constructor; [|done]. by erewrite Stat_File.
Qed.

Lemma get_file_keeps b f w w' r : get_file P b f w = (w', r) → keeps w w'.
Proof.
  rewrite get_file_run. cbv zeta. set (p := diskPath _ _ _).
  pose proof (keeps_MkdirAll w (set_fs w (MkdirAll (fs w) (GoPath.Dir p)).1)
                (GoPath.Dir p) eq_refl) as Hk1.
  destruct (MkdirAll (fs w) (GoPath.Dir p)) as [fs1 []];
    cbn [negb fst snd fs set_fs add_effect] in *.
  2:{ intros [= <- <-]. by apply (keeps_trans _ _ _ Hk1), keeps_same. }
  destruct (Create fs1 p) as [fs2|] eqn:Hcreate.
  2:{ intros [= <- <-]. by apply (keeps_trans _ _ _ Hk1), keeps_same. }
  apply Create_Some in Hcreate as ->.
  destruct (http_get P _) as [err|[body err]]; intros [= <- <-].
  - apply (keeps_trans _ _ _ Hk1). by apply (keeps_insert_file _ _ p "").
  - apply (keeps_trans _ _ _ Hk1). apply (keeps_insert_file _ _ p body).
    cbn [fs set_fs add_effect]. by rewrite Write_created.
Qed.

Lemma in_the_way_keeps w w' p :
  keeps w w' → in_the_way (fs w) p = true → in_the_way (fs w') p = true.
Proof.
  intros [Hfile _]. unfold in_the_way. rewrite !existsb_exists.
  intros (a & Ha & Hin). exists a. split; [done|].
  specialize (Hfile a). destruct (fs w !! a) as [[data|]|]; [|done..].
  by destruct (fs w' !! a) as [[data'|]|]; [|destruct Hfile..].
Qed.

(** Once [os.Stat] does not say that a path does not exist, it does not say
    so as long as nothing is removed. *)
Lemma IsNotExist_keeps w w' p :
  keeps w w' → IsNotExist (fs w) p = false → IsNotExist (fs w') p = false.
Proof.
  intros Hk. unfold IsNotExist.
  destruct (Stat (fs w) p) as [n|] eqn:Hst.
  - intros _. destruct (Stat_keeps w w' p Hk) as [n' ->]; [by rewrite Hst|].
    done.
  - intros Hway%negb_false_iff. destruct (Stat (fs w') p); [done|].
    by rewrite (in_the_way_keeps w w' p Hk Hway).
Qed.

(** What [os.Stat] says of a path of which it does not say that it does
    not exist: the path is there, or a regular file is in its way. *)
Lemma IsNotExist_false (fs : FS) p :
  IsNotExist fs p = false →
  is_Some (Stat fs p) ∨ in_the_way fs p = true.
Proof.
  unfold IsNotExist. destruct (Stat fs p) as [n|]; [by left; exists n|].
  intros Hway%negb_false_iff. by right.
Qed.

(** When the loop over the files succeeds, nothing that existed has been
    removed and of no file does [os.Stat] say that it does not exist. *)
Lemma fetch_files_success b files w w' :
  fetch_files P b files w = (w', Returns None) →
  keeps w w'
  ∧ Forall (λ f, IsNotExist (fs w') (diskPath P b (FileData_Name f)) = false)
      files.
Proof.
  revert w. induction files as [|f files IH]; intros w Hrun.
  { cbn [fetch_files] in Hrun. mdone Hrun. split; [apply keeps_refl|done]. }
  cbn [fetch_files] in Hrun.
  erewrite bind_Returns in Hrun by apply validate_file_run.
  set (w0 := add_effect w _) in *.
  assert (∀ w1, keeps w w1 →
            (validate_file P b f
             ≫= λ err, match err with
                       | Some e => mret (Some e)
                       | None => fetch_files P b files
                       end) w1 = (w', Returns None) →
            keeps w w'
            ∧ Forall (λ f, IsNotExist (fs w') (diskPath P b (FileData_Name f))
                           = false) (f :: files)) as Hrest.
  { intros w1 Hk1 Hrun1.
    erewrite bind_Returns in Hrun1 by apply validate_file_run.
    destruct (IsNotExist (fs w1) (diskPath P b (FileData_Name f))) eqn:Hst;
      [mdone Hrun1|].
    apply IH in Hrun1 as [Hk2 Hall]. cbn [fs add_effect] in *. split.
    - eapply keeps_trans; [exact Hk1|]. eapply keeps_trans; [|exact Hk2].
      by apply keeps_same.
    - constructor; [|done]. eapply IsNotExist_keeps; [exact Hk2|done]. }
  destruct (IsNotExist (fs w) (diskPath P b (FileData_Name f)));
    cbv beta iota in Hrun.
  - rewrite bind_run in Hrun.
    destruct (get_file P b f w0) as [w1 r1] eqn:Hget.
    apply get_file_keeps in Hget.
    destruct r1 as [[e|]|]; [mdone Hrun| |done].
    apply Hrest in Hrun; [done|].
    by eapply keeps_trans; [apply keeps_same|].
  - rewrite ret_bind in Hrun. apply Hrest in Hrun; [done|by apply keeps_same].
Qed.

(** The stages of an [onChange] that returns no error. *)
Lemma onChange_success_stages b oldThing w w' b' :
  onChange P b oldThing w = (w', Returns (b', None)) →
  check_structure b = None
  ∧ ∃ w1 w2 b1,
      prepare_media P b w = (w1, Returns None)
      ∧ fetch_files P b (OsInfo_Files (BootEnv_OS b)) w1 = (w2, Returns None)
      ∧ parseTemplates P b w2 = (w2, Returns (b1, None))
      ∧ check_kernel P b1 w2 = (w2, Returns None)
      ∧ check_initrds P b1 (BootEnv_Initrds b1) w2 = (w2, Returns None)
      ∧ match oldThing with
        | None => w' = w2 ∧ b' = b1
        | Some old =>
            BootEnv_Name old = BootEnv_Name b1
            ∧ ∃ ms, machines w2 = inr ms
                    ∧ cascade P b1 (BootEnv_Name old) ms w2
                      = (w', Returns (b', None))
        end.
Proof.
  intros Hrun. unfold onChange in Hrun.
  destruct (check_structure b); [mdone Hrun|]. split; [done|].
  rewrite bind_run in Hrun. fold (prepare_media P b) in Hrun.
  destruct (prepare_media P b w) as [w1 [[e|]|]] eqn:Hiso; [mdone Hrun| |done].
  rewrite bind_run in Hrun.
  destruct (fetch_files P b _ w1) as [w2 [[e|]|]] eqn:Hfetch;
    [mdone Hrun| |done].
  destruct (parseTemplates_spec P b w2) as (b1 & e1 & Hparse & _).
  erewrite bind_Returns in Hrun by exact Hparse.
  destruct e1 as [e1|]; [mdone Hrun|].
  destruct (check_kernel_run P b1 w2) as [rk Hk].
  erewrite bind_Returns in Hrun by exact Hk.
  destruct rk as [e|]; [mdone Hrun|].
  destruct (check_initrds_run P b1 (BootEnv_Initrds b1) w2) as [ri Hi].
  erewrite bind_Returns in Hrun by exact Hi.
  destruct ri as [e|]; [mdone Hrun|].
  exists w1, w2, b1. split_and!; [done..|].
  destruct oldThing as [old|]; [|by mdone Hrun].
  case_decide as Hname; [mdone Hrun|].
  unfold Machine_List in Hrun. rewrite bind_run in Hrun.
  destruct (machines w2) as [err|ms] eqn:Hms; [mdone Hrun|].
  split; [done|]. by exists ms.
Qed.

Lemma diskPath_exported b b' f :
  exported b' = exported b → diskPath P b' f = diskPath P b f.
Proof.
  unfold exported, diskPath, installSegment. intros Hx.
  by injection Hx as _ -> _ _ _ _ _ _.
Qed.

(** X3: whatever [onChange] returns, the boot environment it hands back
    differs from the given one only in its unexported fields: the compiled
    templates and the rendered paths. *)
Theorem onChange_exported (b : BootEnv) (oldThing : option BootEnv)
    (w w' : World) (b' : BootEnv) (e : option Error) :
  onChange P b oldThing w = (w', Returns (b', e)) → exported b' = exported b.
Proof.
  intros Hrun. unfold onChange in Hrun.
  destruct (check_structure b); [by mdone Hrun|].
  rewrite bind_run in Hrun. fold (prepare_media P b) in Hrun.
  destruct (prepare_media P b w) as [w1 [[e0|]|]]; [by mdone Hrun| |done].
  rewrite bind_run in Hrun.
  destruct (fetch_files P b _ w1) as [w2 [[e0|]|]]; [by mdone Hrun| |done].
  destruct (parseTemplates_spec P b w2) as (b1 & e1 & Hparse & _).
  erewrite bind_Returns in Hrun by exact Hparse.
  apply parseTemplates_exported in Hparse.
  destruct e1 as [e1|]; [by minj Hrun|].
  destruct (check_kernel_run P b1 w2) as [rk Hk].
  erewrite bind_Returns in Hrun by exact Hk.
  destruct rk as [e0|]; [by minj Hrun|].
  destruct (check_initrds_run P b1 (BootEnv_Initrds b1) w2) as [ri Hi].
  erewrite bind_Returns in Hrun by exact Hi.
  destruct ri as [e0|]; [by minj Hrun|].
  destruct oldThing as [old|]; [|by minj Hrun].
  case_decide; [by minj Hrun|].
  unfold Machine_List in Hrun. rewrite bind_run in Hrun.
  destruct (machines w2); [by minj Hrun|].
  apply cascade_exported in Hrun. congruence.
Qed.

(** X4: when [onChange] returns no error, the boot environment has passed
    the structural check, its kernel (when it names one) and each of its
    initrds are regular files at their disk paths, and each of its
    auxiliary files either exists at its disk path or has a regular file in
    the way of that path (the one failure of [os.Stat] that [validate_file]
    lets pass), all in the files as [onChange] leaves them; an update has
    kept the name. *)
Theorem onChange_success (b : BootEnv) (oldThing : option BootEnv)
    (w w' : World) (b' : BootEnv) :
  onChange P b oldThing w = (w', Returns (b', None)) →
  check_structure b = None
  ∧ (BootEnv_Kernel b ≠ ""
     → is_file (fs w' !! diskPath P b (BootEnv_Kernel b)))
  ∧ Forall (λ initrd, is_file (fs w' !! diskPath P b initrd))
      (BootEnv_Initrds b)
  ∧ Forall (λ f, is_Some (Stat (fs w') (diskPath P b (FileData_Name f)))
                 ∨ in_the_way (fs w') (diskPath P b (FileData_Name f)) = true)
      (OsInfo_Files (BootEnv_OS b))
  ∧ ∀ old, oldThing = Some old → BootEnv_Name old = BootEnv_Name b.
Proof.
  intros Hrun.
  apply onChange_success_stages in Hrun
    as (Hstruct & w1 & w2 & b1 & _ & Hfetch & Hparse & Hk & Hi & Hold).
  apply parseTemplates_exported in Hparse as Hx.
  assert (BootEnv_Kernel b1 = BootEnv_Kernel b
          ∧ BootEnv_Initrds b1 = BootEnv_Initrds b
          ∧ BootEnv_Name b1 = BootEnv_Name b) as (HK & HI & HN).
  { unfold exported in Hx. by injection Hx as -> _ _ -> -> _ _ _. }
  apply check_kernel_ok in Hk as [_ Hk].
  apply check_initrds_ok in Hi as [_ Hi].
  apply fetch_files_success in Hfetch as [_ Hfiles].
  assert (keeps w2 w') as Hkeep.
  { destruct oldThing as [old|].
    - destruct Hold as (_ & ms & _ & Hc). by eapply cascade_success_keeps.
    - destruct Hold as [-> _]. apply keeps_refl. }
  split_and!; [done|..].
  - intros Hne. apply Hkeep. rewrite <- HK, <- (diskPath_exported _ _ _ Hx).
    apply Hk. congruence.
  - rewrite <- HI. eapply Forall_impl; [exact Hi|]. intros i Hf.
    apply Hkeep. by rewrite <- (diskPath_exported _ _ _ Hx).
  - eapply Forall_impl; [exact Hfiles|]. intros f Hf.
    by apply IsNotExist_false, (IsNotExist_keeps w2 w').
  - intros old ->. destruct Hold as [Hn _]. congruence.
Qed.

End Success.

(** ** The media step *)

Section Media.

Variable P : Platform.

(** X5: [explode_iso] gets as far as its script exactly in the state
    [extracts]: the name ends in [-install], an ISO is named, the canary
    marker is absent, [os.Stat] does not say that the ISO does not exist,
    and with a checksum configured the ISO is a regular file of that
    checksum. It then runs [/explode_iso.sh] on the OS name, the ISO and
    the install directory, leaves the files as the script leaves them, and
    fails exactly when the script fails; in every other state it changes no
    file and runs no command. *)
Theorem explode_iso_script (b : BootEnv) (w w' : World) (r : Run (option Error)) :
  explode_iso P b w = (w', r) →
  (extracts P b w →
   let out := explode_iso_sh P (explode_iso_args P b) (fs w) in
   (∃ new, after w w' new
           ∧ ECommand "/explode_iso.sh" (explode_iso_args P b) ∈ new)
   ∧ fs w' = out.1
   ∧ r = Returns (ErrExec <$> out.2))
  ∧ (¬ extracts P b w →
     fs w' = fs w ∧ grows (λ e, is_ECommand e = false) w w').
Proof.
  intros Hrun. unfold explode_iso in Hrun.
  fold (isoPath P b) in Hrun.
  destruct (GoPath.HasSuffix _ _) eqn:Hname; cbn [negb] in Hrun.
  2:{ mrun Hrun. mdone Hrun. split; [intros (? & _); congruence|].
      intros _. split; [done|grows_tac]. }
  case_decide as Hiso.
  { mrun Hrun. mdone Hrun. split; [intros (_ & ? & _); congruence|].
    intros _. split; [done|grows_tac]. }
  mrun Hrun. fold (canaryPath P b) in Hrun.
  destruct (Stat (fs w) (canaryPath P b)) as [c|] eqn:Hcanary.
  { mrun Hrun. mdone Hrun. split; [intros (_ & _ & ? & _); congruence|].
    intros _. split; [done|grows_tac]. }
  mrun Hrun.
  destruct (IsNotExist (fs w) (isoPath P b)) eqn:Hmissing.
  { mrun Hrun. mdone Hrun. split; [intros (_ & _ & _ & ? & _); congruence|].
    intros _. split; [done|grows_tac]. }
  destruct (decide (OsInfo_IsoSha256 (BootEnv_OS b) ≠ "")) as [Hsha|Hsha].
  - mrun Hrun.
    destruct (Stat (fs w) (isoPath P b)) as [[data|]|] eqn:Hstaged.
    2,3: (mrun Hrun; mdone Hrun;
          split; [intros (_ & _ & _ & _ & Hn);
                  destruct (Hn Hsha) as (? & ? & _); congruence|];
          intros _; split; [done|grows_tac]).
    mrun Hrun. cbn [fs add_effect] in Hrun.
    destruct (decide (sha256_hex P data ≠ _)) as [Hbad|Hok].
    { mrun Hrun. mdone Hrun.
      split; [intros (_ & _ & _ & _ & Hn);
              destruct (Hn Hsha) as (? & ? & ?); congruence|].
      intros _. split; [done|grows_tac]. }
    apply dec_stable in Hok. mrun Hrun. cbn [fs add_effect] in Hrun.
    fold (explode_iso_args P b) in Hrun.
    destruct (explode_iso_sh P (explode_iso_args P b) (fs w)) as [fs' err].
    mrun Hrun. split.
    + intros _. cbn [fst snd].
      destruct err as [e|]; mrun Hrun; mdone Hrun; split_and!; try done;
        unfold after; cbn [effects add_effect set_fs];
        first [ eexists [_]; split; [reflexivity|set_solver]
              | eexists [_; _]; split; [reflexivity|set_solver]
              | eexists [_; _; _]; split; [reflexivity|set_solver] ].
    + intros []. split_and!; [done..|]. intros _. by exists data.
  - mrun Hrun. cbn [fs add_effect] in Hrun.
    fold (explode_iso_args P b) in Hrun.
    destruct (explode_iso_sh P (explode_iso_args P b) (fs w)) as [fs' err].
    mrun Hrun. split.
    + intros _. cbn [fst snd].
      destruct err as [e|]; mrun Hrun; mdone Hrun; split_and!; try done;
        unfold after; cbn [effects add_effect set_fs];
        first [ eexists [_]; split; [reflexivity|set_solver]
              | eexists [_; _]; split; [reflexivity|set_solver]
              | eexists [_; _; _]; split; [reflexivity|set_solver] ].
    + intros []. by split_and!.
Qed.

End Media.

(** ** Creation, and a change of name *)

Section Create.

Variable P : Platform.

Lemma explode_iso_prepare b w w' r :
  explode_iso P b w = (w', r) → grows prepare_effect w w'.
Proof.
  intros Hrun. unfold explode_iso in Hrun.
  destruct (GoPath.HasSuffix _ _); cbn [negb] in Hrun.
  2:{ mrun Hrun. mdone Hrun. grows_tac. }
  case_decide.
  { mrun Hrun. mdone Hrun. grows_tac. }
  mrun Hrun. destruct (Stat (fs w) _).
  { mrun Hrun. mdone Hrun. grows_tac. }
  mrun Hrun. destruct (IsNotExist (fs w) _).
  { mrun Hrun. mdone Hrun. grows_tac. }
  case_decide.
  - mrun Hrun. destruct (Stat (fs w) _) as [[data|]|].
    + mrun Hrun. case_decide; mrun Hrun; [mdone Hrun; grows_tac|].
      cbn [fs add_effect] in Hrun.
      destruct (explode_iso_sh P _ (fs w)) as [fs' [e|]]; mrun Hrun;
        mdone Hrun; grows_tac.
    + mrun Hrun. mdone Hrun. grows_tac.
    + mrun Hrun. mdone Hrun. grows_tac.
  - mrun Hrun. cbn [fs add_effect] in Hrun.
    destruct (explode_iso_sh P _ (fs w)) as [fs' [e|]]; mrun Hrun;
      mdone Hrun; grows_tac.
Qed.

Lemma prepare_media_prepare b w w' r :
  prepare_media P b w = (w', r) → grows prepare_effect w w'.
Proof.
  unfold prepare_media. case_decide; intros Hrun.
  - mrun Hrun. apply explode_iso_prepare in Hrun.
    eapply grows_step in Hrun; done.
  - mdone Hrun. apply grows_refl.
Qed.

Lemma get_file_prepare b f w w' r :
  get_file P b f w = (w', r) → grows prepare_effect w w'.
Proof.
  intros Hrun. apply get_file_spec in Hrun as (_ & Hg & _).
  eapply grows_weaken; [|exact Hg]. by intros [].
Qed.

Lemma fetch_files_prepare b files w w' r :
  fetch_files P b files w = (w', r) → grows prepare_effect w w'.
Proof.
  revert w. induction files as [|f files IH]; intros w Hrun.
  { cbn [fetch_files] in Hrun. mdone Hrun. apply grows_refl. }
  cbn [fetch_files] in Hrun.
  erewrite bind_Returns in Hrun by apply validate_file_run.
  set (w0 := add_effect w _) in *.
  assert (grows prepare_effect w w0) as Hg0 by (subst w0; grows_tac).
  assert (∀ w1, grows prepare_effect w w1 →
            (validate_file P b f
             ≫= λ err, match err with
                       | Some e => mret (Some e)
                       | None => fetch_files P b files
                       end) w1 = (w', r) →
            grows prepare_effect w w') as Hrest.
  { intros w1 Hg1 Hrun1.
    erewrite bind_Returns in Hrun1 by apply validate_file_run.
    destruct (IsNotExist (fs w1) _).
    - mdone Hrun1. eapply grows_trans; [exact Hg1|]. grows_tac.
    - apply IH in Hrun1. eapply grows_trans; [exact Hg1|].
      eapply grows_step in Hrun1; done. }
  destruct (IsNotExist (fs w) _); cbv beta iota in Hrun.
  - rewrite bind_run in Hrun.
    destruct (get_file P b f w0) as [w1 r1] eqn:Hget.
    apply get_file_prepare in Hget.
    assert (grows prepare_effect w w1) as Hg1 by (by eapply grows_trans).
    destruct r1 as [[e|]|]; [mdone Hrun; done| |by simplify_eq].
    by apply (Hrest w1).
  - rewrite ret_bind in Hrun. by apply (Hrest w0).
Qed.

(** X6: [onChange] renders nothing unless it is given an old boot
    environment of the same name. Without one (a creation) and with one of
    another name (a change of name), all it does is prepare the media: log,
    check and extract the ISO, make directories and files for the downloads
    and download; a change of name is never accepted. *)
Theorem onChange_create (b : BootEnv) (oldThing : option BootEnv)
    (w w' : World) (r : Run (BootEnv * option Error)) :
  (∀ old, oldThing = Some old → BootEnv_Name old ≠ BootEnv_Name b) →
  onChange P b oldThing w = (w', r) →
  grows prepare_effect w w'
  ∧ (is_Some oldThing → ∀ b', r ≠ Returns (b', None)).
Proof.
  intros Hold Hrun. unfold onChange in Hrun.
  destruct (check_structure b).
  { mdone Hrun. split; [apply grows_refl|]. by intros _ b'. }
  rewrite bind_run in Hrun. fold (prepare_media P b) in Hrun.
  destruct (prepare_media P b w) as [w1 r1] eqn:Hmedia.
  apply prepare_media_prepare in Hmedia.
  destruct r1 as [[e|]|]; [mdone Hrun; by split| |by simplify_eq].
  rewrite bind_run in Hrun.
  destruct (fetch_files P b _ w1) as [w2 r2] eqn:Hfetch.
  apply fetch_files_prepare in Hfetch.
  assert (grows prepare_effect w w2) as Hg by by eapply grows_trans.
  destruct r2 as [[e|]|]; [mdone Hrun; by split| |by simplify_eq].
  destruct (parseTemplates_spec P b w2) as (b1 & e1 & Hparse & Hname & _).
  erewrite bind_Returns in Hrun by exact Hparse.
  destruct e1 as [e1|]; [mdone Hrun; by split|].
  destruct (check_kernel_run P b1 w2) as [rk Hk].
  erewrite bind_Returns in Hrun by exact Hk.
  destruct rk as [e|]; [mdone Hrun; by split|].
  destruct (check_initrds_run P b1 (BootEnv_Initrds b1) w2) as [ri Hi].
  erewrite bind_Returns in Hrun by exact Hi.
  destruct ri as [e|]; [mdone Hrun; by split|].
  destruct oldThing as [old|].
  - rewrite decide_True in Hrun by (rewrite Hname; by apply Hold).
    mdone Hrun. by split.
  - mdone Hrun. split; [done|]. by intros [? ?].
Qed.

End Create.

(** ** Removal of the rendered files *)

Section Delete.

Variable P : Platform.

Lemma Remove_subset (fs fs' : FS) p q n :
  Remove fs p = Some fs' → fs' !! q = Some n → fs !! q = Some n.
Proof.
  unfold Remove. intros Hrm Hq.
  assert (fs' = delete p fs) as ->.
  { destruct (fs !! p) as [[]|]; [by simplify_eq| |done].
    destruct (has_children fs p); by simplify_eq. }
  by apply lookup_delete_Some in Hq as [_ ?].
Qed.

Lemma Remove_not_file (fs : FS) p :
  match Remove fs p with
  | Some fs' => fs' !! p = None
  | None => ¬ is_file (fs !! p)
  end.
Proof.
  unfold Remove. destruct (fs !! p) as [[]|] eqn:Hp; simpl.
  - apply lookup_delete_eq.
  - destruct (has_children fs p); [by intros ?|apply lookup_delete_eq].
  - by intros ?.
Qed.

Lemma DeleteRenderedTemplates_loop_spec ts w :
  ∃ w', DeleteRenderedTemplates_loop ts w = (w', Returns ())
        ∧ (∀ q n, fs w' !! q = Some n → fs w !! q = Some n)
        ∧ (∀ q, (q = "" ∨ q ∉ finalPath <$> ts) → fs w' !! q = fs w !! q)
        ∧ (∀ t, t ∈ ts → finalPath t ≠ "" → ¬ is_file (fs w' !! finalPath t))
        ∧ grows (removal_effect ts) w w'.
Proof.
  revert w. induction ts as [|t ts IH]; intros w.
  { exists w. split_and!; [done..| |apply grows_refl].
    intros t Ht. by apply elem_of_nil in Ht. }
  cbn [DeleteRenderedTemplates_loop].
  assert (∀ w1, grows (removal_effect (t :: ts)) w w1 →
            (∀ q n, fs w1 !! q = Some n → fs w !! q = Some n) →
            (∀ q, (q = "" ∨ q ∉ finalPath <$> t :: ts) →
                  fs w1 !! q = fs w !! q) →
            (finalPath t ≠ "" → ¬ is_file (fs w1 !! finalPath t)) →
            ∃ w', DeleteRenderedTemplates_loop ts w1 = (w', Returns ())
              ∧ (∀ q n, fs w' !! q = Some n → fs w !! q = Some n)
              ∧ (∀ q, (q = "" ∨ q ∉ finalPath <$> t :: ts) →
                      fs w' !! q = fs w !! q)
              ∧ (∀ t0, t0 ∈ t :: ts → finalPath t0 ≠ "" →
                       ¬ is_file (fs w' !! finalPath t0))
              ∧ grows (removal_effect (t :: ts)) w w') as Hrest.
  { intros w1 Hg1 Hsub1 Hsame1 Hgone1.
    destruct (IH w1) as (w' & Hrun & Hsub & Hsame & Hgone & Hg).
    exists w'. split_and!; [done|..].
    - intros q n Hq. by apply Hsub1, Hsub.
    - intros q Hq. rewrite Hsame, Hsame1; [done..|].
      destruct Hq as [?|Hq]; [by left|right].
      rewrite ?fmap_cons, not_elem_of_cons in Hq. by destruct Hq.
    - intros t0 Ht0 Hne. apply elem_of_cons in Ht0 as [->|Ht0]; [|by apply Hgone].
      intros Hfile. apply (Hgone1 Hne).
      destruct (fs w' !! finalPath t) as [n|] eqn:Hn; [|done].
      by rewrite (Hsub _ _ Hn).
    - eapply grows_trans; [exact Hg1|]. eapply grows_weaken; [|exact Hg].
      intros [] He; simpl in *; try done. destruct He as [? ?].
      split; [done|]. rewrite ?fmap_cons. by apply elem_of_cons; right. }
  case_decide as Hfinal.
  - rewrite !bind_assoc. rewrite bind_run, os_Remove_run.
    pose proof (Remove_not_file (fs w) (finalPath t)) as Hnf.
    destruct (Remove (fs w) (finalPath t)) as [fs'|] eqn:Hrm.
    + rewrite ret_bind. apply Hrest.
      * apply grows_set_fs, grows_add; [|apply grows_refl]. split; [done|].
        rewrite ?fmap_cons. apply elem_of_cons. by left.
      * intros q n. cbn [fs set_fs add_effect]. by eapply Remove_subset.
      * intros q Hq. cbn [fs set_fs add_effect].
        eapply Remove_lookup; [exact Hrm|]. intros <-.
        destruct Hq as [?|Hq]; [done|]. apply Hq. rewrite ?fmap_cons.
        apply elem_of_cons. by left.
      * intros _. cbn [fs set_fs add_effect]. rewrite Hnf. by intros ?.
    + rewrite ret_bind. apply Hrest; [|done..].
      apply grows_add; [|apply grows_refl]. split; [done|].
      rewrite ?fmap_cons. apply elem_of_cons. by left.
  - rewrite ret_bind. apply Hrest; [apply grows_refl|done..].
Qed.

Lemma RenderPaths_loop_effects b m done todo w w' r :
  RenderPaths_loop P b m done todo w = (w', r) →
  fs w' = fs w ∧ grows (λ e, is_EExecute e = true) w w'.
Proof.
  revert done w. induction todo as [|t todo IH]; intros done w Hrun.
  { cbn [RenderPaths_loop] in Hrun. mdone Hrun. split; [done|apply grows_refl]. }
  cbn [RenderPaths_loop] in Hrun. destruct (pathTmpl t) as [src|].
  2:{ unfold abort in Hrun. simplify_eq. split; [done|apply grows_refl]. }
  mrun Hrun. destruct (tmpl_execute P src _) as [pathBuf [err|]].
  - mdone Hrun. split; [done|grows_tac].
  - apply IH in Hrun as [Hfs Hg]. split; [done|].
    eapply grows_step in Hg; done.
Qed.

Lemma RenderPaths_effects b m w w' r :
  RenderPaths P b m w = (w', r) →
  fs w' = fs w ∧ grows (λ e, is_EExecute e = true) w w'.
Proof.
  unfold RenderPaths. rewrite bind_run.
  destruct (RenderPaths_loop P b m [] _ w) as [w1 r1] eqn:Hloop.
  apply RenderPaths_loop_effects in Hloop.
  destruct r1 as [[ts e]|]; intros Hrun; by mdone Hrun.
Qed.

(** X7: [DeleteRenderedTemplates] evaluates path templates and removes
    files, and nothing else. When it returns, every file that is left was
    there before with the same contents, every path that is not the final
    path of a template is as it was, no template with a final path has a
    regular file there, and the boot environment differs from the given
    one only in its unexported fields. *)
Theorem DeleteRenderedTemplates_spec (b : BootEnv) (m : Machine)
    (w w' : World) (b' : BootEnv) :
  DeleteRenderedTemplates P b m w = (w', Returns b') →
  exported b' = exported b
  ∧ (∀ q n, fs w' !! q = Some n → fs w !! q = Some n)
  ∧ (∀ q, q ∉ finalPath <$> BootEnv_Templates b' → fs w' !! q = fs w !! q)
  ∧ (∀ t, t ∈ BootEnv_Templates b' → finalPath t ≠ "" →
          ¬ is_file (fs w' !! finalPath t))
  ∧ grows (removal_effect (BootEnv_Templates b')) w w'.
Proof.
  unfold DeleteRenderedTemplates. intros Hrun.
  destruct (parseTemplates_spec P b w) as (b1 & e1 & Hparse & _).
  erewrite bind_Returns in Hrun by exact Hparse.
  apply parseTemplates_exported in Hparse. cbv beta iota in Hrun.
  rewrite bind_run in Hrun.
  destruct (RenderPaths P b1 m w) as [w1 [[b2 e2]|]] eqn:Hpaths; [|done].
  apply RenderPaths_exported in Hpaths as Hx2.
  apply RenderPaths_effects in Hpaths as [Hfs Hg1].
  destruct (DeleteRenderedTemplates_loop_spec (BootEnv_Templates b2) w1)
    as (w2 & Hloop & Hsub & Hsame & Hgone & Hg).
  erewrite bind_Returns in Hrun by exact Hloop.
  unfold mret, M_ret in Hrun. injection Hrun as <- <-.
  split_and!.
  - congruence.
  - intros q n Hq. rewrite <- Hfs. by apply Hsub.
  - intros q Hq. rewrite <- Hfs. apply Hsame. by right.
  - done.
  - eapply grows_trans; [|exact Hg]. eapply grows_weaken; [|exact Hg1].
    by intros [].
Qed.

End Delete.

(** ** The auxiliary files *)

Section Files.

Variable P : Platform.

Lemma Create_parent (fs fs' : FS) p :
  Create fs p = Some fs' →
  p ≠ GoPath.Dir p ∧ Stat fs (GoPath.Dir p) = Some Directory.
Proof.
  unfold Create. intros Hc.
  destruct (Stat fs p) as [[]|] eqn:Hp;
    destruct (Stat fs (GoPath.Dir p)) as [[]|] eqn:Hd; simplify_eq;
    (split; [intros Heq; congruence|done]).
Qed.

Lemma Stat_insert_ne (fs : FS) p q n :
  p ≠ q → Stat (<[p := n]> fs) q = Stat fs q.
Proof. intros Hne. unfold Stat. by rewrite lookup_insert_ne. Qed.

Lemma Stat_insert_eq (fs : FS) p n : is_Some (Stat (<[p := n]> fs) p).
Proof. unfold Stat. repeat case_decide; [done..|]. by rewrite lookup_insert_eq. Qed.

(** X8: when [get_file] returns no error, the download gave a body without
    error, the file at the disk path of the entry holds exactly that body,
    in a directory, and the entry passes [validate_file]. *)
Theorem get_file_success (b : BootEnv) (f : FileData) (w w' : World) :
  get_file P b f w = (w', Returns None) →
  let p := diskPath P b (FileData_Name f) in
  ∃ body, http_get P (FileData_URL f) = inr (body, None)
          ∧ fs w' !! p = Some (File body)
          ∧ Stat (fs w') (GoPath.Dir p) = Some Directory
          ∧ (validate_file P b f w').2 = Returns None.
Proof.
  rewrite get_file_run. cbv zeta. set (p := diskPath _ _ _).
  destruct (MkdirAll (fs w) (GoPath.Dir p)) as [fs1 []];
    cbn [negb fst snd fs set_fs add_effect]; [|done].
  destruct (Create fs1 p) as [fs2|] eqn:Hcreate; [|done].
  pose proof (Create_parent _ _ _ Hcreate) as [Hne Hdir].
  apply Create_Some in Hcreate as ->.
  destruct (http_get P _) as [err|[body [err|]]]; [done..|].
  intros [= <-]. cbn [fs set_fs add_effect]. rewrite Write_created.
  exists body. split_and!; [done|by rewrite lookup_insert_eq|..].
  - by rewrite Stat_insert_ne.
  - rewrite validate_file_run. cbn [snd fs set_fs add_effect]. fold p.
    destruct (Stat_insert_eq fs1 p (File body)) as [n Hn].
    by rewrite (IsNotExist_Some _ _ _ Hn).
Qed.

Lemma fetch_files_from w0 b all files w w' r :
  keeps w0 w → (∀ g, g ∈ files → g ∈ all) →
  fetch_files P b files w = (w', r) →
  keeps w0 w' ∧ grows (missing_download P b all w0) w w'.
Proof.
  revert w. induction files as [|f files IH]; intros w Hk Hsub Hrun.
  { cbn [fetch_files] in Hrun. mdone Hrun. split; [done|apply grows_refl]. }
  cbn [fetch_files] in Hrun.
  erewrite bind_Returns in Hrun by apply validate_file_run.
  set (w1 := add_effect w _) in *.
  assert (∀ w2, keeps w0 w2 → grows (missing_download P b all w0) w w2 →
            (validate_file P b f
             ≫= λ err, match err with
                       | Some e => mret (Some e)
                       | None => fetch_files P b files
                       end) w2 = (w', r) →
            keeps w0 w' ∧ grows (missing_download P b all w0) w w') as Hrest.
  { intros w2 Hk2 Hg2 Hrun2.
    erewrite bind_Returns in Hrun2 by apply validate_file_run.
    destruct (IsNotExist (fs w2) (diskPath P b (FileData_Name f))).
    - mdone Hrun2. split; [by eapply keeps_trans; [|by apply keeps_same]|].
      eapply grows_trans; [exact Hg2|]. grows_tac.
    - apply IH in Hrun2 as [Hk' Hg'].
      + split; [done|]. eapply grows_trans; [exact Hg2|].
        eapply (grows_step _ _ _ (EPrintf _)); done.
      + by eapply keeps_trans; [|by apply keeps_same].
      + intros g Hg. apply Hsub. by right. }
  destruct (IsNotExist (fs w) (diskPath P b (FileData_Name f))) eqn:Hst;
    cbv beta iota in Hrun.
  - rewrite bind_run in Hrun.
    destruct (get_file P b f w1) as [w2 r2] eqn:Hget.
    assert (keeps w0 w2 ∧ grows (missing_download P b all w0) w w2)
      as [Hk2 Hg2].
    { split.
      - apply get_file_keeps in Hget. eapply keeps_trans; [exact Hk|].
        by eapply keeps_trans; [apply keeps_same|].
      - apply get_file_spec in Hget as (_ & Hg & _).
        eapply (grows_step _ _ _ (EPrintf _)); [done|].
        eapply grows_weaken; [|exact Hg].
        intros [] He; simpl in *; try done. exists f.
        split_and!; [apply Hsub; by left|done|].
        apply IsNotExist_true in Hst.
        destruct (Stat (fs w0) _) eqn:Hst0; [|done].
        destruct (Stat_keeps w0 w (diskPath P b (FileData_Name f)) Hk)
          as [n' Hn]; [by rewrite Hst0|].
        congruence. }
    destruct r2 as [[e|]|]; [by mdone Hrun| |by simplify_eq].
    by apply (Hrest w2).
  - rewrite ret_bind in Hrun. apply (Hrest w1); [|grows_tac|done].
    by eapply keeps_trans; [|by apply keeps_same].
Qed.

Lemma fetch_files_present b files w :
  Forall (present P b w) files →
  ∃ w', fetch_files P b files w = (w', Returns None) ∧ fs w' = fs w.
Proof.
  revert w. induction files as [|f files IH]; intros w Hall.
  { by exists w. }
  apply Forall_cons in Hall as [[n Hn%IsNotExist_Some] Hall].
  cbn [fetch_files].
  erewrite bind_Returns by apply validate_file_run. rewrite Hn, ret_bind.
  erewrite bind_Returns by apply validate_file_run.
  cbn [fs add_effect]. rewrite Hn.
  destruct (IH (add_effect
                  (add_effect w (EPrintf ("Validating file: "
                                          +:+ FileData_Name f +:+ nl)))
                  (EPrintf ("Validating file: " +:+ FileData_Name f +:+ nl))))
    as (w' & Hrun & Hfs); [done|].
  by exists w'.
Qed.

(** X9: the loop of [onChange] over the auxiliary files removes nothing,
    and downloads only entries whose disk path was missing when it
    started; when every entry is in place it returns no error and leaves
    the files as they are, whatever they hold. *)
Theorem fetch_files_missing (b : BootEnv) (files : list FileData)
    (w w' : World) (r : Run (option Error)) :
  fetch_files P b files w = (w', r) →
  keeps w w'
  ∧ grows (missing_download P b files w) w w'
  ∧ (Forall (present P b w) files → r = Returns None ∧ fs w' = fs w).
Proof.
  intros Hrun.
  destruct (fetch_files_from w b files files w w' r) as [Hk Hg];
    [apply keeps_refl|done..|].
  split_and!; [done..|]. intros Hall.
  destruct (fetch_files_present b files w Hall) as (w2 & Hrun2 & Hfs).
  rewrite Hrun in Hrun2. by simplify_eq.
Qed.

End Files.

(** ** The machines of an update *)

Section Cascade.

Variable P : Platform.

(** X10: the loop of an update over the machines is the loop over the
    machines that use the boot environment, in the order of the listing: no
    other machine is rendered, and with no such machine nothing happens. *)
Theorem cascade_bound (b : BootEnv) (oldName : string) (ms : list Machine)
    (w : World) :
  cascade P b oldName ms w = cascade P b oldName (filter (bound oldName) ms) w
  ∧ (Forall (λ m, ¬ bound oldName m) ms →
     cascade P b oldName ms w = (w, Returns (b, None))).
Proof.
  split.
  - revert b w. induction ms as [|m ms IH]; intros b w; [done|].
    destruct (decide (Machine_BootEnv m = oldName)) as [Hm|Hm].
    + rewrite filter_cons_True by done. cbn [cascade].
      repeat rewrite decide_False by (by intros ?). rewrite !bind_run.
      destruct (RenderTemplates P b m w) as [w1 [[b1 [e|]]|]]; [done| |done].
      apply IH.
    + rewrite filter_cons_False by done. cbn [cascade].
      rewrite decide_True by done. apply IH.
  - revert w. induction ms as [|m ms IH]; intros w Hall; [done|].
    apply Forall_cons in Hall as [Hm Hall]. cbn [cascade].
    rewrite decide_True by done. by apply IH.
Qed.

End Cascade.

(** ** The helpers of the templates *)

Section Helpers.

Variable P : Platform.

(** X11: the required parameters that [RenderTemplates] checks are the
    ones [Param] answers: none is missing exactly when [Param] gives a
    value for every required name. *)
Theorem Param_required (b : BootEnv) (m : Machine) :
  missingParams b m = []
  ↔ ∀ key, key ∈ BootEnv_RequiredParams b →
           ∃ res, Param (mkRenderData P b m) key = inr res.
Proof.
  unfold missingParams, Param. cbn [RenderData_Machine mkRenderData].
  induction (BootEnv_RequiredParams b) as [|param params IH].
  { split; [|done]. intros _ key Hkey. by apply elem_of_nil in Hkey. }
  destruct (Machine_Params m !! param) as [res|] eqn:Hparam.
  - rewrite filter_cons_False by (rewrite Hparam; done). rewrite IH. split.
    + intros Hall key [->|Hkey]%elem_of_cons; [|by apply Hall].
      exists res. by rewrite Hparam.
    + intros Hall key Hkey. apply Hall. by right.
  - rewrite filter_cons_True by done. split; [done|]. intros Hall.
    destruct (Hall param) as [res Hres]; [by left|]. by rewrite Hparam in Hres.
Qed.

(** X12: after [parseTemplates] has passed, the [BootParams] helper
    evaluates the boot parameters of the environment when they are not
    empty, and gives the empty string without its output when that fails.
    With empty boot parameters it uses whatever template the environment
    held before. *)
Theorem BootParams_parsed (b b' : BootEnv) (m : Machine) (w w' : World) :
  parseTemplates P b w = (w', Returns (b', None)) →
  BootParams P (mkRenderData P b' m)
  = if decide (BootEnv_BootParams b ≠ "") then
      match tmpl_execute P (BootEnv_BootParams b) (mkRenderData P b' m) with
      | (_, Some err) => ("", Some err)
      | (res, None) => (res, None)
      end
    else
      match bootParamsTmpl b with
      | None => ("", None)
      | Some src =>
          match tmpl_execute P src (mkRenderData P b' m) with
          | (_, Some err) => ("", Some err)
          | (res, None) => (res, None)
          end
      end.
Proof.
  unfold parseTemplates, BootParams. cbn [RenderData_Env mkRenderData].
  destruct (parseTemplates_loop P _ _) as [ts [e|]]; [done|].
  cbn [BootEnv_BootParams set_Templates].
  case_decide as Hbp.
  - destruct (tmpl_parse P _); [done|]. by intros [= <- <-].
  - by intros [= <- <-].
Qed.

End Helpers.

(** ** Names and places *)

Section Places.

Import GoPath GoPathFacts.

Variable P : Platform.

Lemma Clean_trailing_slash l :
  l ≠ [] → Forall plain l → Clean (join_slash l +:+ "/") = join_slash l.
Proof.
  intros Hne Hl. destruct l as [|x l]; [done|].
  inversion Hl as [|? ? Hx Hl']; subst.
  unfold Clean. case_decide as H0.
  { destruct (join_slash (x :: l)) eqn:Hj; [|done].
    by apply join_slash_plain_nonempty in Hj. }
  assert (is_rooted (join_slash (x :: l) +:+ "/") = false) as ->.
  { rewrite is_rooted_app by by apply join_slash_plain_nonempty.
    destruct l as [|y l]; [by apply plain_not_rooted|].
    rewrite join_slash_cons, is_rooted_app by apply Hx.
    by apply plain_not_rooted. }
  change (join_slash (x :: l) +:+ "/") with (join_slash (x :: l) +:+ "/" +:+ "").
  rewrite split_slash_app.
  rewrite split_join by (done || by apply Forall_plain_no_slash).
  rewrite fold_left_app. rewrite (fold_clean_plain _ (x :: l)) by exact Hl.
  simpl fold_left.
  assert (∀ out, clean_elem false out "" = out) as Hskip by done.
  rewrite !Hskip, app_nil_r.
  change (rev l ++ [x]) with (rev (x :: l)). rewrite rev_involutive.
  case_decide as Hb; [|done].
  by apply join_slash_plain_nonempty in Hb.
Qed.

(** X13: for an OS whose name is a real path element other than
    [discovery], [InstallUrl] is the URL that [PathFor] gives for the
    install directory itself. For [discovery] the two differ: [PathFor]
    leaves out the [install] element and [InstallUrl] does not. *)
Theorem InstallUrl_PathFor (b : BootEnv) (w : World) :
  plain (OsInfo_Name (BootEnv_OS b)) →
  (OsInfo_Name (BootEnv_OS b) ≠ "discovery" →
   PathFor P b "http" "" w = (w, Returns (InstallUrl P (BootEnv_OS b))))
  ∧ (OsInfo_Name (BootEnv_OS b) = "discovery" →
     PathFor P b "http" "" w
     = (w, Returns (provisionerURL P +:+ "/" +:+ "discovery"))
     ∧ InstallUrl P (BootEnv_OS b)
       = provisionerURL P +:+ "/" +:+ "discovery/install").
Proof.
  intros Hn. split.
  - intros Hnd. unfold PathFor, InstallUrl.
    rewrite decide_False, decide_False, decide_True by done.
    unfold mret, M_ret. do 3 f_equal.
    rewrite installSegment_plain by done.
    set (n := OsInfo_Name (BootEnv_OS b)) in *.
    assert (Forall plain [n; "install"]) as Hl.
    { apply Forall_cons; split; [done|].
      apply Forall_cons; split; [apply plain_install|by apply Forall_nil]. }
    rewrite Join_nonempty by (by destruct n).
    rewrite Join_nonempty by apply Hn.
    rewrite (Clean_plain_relative [n; "install"]) by done.
    change (join_slash [n +:+ "/install"; ""])
      with (join_slash [n; "install"] +:+ "/").
    by rewrite Clean_trailing_slash.
  - intros Hd. unfold PathFor, InstallUrl, installSegment. rewrite Hd.
    split; reflexivity.
Qed.

(** X14: the key of a boot environment whose name is a real path element
    is [bootenvs/] followed by the name, so that two such environments
    with the same key have the same name. *)
Theorem BootEnv_key_plain (b b' : BootEnv) :
  plain (BootEnv_Name b) →
  BootEnv_key b = "bootenvs/" +:+ BootEnv_Name b
  ∧ (plain (BootEnv_Name b') → BootEnv_key b = BootEnv_key b' →
     BootEnv_Name b = BootEnv_Name b').
Proof.
  assert (∀ x, plain (BootEnv_Name x) →
               BootEnv_key x = "bootenvs/" +:+ BootEnv_Name x) as Hkey.
  { intros x Hx. unfold BootEnv_key, BootEnv_prefix.
    rewrite Join_nonempty by done.
    apply (Clean_plain_relative ["bootenvs"; BootEnv_Name x]); [done|].
    apply Forall_cons; split; [by repeat split|].
    apply Forall_cons; split; [done|by apply Forall_nil]. }
  intros Hb. split; [by apply Hkey|]. intros Hb' Heq.
  rewrite !Hkey in Heq by done. by simplify_eq.
Qed.

(** X15: [JoinInitrds] changes nothing and gives the paths that [PathFor]
    gives for the initrds, in their order, joined by single spaces; this
    for the three protocols, and for any protocol when there is no initrd.
    With an initrd and another protocol it ends the process. *)
Theorem JoinInitrds_spec (b : BootEnv) (proto : string) (w : World) :
  (proto ∈ ["disk"; "tftp"; "http"] ∨ BootEnv_Initrds b = [] →
   ∃ paths,
     JoinInitrds P b proto w = (w, Returns (String.concat " " paths))
     ∧ Forall2 (λ initrd full, PathFor P b proto initrd w = (w, Returns full))
         (BootEnv_Initrds b) paths)
  ∧ (proto ∉ ["disk"; "tftp"; "http"] → BootEnv_Initrds b ≠ [] →
     JoinInitrds P b proto w
     = (add_effect w (EFatalf ("Unknown protocol " +:+ proto)), Aborts)).
Proof.
  unfold JoinInitrds. split.
  - intros Hok.
    assert (∃ paths,
              JoinInitrds_loop P b proto (BootEnv_Initrds b) w
              = (w, Returns paths)
              ∧ Forall2 (λ initrd full,
                           PathFor P b proto initrd w = (w, Returns full))
                  (BootEnv_Initrds b) paths) as (paths & Hloop & Hall).
    { induction (BootEnv_Initrds b) as [|initrd rest IH].
      { exists []. by split. }
      destruct Hok as [Hproto|?]; [|done].
      destruct IH as (paths & Hloop & Hall); [by left|].
      assert (∃ full, PathFor P b proto initrd w = (w, Returns full))
        as [full Hfull].
      { unfold PathFor. repeat case_decide; try by eexists.
        repeat (apply elem_of_cons in Hproto as [?|Hproto]; [done|]).
        by apply elem_of_nil in Hproto. }
      exists (full :: paths). split; [|by constructor].
      cbn [JoinInitrds_loop]. erewrite bind_Returns by exact Hfull.
      by erewrite bind_Returns by exact Hloop. }
    exists paths. split; [|done]. by erewrite bind_Returns by exact Hloop.
  - intros Hproto Hne. destruct (BootEnv_Initrds b) as [|initrd rest]; [done|].
    cbn [JoinInitrds_loop]. rewrite !bind_run.
    rewrite PathFor_unknown; [done|set_solver..].
Qed.

End Places.

(** ** The default OS *)

Section Rebar.

Local Open Scope Z_scope.

Lemma preferred_oses_range name n :
  preferred_oses !! name = Some n → 0 ≤ n ≤ 8.
Proof.
  unfold preferred_oses. intros Hn. apply elem_of_list_to_map_2 in Hn.
  repeat (apply elem_of_cons in Hn as [[= _ ->]|Hn]; [lia|]).
  by apply elem_of_nil in Hn.
Qed.

Lemma os_pref_range name : 0 ≤ os_pref name < 1000.
Proof.
  unfold os_pref. destruct (preferred_oses !! name) as [n|] eqn:Hn; [|lia].
  apply preferred_oses_range in Hn. lia.
Qed.

Lemma RebuildRebarData_loop_cons be rest acc :
  RebuildRebarData_loop (be :: rest) acc
  = if negb (GoPath.HasSuffix (BootEnv_Name be) "-install")
    then RebuildRebarData_loop rest acc
    else
      RebuildRebarData_loop rest
        {| attrValOSes :=
             <[OsInfo_Name (BootEnv_OS be) := true]> (attrValOSes acc);
           attrValOS :=
             if os_pref (OsInfo_Name (BootEnv_OS be)) <? attrPref acc
             then OsInfo_Name (BootEnv_OS be) else attrValOS acc;
           attrPref :=
             if os_pref (OsInfo_Name (BootEnv_OS be)) <? attrPref acc
             then os_pref (OsInfo_Name (BootEnv_OS be)) else attrPref acc |}.
Proof.
  cbn [RebuildRebarData_loop]. fold (os_pref (OsInfo_Name (BootEnv_OS be))).
  destruct (negb _); [done|]. by destruct (_ <? _).
Qed.

Lemma RebuildRebarData_loop_choice bes acc :
  let r := RebuildRebarData_loop bes acc in
  (attrValOS r = attrValOS acc ∧ attrPref r = attrPref acc
   ∧ Forall (λ x, is_install x →
                  attrPref acc ≤ os_pref (OsInfo_Name (BootEnv_OS x))) bes)
  ∨ ∃ pre be post,
      bes = pre ++ be :: post ∧ is_install be
      ∧ attrValOS r = OsInfo_Name (BootEnv_OS be)
      ∧ attrPref r = os_pref (OsInfo_Name (BootEnv_OS be))
      ∧ os_pref (OsInfo_Name (BootEnv_OS be)) < attrPref acc
      ∧ Forall (λ x, is_install x →
                     os_pref (OsInfo_Name (BootEnv_OS be))
                     < os_pref (OsInfo_Name (BootEnv_OS x))) pre
      ∧ Forall (λ x, is_install x →
                     os_pref (OsInfo_Name (BootEnv_OS be))
                     ≤ os_pref (OsInfo_Name (BootEnv_OS x))) post.
Proof.
  revert acc. induction bes as [|x bes IH]; intros acc; cbv zeta.
  { left. by split_and!. }
  rewrite RebuildRebarData_loop_cons. unfold is_install in *.
  destruct (GoPath.HasSuffix (BootEnv_Name x) "-install") eqn:Hx;
    cbn [negb].
  2:{ destruct (IH acc) as [(Hos & Hpref & Hall)|
                            (pre & be & post & -> & Hbe & Hos & Hpref & Hlt
                             & Hpre & Hpost)].
      - left. split_and!; [done..|]. constructor; [|done]. congruence.
      - right. exists (x :: pre), be, post. split_and!; [done..| |done].
        constructor; [|done]. congruence. }
  set (n := os_pref (OsInfo_Name (BootEnv_OS x))) in *.
  destruct (Z.ltb_spec n (attrPref acc)) as [Hlt|Hge].
  - destruct (IH {| attrValOSes :=
                      <[OsInfo_Name (BootEnv_OS x) := true]> (attrValOSes acc);
                    attrValOS := OsInfo_Name (BootEnv_OS x);
                    attrPref := n |})
      as [(Hos & Hpref & Hall)|
          (pre & be & post & -> & Hbe & Hos & Hpref & Hlt' & Hpre & Hpost)];
      cbn [attrValOS attrPref] in *.
    + right. exists [], x, bes. by split_and!.
    + right. exists (x :: pre), be, post. split_and!; [done..|lia| |done].
      constructor; [|done]. intros _. fold n. lia.
  - destruct (IH {| attrValOSes :=
                      <[OsInfo_Name (BootEnv_OS x) := true]> (attrValOSes acc);
                    attrValOS := attrValOS acc;
                    attrPref := attrPref acc |})
      as [(Hos & Hpref & Hall)|
          (pre & be & post & -> & Hbe & Hos & Hpref & Hlt' & Hpre & Hpost)];
      cbn [attrValOS attrPref] in *.
    + left. split_and!; [done..|]. constructor; [|done]. intros _. by fold n.
    + right. exists (x :: pre), be, post. split_and!; [done..| |done].
      constructor; [|done]. intros _. fold n. lia.
Qed.

Lemma RebuildRebarData_loop_oses bes acc name :
  let r := RebuildRebarData_loop bes acc in
  (∀ be, be ∈ bes → is_install be → OsInfo_Name (BootEnv_OS be) = name →
         attrValOSes r !! name = Some true)
  ∧ (Forall (λ be, is_install be → OsInfo_Name (BootEnv_OS be) ≠ name) bes →
     attrValOSes r !! name = attrValOSes acc !! name).
Proof.
  revert acc. induction bes as [|x bes IH]; intros acc; cbv zeta.
  { split; [|done]. intros be Hbe. by apply elem_of_nil in Hbe. }
  rewrite RebuildRebarData_loop_cons. unfold is_install in *.
  destruct (GoPath.HasSuffix (BootEnv_Name x) "-install") eqn:Hx;
    cbn [negb].
  2:{ destruct (IH acc) as [Hin Hout]. split.
      - intros be [->|Hbe]%elem_of_cons Hi Hn; [congruence|by eapply Hin].
      - intros [_ Hall]%Forall_cons. by apply Hout. }
  match goal with
  | |- context [RebuildRebarData_loop bes ?a] =>
      destruct (IH a) as [Hin Hout]; cbn [attrValOSes] in *
  end.
  split.
  - intros be [->|Hbe]%elem_of_cons Hi Hn; [|by eapply Hin].
    destruct (decide (Exists (λ y, GoPath.HasSuffix (BootEnv_Name y) "-install"
                                   = true
                                   ∧ OsInfo_Name (BootEnv_OS y) = name) bes))
      as [Hex|Hno].
    + apply Exists_exists in Hex as (y & Hy & Hyi & Hyn). by eapply Hin.
    + rewrite Hout, Hn; [by rewrite lookup_insert_eq|].
      apply Forall_forall. intros y Hy Hyi Hyn. apply Hno, Exists_exists.
      by exists y.
  - intros [Hxn Hall]%Forall_cons. rewrite Hout by done.
    rewrite lookup_insert_ne; [done|]. by apply Hxn.
Qed.

(** X16: the choice of [RebuildRebarData] among the boot environments.
    The available OSes are exactly the OS names of the environments whose
    name ends in [-install], each mapped to [true]. The default OS is
    [STRING] when there is no such environment; otherwise it is the OS of
    the first such environment of least preference number, where an OS that
    the table does not list counts as 999. *)
Theorem RebuildRebarData_choice (bes : list BootEnv) :
  let r := RebuildRebarData_loop bes OsChoice_init in
  (∀ name,
     (attrValOSes r !! name = Some true
      ↔ ∃ be, be ∈ bes ∧ is_install be ∧ OsInfo_Name (BootEnv_OS be) = name)
     ∧ attrValOSes r !! name ≠ Some false)
  ∧ (Forall (λ be, ¬ is_install be) bes → attrValOS r = "STRING")
  ∧ (Exists is_install bes →
     ∃ pre be post,
       bes = pre ++ be :: post ∧ is_install be
       ∧ attrValOS r = OsInfo_Name (BootEnv_OS be)
       ∧ Forall (λ x, is_install x →
                      os_pref (OsInfo_Name (BootEnv_OS be))
                      < os_pref (OsInfo_Name (BootEnv_OS x))) pre
       ∧ Forall (λ x, is_install x →
                      os_pref (OsInfo_Name (BootEnv_OS be))
                      ≤ os_pref (OsInfo_Name (BootEnv_OS x))) post).
Proof.
  cbv zeta. split_and!.
  - intros name.
    destruct (RebuildRebarData_loop_oses bes OsChoice_init name) as [Hin Hout].
    cbv zeta in *. cbn [attrValOSes OsChoice_init] in Hout.
    rewrite lookup_empty in Hout.
    destruct (decide (Exists (λ y, is_install y
                                   ∧ OsInfo_Name (BootEnv_OS y) = name) bes))
      as [Hex|Hno].
    + apply Exists_exists in Hex as (y & Hy & Hyi & Hyn).
      rewrite (Hin y) by done. split; [|done]. split; [|done].
      intros _. by exists y.
    + rewrite Hout.
      * split; [|done]. split; [done|]. intros (y & Hy & Hyi & Hyn).
        destruct Hno. apply Exists_exists. by exists y.
      * apply Forall_forall. intros y Hy Hyi Hyn. apply Hno, Exists_exists.
        by exists y.
  - intros Hnone.
    destruct (RebuildRebarData_loop_choice bes OsChoice_init)
      as [(Hos & _)|(pre & be & post & -> & Hbe & _)]; [done|].
    apply Forall_app in Hnone as [_ [Hno _]%Forall_cons]. done.
  - intros Hsome.
    destruct (RebuildRebarData_loop_choice bes OsChoice_init)
      as [(_ & _ & Hall)|(pre & be & post & -> & Hbe & Hos & _ & _ & Hpre
                          & Hpost)].
    + apply Exists_exists in Hsome as (y & Hy & Hyi).
      rewrite Forall_forall in Hall. specialize (Hall y Hy Hyi).
      cbn [attrPref OsChoice_init] in Hall.
      pose proof (os_pref_range (OsInfo_Name (BootEnv_OS y))). lia.
    + by exists pre, be, post.
Qed.

End Rebar.

(** ** Compiled templates are kept *)

Section Cached.

Variable P : Platform.

Lemma parseTemplates_loop_cached store ts ts1 :
  parseTemplates_loop P store ts = (ts1, None) →
  ∀ store2, parseTemplates_loop P store2 ts1 = (ts1, None).
Proof.
  revert ts1. induction ts as [|t ts IH]; intros ts1 Hloop store2.
  { cbn [parseTemplates_loop] in Hloop. by simplify_eq. }
  cbn [parseTemplates_loop] in Hloop.
  destruct (tmpl_parse P (TemplateInfo_Path t)) as [err|] eqn:Hpath; [done|].
  cbv zeta in Hloop. cbn [contents set_pathTmpl] in Hloop.
  destruct (contents t) as [c|] eqn:Hc.
  - destruct (parseTemplates_loop P store ts) as [rest' e] eqn:Hrest.
    injection Hloop as <- ->. specialize (IH rest' eq_refl store2).
    cbn [parseTemplates_loop TemplateInfo_Path set_pathTmpl].
    rewrite Hpath. cbv zeta. cbn [contents set_pathTmpl]. rewrite Hc, IH.
    by cbn [TemplateInfo_Name TemplateInfo_Path TemplateInfo_UUID pathTmpl
              finalPath contents set_pathTmpl].
  - cbn [TemplateInfo_UUID TemplateInfo_Name set_pathTmpl] in Hloop.
    destruct (backend_load store (TemplateInfo_UUID t)) as [src|]; [|done].
    destruct (Template_Parse P _) as [err|]; [done|].
    destruct (parseTemplates_loop P store ts) as [rest' e] eqn:Hrest.
    injection Hloop as <- ->. specialize (IH rest' eq_refl store2).
    cbn [parseTemplates_loop TemplateInfo_Path set_pathTmpl set_contents].
    rewrite Hpath. cbv zeta. cbn [contents set_pathTmpl]. by rewrite IH.
Qed.

(** X17: a boot environment that [parseTemplates] has accepted is accepted
    again as it is, whatever the template store then holds: the content
    templates are kept in the environment and are not loaded a second
    time. *)
Theorem parseTemplates_cached (b b1 : BootEnv) (w w' : World) :
  parseTemplates P b w = (w', Returns (b1, None)) →
  ∀ w2, parseTemplates P b1 w2 = (w2, Returns (b1, None)).
Proof.
  unfold parseTemplates. intros Hrun w2.
  destruct (parseTemplates_loop P (templates w) _) as [ts [e|]] eqn:Hloop;
    [done|].
  pose proof (parseTemplates_loop_cached _ _ _ Hloop (templates w2)) as Hagain.
  cbn [BootEnv_BootParams set_Templates] in Hrun.
  case_decide as Hbp.
  - destruct (tmpl_parse P (BootEnv_BootParams b)) eqn:Hparse; [done|].
    injection Hrun as <- <-.
    cbn [BootEnv_Templates BootEnv_BootParams set_Templates
           set_bootParamsTmpl].
    rewrite Hagain. rewrite decide_True by done. by rewrite Hparse.
  - injection Hrun as <- <-.
    cbn [BootEnv_Templates BootEnv_BootParams set_Templates]. rewrite Hagain.
    rewrite decide_False by (intros Hne; by apply Hne).
    by destruct b.
Qed.

End Cached.

(** ** The further properties on the examples *)

(** [RenderTemplates] for [node1], which has the required parameter: the
    seed file holds the rendered template. *)
Lemma RenderTemplates_success_witness :
  let r := RenderTemplates Example.platform Example.ubuntu Example.node1
             Example.empty_world in
  let b' := (returned (Example.ubuntu, None) r).1 in
  r = (r.1, Returns (b', None))
  ∧ missingParams Example.ubuntu Example.node1 = []
  ∧ keeps Example.empty_world r.1
  ∧ fs r.1 !! "/tftpboot/machines/node1/seed"
    = Some (File "d-i netcfg/get_domain string example.com").
Proof.
  intros r b'.
  assert (r = (r.1, Returns (b', None))) as Hr by (vm_compute; reflexivity).
  destruct (RenderTemplates_success Example.platform Example.ubuntu
              Example.node1 Example.empty_world r.1 b' Hr) as (Hm & Hk & Hts).
  split_and!; [done..|].
  destruct (Hts (take 1 (BootEnv_Templates b'))
              (nth 1 (BootEnv_Templates b') Example.seed) [])
    as (tmpl & Ht & _ & Hc); [vm_compute; reflexivity|].
  vm_compute in Ht. injection Ht as <-.
  specialize (Hc ltac:(apply not_elem_of_nil)).
  vm_compute in Hc. vm_compute. exact Hc.
Defined.

(** An update of [netboot] with two machines bound to it. *)
Lemma onChange_exported_witness :
  let r := onChange Example.platform Example.netboot (Some Example.netboot)
             Example.netboot_world in
  let out := returned (Example.netboot, None) r in
  r = (r.1, Returns (out.1, out.2))
  ∧ exported out.1 = exported Example.netboot.
Proof.
  intros r out.
  assert (r = (r.1, Returns (out.1, out.2))) as Hr by (vm_compute; reflexivity).
  split; [done|].
  exact (onChange_exported Example.platform Example.netboot
           (Some Example.netboot) Example.netboot_world r.1 out.1 out.2 Hr).
Defined.

(** The same update: the kernel, the initrd and the downloaded file are in
    place afterwards. *)
Lemma onChange_success_witness :
  let r := onChange Example.platform Example.netboot (Some Example.netboot)
             Example.netboot_world in
  let b' := (returned (Example.netboot, None) r).1 in
  r = (r.1, Returns (b', None))
  ∧ check_structure Example.netboot = None
  ∧ (BootEnv_Kernel Example.netboot ≠ "" →
     is_file (fs r.1 !! diskPath Example.platform Example.netboot
                          (BootEnv_Kernel Example.netboot)))
  ∧ Forall (λ initrd, is_file (fs r.1 !! diskPath Example.platform
                                           Example.netboot initrd))
      (BootEnv_Initrds Example.netboot)
  ∧ Forall (λ f, is_Some (Stat (fs r.1)
                            (diskPath Example.platform Example.netboot
                               (FileData_Name f)))
                 ∨ in_the_way (fs r.1)
                     (diskPath Example.platform Example.netboot
                        (FileData_Name f)) = true)
      (OsInfo_Files (BootEnv_OS Example.netboot))
  ∧ ∀ old, Some Example.netboot = Some old →
           BootEnv_Name old = BootEnv_Name Example.netboot.
Proof.
  intros r b'.
  assert (r = (r.1, Returns (b', None))) as Hr by (vm_compute; reflexivity).
  split; [done|].
  exact (onChange_success Example.platform Example.netboot
           (Some Example.netboot) Example.netboot_world r.1 b' Hr).
Defined.

(** The ISO of [ubuntu] is staged with the expected contents: the script
    runs and leaves the canary marker. *)
Lemma explode_iso_script_witness :
  let r := explode_iso Example.platform Example.ubuntu Example.matching_world in
  extracts Example.platform Example.ubuntu Example.matching_world
  ∧ fs r.1
    = (Example.leave_canary (explode_iso_args Example.platform Example.ubuntu)
         (fs Example.matching_world)).1
  ∧ r.2 = Returns None.
Proof.
  intros r.
  assert (extracts Example.platform Example.ubuntu Example.matching_world)
    as Hx.
  { split_and!; [reflexivity|discriminate|reflexivity|reflexivity|].
    intros _. by exists "abc". }
  destruct (explode_iso_script Example.platform Example.ubuntu
              Example.matching_world r.1 r.2 (surjective_pairing r))
    as [Hrun _].
  destruct (Hrun Hx) as (_ & Hfs & Hr). by split_and!.
Defined.

(** A regular file is where the directory of the ISOs should be: without a
    checksum the script runs all the same, and with one the ISO cannot be
    opened. *)
Example explode_iso_not_a_directory :
  let r := explode_iso Example.platform Example.unchecked
             Example.isos_file_world in
  let r' := explode_iso Example.platform Example.ubuntu
              Example.isos_file_world in
  Stat (fs Example.isos_file_world)
    (isoPath Example.platform Example.unchecked) = None
  ∧ IsNotExist (fs Example.isos_file_world)
      (isoPath Example.platform Example.unchecked) = false
  ∧ r.2 = Returns None
  ∧ effects r.1
    = [ECommand "/explode_iso.sh"
         (explode_iso_args Example.platform Example.unchecked)]
  ∧ r'.2 = Returns (Some (ErrIsoOpen
                            "/tftpboot/isos/ubuntu-16.04-server-amd64.iso"))
  ∧ filter (λ e, is_ECommand e = true) (effects r'.1) = [].
Proof. by vm_compute. Qed.

(** A regular file is in the way of the auxiliary file of [netboot]:
    [onChange] downloads nothing and returns no error, and the file is not
    there. *)
Example onChange_blocked_file :
  let r := onChange Example.platform Example.netboot None
             Example.blocked_world in
  let p := diskPath Example.platform Example.netboot
             (FileData_Name Example.payload) in
  r.2 = Returns ((returned (Example.netboot, None) r).1, None)
  ∧ Stat (fs r.1) p = None
  ∧ in_the_way (fs r.1) p = true
  ∧ fs r.1 = fs Example.blocked_world
  ∧ filter (λ e, is_EHttpGet e = true) (effects r.1) = [].
Proof.
  intros r p.
  split; [vm_compute; reflexivity|].
  split; [vm_compute; reflexivity|].
  split; [vm_compute; reflexivity|].
  split; [vm_compute; reflexivity|].
  vm_compute; reflexivity.
Qed.

(** [ubuntu] given in place of [discovery]: nothing is rendered and the
    change is refused. *)
Lemma onChange_create_witness :
  let r := onChange Example.platform Example.ubuntu (Some Example.discovery)
             Example.empty_world in
  grows prepare_effect Example.empty_world r.1
  ∧ ∀ b', r.2 ≠ Returns (b', None).
Proof.
  intros r.
  destruct (onChange_create Example.platform Example.ubuntu
              (Some Example.discovery) Example.empty_world r.1 r.2)
    as [Hg Hno].
  - intros old [= <-]. discriminate.
  - apply surjective_pairing.
  - split; [done|]. by apply Hno.
Defined.

(** The files of [node1] are rendered and then removed. *)
Lemma DeleteRenderedTemplates_spec_witness :
  let w := (RenderTemplates Example.platform Example.ubuntu Example.node1
              Example.empty_world).1 in
  let r := DeleteRenderedTemplates Example.platform Example.ubuntu
             Example.node1 w in
  let b' := returned Example.ubuntu r in
  r = (r.1, Returns b')
  ∧ is_file (fs w !! "/tftpboot/node1.ipxe")
  ∧ exported b' = exported Example.ubuntu
  ∧ (∀ q n, fs r.1 !! q = Some n → fs w !! q = Some n)
  ∧ (∀ q, q ∉ finalPath <$> BootEnv_Templates b' → fs r.1 !! q = fs w !! q)
  ∧ (∀ t, t ∈ BootEnv_Templates b' → finalPath t ≠ "" →
          ¬ is_file (fs r.1 !! finalPath t))
  ∧ grows (removal_effect (BootEnv_Templates b')) w r.1.
Proof.
  intros w r b'.
  assert (r = (r.1, Returns b')) as Hr by (vm_compute; reflexivity).
  split; [done|]. split; [by vm_compute|].
  exact (DeleteRenderedTemplates_spec Example.platform Example.ubuntu
           Example.node1 w r.1 b' Hr).
Defined.

(** The download of [payload]. *)
Lemma get_file_success_witness :
  let r := get_file Example.platform Example.netboot Example.payload
             Example.empty_world in
  r.2 = Returns None
  ∧ fs r.1 !! "/tftpboot/ubuntu-16.04/install/extra/payload.bin"
    = Some (File "payload")
  ∧ Stat (fs r.1) "/tftpboot/ubuntu-16.04/install/extra" = Some Directory.
Proof.
  intros r.
  assert (r = (r.1, Returns None)) as Hr by (vm_compute; reflexivity).
  destruct (get_file_success Example.platform Example.netboot Example.payload
              Example.empty_world r.1 Hr) as (body & Hget & Hfile & Hdir & _).
  vm_compute in Hget. injection Hget as <-.
  split_and!; [by vm_compute| |].
  - vm_compute in Hfile. vm_compute. exact Hfile.
  - vm_compute in Hdir. vm_compute. exact Hdir.
Defined.

(** The loop over the files of [netboot], with nothing in place. *)
Lemma fetch_files_missing_witness :
  let r := fetch_files Example.platform Example.netboot [Example.payload]
             Example.empty_world in
  keeps Example.empty_world r.1
  ∧ grows (missing_download Example.platform Example.netboot [Example.payload]
             Example.empty_world) Example.empty_world r.1
  ∧ (Forall (present Example.platform Example.netboot Example.empty_world)
       [Example.payload] →
     r.2 = Returns None ∧ fs r.1 = fs Example.empty_world).
Proof.
  intros r.
  exact (fetch_files_missing Example.platform Example.netboot [Example.payload]
           Example.empty_world r.1 r.2 (surjective_pairing r)).
Defined.

(** The boot parameters of [netboot] for [node1]. *)
Lemma BootParams_parsed_witness :
  let r := parseTemplates Example.platform Example.netboot Example.empty_world in
  let b' := (returned (Example.netboot, None) r).1 in
  r = (r.1, Returns (b', None))
  ∧ BootParams Example.platform (mkRenderData Example.platform b' Example.node1)
    = ("console=ttyS0 host=node1", None).
Proof.
  intros r b'.
  assert (r = (r.1, Returns (b', None))) as Hr by (vm_compute; reflexivity).
  split; [done|].
  rewrite (BootParams_parsed Example.platform Example.netboot b' Example.node1
             Example.empty_world r.1 Hr).
  by vm_compute.
Defined.

(** The install URL of [ubuntu]. *)
Lemma InstallUrl_PathFor_witness :
  GoPathFacts.plain (OsInfo_Name (BootEnv_OS Example.ubuntu))
  ∧ PathFor Example.platform Example.ubuntu "http" "" Example.empty_world
    = (Example.empty_world,
       Returns (InstallUrl Example.platform (BootEnv_OS Example.ubuntu))).
Proof.
  assert (GoPathFacts.plain (OsInfo_Name (BootEnv_OS Example.ubuntu))) as Hp
    by (by repeat split).
  destruct (InstallUrl_PathFor Example.platform Example.ubuntu
              Example.empty_world Hp) as [Hurl _].
  split; [done|]. apply Hurl. discriminate.
Defined.

(** The key of [ubuntu]. *)
Lemma BootEnv_key_plain_witness :
  GoPathFacts.plain (BootEnv_Name Example.ubuntu)
  ∧ BootEnv_key Example.ubuntu = "bootenvs/" +:+ BootEnv_Name Example.ubuntu.
Proof.
  assert (GoPathFacts.plain (BootEnv_Name Example.ubuntu)) as Hp
    by (by repeat split).
  destruct (BootEnv_key_plain Example.ubuntu Example.ubuntu Hp) as [Hkey _].
  by split.
Defined.

(** [ubuntu] is compiled, and again with a template store that is empty. *)
Lemma parseTemplates_cached_witness :
  let r := parseTemplates Example.platform Example.ubuntu Example.empty_world in
  let b1 := (returned (Example.ubuntu, None) r).1 in
  let w2 := Example.world [] [] (inr []) in
  r = (r.1, Returns (b1, None))
  ∧ parseTemplates Example.platform b1 w2 = (w2, Returns (b1, None)).
Proof.
  intros r b1 w2.
  assert (r = (r.1, Returns (b1, None))) as Hr by (vm_compute; reflexivity).
  split; [done|].
  exact (parseTemplates_cached Example.platform Example.ubuntu b1
           Example.empty_world r.1 Hr w2).
Defined.
